(** * The humanization pipeline of ai-text-humanizer, embedded in Rocq

    The development follows the Python sources:
    - [app/services/engine.py]             ([HumanizerEngine], [DetectionEvasion]),
    - [app/services/humanizer_service.py]  ([HumanizerService]),
    - [app/api/v1/humanize.py]             (the HTTP / WebSocket endpoints),
    - [app/api/v1/analyze.py]              (the analysis endpoints).

    Conventions of the embedding.
    - A Python [str] is a Rocq [string].  The model is exact on ASCII text;
      whitespace is Python's [str.isspace] on the ASCII range and the case
      mappings act on the ASCII letters; other bytes are caseless and are
      not white space.
    - A Python [float] (intensity, a random draw, a similarity score) is an
      exact rational in [Q].
    - The process-wide generator of module [random] is an explicit state
      [Rng]: an infinite sequence of uniform draws and a cursor.  Every call
      of [random.random], [random.randint] and [random.choice] consumes one
      draw.
    - Python exceptions are the [Raise] results of the monad [M]. *)

From Stdlib Require Import String Ascii List ZArith QArith Qround Lia Bool Arith.
From Stdlib Require Import DecimalString DecimalNat.
Import ListNotations.
Local Close Scope Q_scope.
Local Open Scope string_scope.
Local Open Scope nat_scope.

(** ** Python strings *)

Module PyStr.

(** [str.isspace] on one ASCII character: TAB, LF, VT, FF, CR, the four
    separators FS GS RS US, and the blank. *)
Definition isspace (c : ascii) : bool :=
  let n := nat_of_ascii c in
  ((9 <=? n) && (n <=? 13)) || ((28 <=? n) && (n <=? 32)).

Definition is_upper (c : ascii) : bool :=
  let n := nat_of_ascii c in (65 <=? n) && (n <=? 90).

Definition is_lower (c : ascii) : bool :=
  let n := nat_of_ascii c in (97 <=? n) && (n <=? 122).

Definition lower_char (c : ascii) : ascii :=
  if is_upper c then ascii_of_nat (nat_of_ascii c + 32) else c.

Definition upper_char (c : ascii) : ascii :=
  if is_lower c then ascii_of_nat (nat_of_ascii c - 32) else c.

(** [s.lower()] *)
Fixpoint lower (s : string) : string :=
  match s with
  | EmptyString => EmptyString
  | String c r => String (lower_char c) (lower r)
  end.

(** [s.capitalize()]: first character upper-cased, the rest lower-cased. *)
Definition capitalize (s : string) : string :=
  match s with
  | EmptyString => EmptyString
  | String c r => String (upper_char c) (lower r)
  end.

Fixpoint rev_onto (s acc : string) : string :=
  match s with
  | EmptyString => acc
  | String c r => rev_onto r (String c acc)
  end.

Definition rev (s : string) : string := rev_onto s EmptyString.

Fixpoint lstrip (s : string) : string :=
  match s with
  | EmptyString => EmptyString
  | String c r => if isspace c then lstrip r else s
  end.

Definition rstrip (s : string) : string := rev (lstrip (rev s)).

(** [s.strip()] *)
Definition strip (s : string) : string := rstrip (lstrip s).

(** Python truthiness of a string. *)
Definition nonempty (s : string) : bool :=
  match s with EmptyString => false | _ => true end.

(** [sep.join(l)] *)
Fixpoint join (sep : string) (l : list string) : string :=
  match l with
  | [] => EmptyString
  | [x] => x
  | x :: r => x ++ sep ++ join sep r
  end.

(** [s.split()]: split on runs of white space, no empty pieces.  [cur] is
    the piece being read, reversed. *)
Fixpoint split_ws_aux (s cur : string) : list string :=
  match s with
  | EmptyString => if nonempty cur then [rev cur] else []
  | String c r =>
      if isspace c
      then (if nonempty cur then rev cur :: split_ws_aux r EmptyString
            else split_ws_aux r EmptyString)
      else split_ws_aux r (String c cur)
  end.

Definition split_ws (s : string) : list string := split_ws_aux s EmptyString.

(** [s.split(c)] for a one-character separator: empty pieces are kept. *)
Fixpoint split_char_aux (sep : ascii) (s cur : string) : list string :=
  match s with
  | EmptyString => [rev cur]
  | String c r =>
      if Ascii.eqb c sep
      then rev cur :: split_char_aux sep r EmptyString
      else split_char_aux sep r (String c cur)
  end.

Definition split_char (sep : ascii) (s : string) : list string :=
  split_char_aux sep s EmptyString.

(** [sub in s] *)
Fixpoint contains (sub s : string) : bool :=
  if prefix sub s then true
  else match s with
       | EmptyString => false
       | String _ r => contains sub r
       end.

(** [s.replace(old, new)] for a non-empty [old]: left to right, matches do
    not overlap.  [skip] counts the characters of a match still to drop. *)
Fixpoint replace_aux (old new s : string) (skip : nat) : string :=
  match s with
  | EmptyString => EmptyString
  | String c r =>
      match skip with
      | S k => replace_aux old new r k
      | O =>
          if prefix old s
          then new ++ replace_aux old new r (String.length old - 1)
          else String c (replace_aux old new r 0)
      end
  end.

Definition replace (old new s : string) : string := replace_aux old new s 0.

(** [s.replace(old, new, 1)] for a non-empty [old]. *)
Fixpoint replace_first (old new s : string) : string :=
  match s with
  | EmptyString => EmptyString
  | String c r =>
      if prefix old s
      then new ++ substring (String.length old) (String.length s) s
      else String c (replace_first old new r)
  end.

(** [x in l] for a list of strings. *)
Definition mem (x : string) (l : list string) : bool :=
  existsb (String.eqb x) l.

(** [re.split(r'(?<=[.!?])\s+', s)].  A match starts at a white-space
    character that follows one of [.], [!], [?] and takes the whole run of
    white space.  [skipping] says that a match is being consumed,
    [after_punct] that the previous character is a sentence-final mark, and
    [cur] is the piece being read, reversed. *)
Definition is_final_mark (c : ascii) : bool :=
  Ascii.eqb c "." || Ascii.eqb c "!" || Ascii.eqb c "?".

Fixpoint re_split_aux (s cur : string) (skipping after_punct : bool)
  : list string :=
  match s with
  | EmptyString => [rev cur]
  | String c r =>
      if isspace c then
        if skipping then re_split_aux r cur true false
        else if after_punct then rev cur :: re_split_aux r EmptyString true false
        else re_split_aux r (String c cur) false false
      else re_split_aux r (String c cur) false (is_final_mark c)
  end.

Definition re_split_sentences (s : string) : list string :=
  re_split_aux s EmptyString false false.

End PyStr.

(** ** Python lists *)

Module PyList.

(** [l[i] = x]; [None] is Python's [IndexError]. *)
Fixpoint set_item {A} (l : list A) (i : nat) (x : A) : option (list A) :=
  match l, i with
  | [], _ => None
  | _ :: r, O => Some (x :: r)
  | y :: r, S k => option_map (cons y) (set_item r k x)
  end.

(** [l.insert(i, x)] for [0 <= i]; past the end it appends. *)
Fixpoint insert {A} (l : list A) (i : nat) (x : A) : list A :=
  match i, l with
  | O, _ => x :: l
  | S k, [] => [x]
  | S k, y :: r => y :: insert r k x
  end.

End PyList.

(** ** Exceptions, the random source and the monad of the pipeline *)

Inductive PyExn : Type :=
| IndexError (msg : string)
| ValueError (msg : string)
| RuntimeError (msg : string)
| AttributeError (msg : string).

(** [str(e)] *)
Definition str_exn (e : PyExn) : string :=
  match e with
  | IndexError msg | ValueError msg | RuntimeError msg | AttributeError msg =>
      msg
  end.

Inductive Exc (A : Type) : Type :=
| Ok (a : A)
| Raise (e : PyExn).

Arguments Ok {A} a.
Arguments Raise {A} e.

(** The generator of module [random]: the draws it will deliver, each a
    float of [0, 1), and the number of draws consumed so far. *)
Record Rng : Type := mkRng { draws : nat -> Q; cursor : nat }.

(** Every draw lies in [0, 1), as [random.random] guarantees. *)
Definition uniform (d : nat -> Q) : Prop :=
  forall n, (0 <= d n)%Q /\ (d n < 1)%Q.

(** A computation reads and advances the generator and may raise; the
    draws consumed before an exception stay consumed. *)
Definition M (A : Type) : Type := Rng -> Exc A * Rng.

Definition ret {A} (a : A) : M A := fun r => (Ok a, r).

Definition bind {A B} (c : M A) (k : A -> M B) : M B :=
  fun r => match c r with
           | (Ok a, r') => k a r'
           | (Raise e, r') => (Raise e, r')
           end.

Definition raise {A} (e : PyExn) : M A := fun r => (Raise e, r).

Declare Scope py_scope.
Delimit Scope py_scope with py.
Notation "x <- c ;; k" := (bind c (fun x => k))
  (at level 61, c at next level, right associativity) : py_scope.
Local Open Scope py_scope.

(** Strict comparison of two floats, [x < y]. *)
Definition Qltb (x y : Q) : bool :=
  (Qnum x * QDen y <? Qnum y * QDen x)%Z.

(** [random.random()] *)
Definition random : M Q :=
  fun r => (Ok (draws r (cursor r)), mkRng (draws r) (S (cursor r))).

(** [random.random() < p] *)
Definition chance (p : Q) : M bool :=
  u <- random ;; ret (Qltb u p).

(** [b and c]: the right operand is evaluated only when [b] holds. *)
Definition and_then (b : bool) (c : M bool) : M bool :=
  if b then c else ret false.

(** The index in [0, n) selected by a draw [u]. *)
Definition scale (u : Q) (n : nat) : nat :=
  Z.to_nat (Qfloor (u * inject_Z (Z.of_nat n))).

(** [random.randint(a, b)] for [a <= b]: an integer of [a, b]. *)
Definition randint (a b : nat) : M nat :=
  u <- random ;; ret (a + scale u (b + 1 - a)).

(** [random.choice(l)]; an empty [l] raises [IndexError]. *)
Definition choice {A} (l : list A) : M A :=
  match l with
  | [] => raise (IndexError "Cannot choose from an empty sequence")
  | d :: _ => u <- random ;; ret (nth (scale u (length l)) l d)
  end.

(** [l[i]] and [l[i] = x] for [0 <= i]. *)
Definition get_item (l : list string) (i : nat) : M string :=
  match nth_error l i with
  | Some x => ret x
  | None => raise (IndexError "list index out of range")
  end.

Definition set_item (l : list string) (i : nat) (x : string) : M (list string) :=
  match PyList.set_item l i x with
  | Some l' => ret l'
  | None => raise (IndexError "list assignment index out of range")
  end.

(** [for i, x in enumerate(l): out.append(body(i, x))], from index [i]. *)
Fixpoint for_enumerate {A B} (body : nat -> A -> M B) (i : nat) (l : list A)
  : M (list B) :=
  match l with
  | [] => ret []
  | x :: rest =>
      y <- body i x ;;
      ys <- for_enumerate body (S i) rest ;;
      ret (y :: ys)
  end.

(** ** The engine: [HumanizerEngine] of [app/services/engine.py] *)

Module Engine.

(** The attributes of a [HumanizerEngine] instance that the pipeline reads
    or writes. *)
Record t : Type := mk {
  device : string;
  model_size : string;
  techniques : list string;
  models_loaded : bool
}.

Definition default_techniques : list string :=
  ["sentence_variation"; "perplexity_modulation"; "stylistic_injection";
   "semantic_paraphrasing"; "human_patterns"].

(** Python truthiness of an optional list: [None] and [[]] are false. *)
Definition truthy {A} (o : option (list A)) : bool :=
  match o with
  | Some (_ :: _) => true
  | _ => false
  end.

(** [HumanizerEngine.__init__]; [cuda] is [torch.cuda.is_available()].
    [_init_models] leaves [models_loaded] false. *)
Definition init (cuda use_gpu : bool) (model_size : string)
    (techniques : option (list string)) : t :=
  {| device := if use_gpu && cuda then "cuda" else "cpu";
     model_size := model_size;
     techniques := match techniques with
                   | Some (x :: l) => x :: l
                   | _ => default_techniques
                   end;
     models_loaded := false |}.

(** [_load_models]: the models are materialised and the flag is set. *)
Definition load_models (self : t) : t :=
  {| device := device self; model_size := model_size self;
     techniques := techniques self; models_loaded := true |}.

(** *** Pattern banks, [_init_pattern_banks] *)

Definition transitions : list string :=
  ["Actually,"; "You know,"; "To be honest,"; "Interestingly,";
   "Here's the thing:"; "The way I see it,"; "From my perspective,";
   "Let me explain:"; "Basically,"; "In other words,"; "Simply put,";
   "Well,"; "So,"; "Now,"; "Look,"; "See,"; "Anyway,"; "Besides,"].

Definition fillers : list string :=
  ["kind of"; "sort of"; "pretty much"; "more or less"; "essentially";
   "basically"; "actually"; "really"; "quite"; "rather"; "somewhat";
   "perhaps"; "maybe"; "probably"; "I think"; "I believe"; "it seems"].

Definition personal_touches : list string :=
  ["I'd say"; "I mean"; "if you ask me"; "in my experience";
   "from what I've seen"; "personally"; "honestly"].

Definition imperfections : list (string * string * Q) :=
  [("it's", "its", 0.02%Q); ("their", "there", 0.01%Q);
   ("effect", "affect", 0.01%Q); ("who", "that", 0.03%Q)].

Definition contractions : list (string * string) :=
  [("it is", "it's"); ("is not", "isn't"); ("cannot", "can't");
   ("will not", "won't"); ("do not", "don't"); ("I am", "I'm");
   ("you are", "you're"); ("they are", "they're")].

Definition questions : list string :=
  ["You know what?"; "But here's the question:";
   "Want to know something interesting?"; "Guess what?"].

Definition synonym_table : list (string * list string) :=
  [("good", ["great"; "fine"; "nice"; "excellent"; "solid"]);
   ("bad", ["poor"; "terrible"; "awful"; "lousy"]);
   ("big", ["large"; "huge"; "massive"; "enormous"]);
   ("small", ["little"; "tiny"; "minor"; "slight"]);
   ("fast", ["quick"; "rapid"; "speedy"; "swift"]);
   ("slow", ["gradual"; "leisurely"; "sluggish"])].

(** [_get_simple_synonyms]: [synonyms.get(word.lower(), [])] *)
Fixpoint lookup (k : string) (tbl : list (string * list string)) : list string :=
  match tbl with
  | [] => []
  | (k', v) :: r => if String.eqb k k' then v else lookup k r
  end.

Definition get_simple_synonyms (word : string) : list string :=
  lookup (PyStr.lower word) synonym_table.

(** [_split_sentences] *)
Definition split_sentences (text : string) : list string :=
  map PyStr.strip
      (filter (fun s => PyStr.nonempty (PyStr.strip s))
              (PyStr.re_split_sentences text)).

(** The paragraph separator, two line feeds. *)
Definition para_break : string :=
  String (ascii_of_nat 10) (String (ascii_of_nat 10) EmptyString).

(** *** [_vary_sentence_structure] *)

Definition split_marks : list string :=
  [","; "and"; "but"; "or"; "while"; "although"].

(** [for i in range(i, i + n): if i < len(words) and words[i] in marks:
    ...; break]: the first index that qualifies. *)
Fixpoint find_split (words : list string) (i n : nat) : option nat :=
  match n with
  | O => None
  | S k =>
      if (i <? length words) && PyStr.mem (nth i words "") split_marks
      then Some i
      else find_split words (S i) k
  end.

Definition vary_sentence_structure (sentence : string) (intensity : Q)
  : M string :=
  let words := PyStr.split_ws sentence in
  cut <- and_then (15 <? length words) (chance (intensity * 0.5)) ;;
  let sentence :=
    if cut then
      let mid := length words / 2 in
      match find_split words (mid - 3) 6 with
      | Some i =>
          PyStr.join " " (firstn i words) ++ ". "
          ++ PyStr.capitalize (PyStr.join " " (skipn (i + 1) words))
      | None => sentence
      end
    else sentence in
  swap <- and_then (PyStr.contains "," sentence) (chance (intensity * 0.3)) ;;
  ret (if swap then
         match PyStr.split_char "," sentence with
         | [p0; p1] =>
             PyStr.capitalize (PyStr.strip p1) ++ ", "
             ++ PyStr.lower (PyStr.strip p0)
         | _ => sentence
         end
       else sentence).

(** *** [_add_human_patterns] *)

(** [for correct, variant, chance in self.imperfections: ...] *)
Fixpoint apply_imperfections (l : list (string * string * Q))
    (sentence : string) : M string :=
  match l with
  | [] => ret sentence
  | (correct, variant, p) :: r =>
      hit <- and_then (PyStr.contains correct sentence) (chance p) ;;
      apply_imperfections r
        (if hit then PyStr.replace_first correct variant sentence
         else sentence)
  end.

Definition add_human_patterns (sentence : string) (intensity : Q)
  : M string :=
  fill <- chance (intensity * 0.2) ;;
  sentence <-
    (if fill then
       filler <- choice fillers ;;
       let words := PyStr.split_ws sentence in
       if 3 <? length words then
         insert_pos <- randint 1 (length words - 1) ;;
         ret (PyStr.join " " (PyList.insert words insert_pos filler))
       else ret sentence
     else ret sentence) ;;
  contract <- chance (intensity * 0.4) ;;
  let sentence :=
    if contract then
      fold_left (fun s fi => PyStr.replace (fst fi) (snd fi) s)
                contractions sentence
    else sentence in
  slip <- chance (intensity * 0.05) ;;
  sentence <-
    (if slip then apply_imperfections imperfections sentence
     else ret sentence) ;;
  personal <- chance (intensity * 0.15) ;;
  if personal then
    touch <- choice personal_touches ;;
    ret (touch ++ ", " ++ PyStr.lower sentence)
  else ret sentence.

(** *** [_inject_style] *)

Definition plain_words : list string :=
  ["the"; "a"; "an"; "and"; "or"; "but"].

Definition inject_style (sentence : string) (intensity : Q) : M string :=
  u <- random ;;
  if Qltb intensity u then ret sentence
  else
    ask <- chance 0.1 ;;
    sentence <-
      (if ask then
         q <- choice questions ;;
         ret (q ++ " " ++ sentence)
       else ret sentence) ;;
    let words := PyStr.split_ws sentence in
    stress <- and_then (5 <? length words) (chance 0.15) ;;
    words <-
      (if stress then
         idx <- randint 1 (length words - 2) ;;
         w <- get_item words idx ;;
         if negb (PyStr.mem w plain_words)
         then set_item words idx ("*" ++ w ++ "*")
         else ret words
       else ret words) ;;
    ret (PyStr.join " " words).

(** *** [_create_paragraph_variation] *)

(** The loop: [paragraph] is the paragraph being filled; the value is the
    list [result] of joined paragraphs.  The last sentence is the one with
    [i == len(sentences) - 1]. *)
Fixpoint paragraph_loop (intensity : Q) (sentences paragraph : list string)
  : M (list string) :=
  match sentences with
  | [] =>
      (* after the loop: [if paragraph: result.append(...)] *)
      ret (match paragraph with
           | [] => []
           | _ => [PyStr.join " " paragraph]
           end)
  | sentence :: rest =>
      let paragraph := (paragraph ++ [sentence])%list in
      para_length <-
        (if Qltb 0.5 intensity then randint 2 5 else randint 3 6) ;;
      let last := match rest with [] => true | _ => false end in
      if (para_length <=? length paragraph) || last then
        result <- paragraph_loop intensity rest [] ;;
        ret (PyStr.join " " paragraph :: result)
      else paragraph_loop intensity rest paragraph
  end.

Definition create_paragraph_variation (sentences : list string)
    (intensity : Q) : M string :=
  result <- paragraph_loop intensity sentences [] ;;
  ret (if 1 <? length result
       then PyStr.join para_break result
       else PyStr.join " " sentences).

(** *** The techniques that call an external model *)

Section Providers.

(** The paraphrase model: prompt, [max_length] and sampling temperature
    to the decoded text; [None] is any exception of the call. *)
Variable paraphraser : string -> nat -> Q -> option string.

(** The tagger [self.nlp]: the tokens of a sentence, each with its text
    and its part of speech [pos_]; [token.i] is the position of the
    token in this sequence. *)
Variable nlp : string -> list (string * string).

(** Cosine similarity of the embeddings of two sentences, as computed
    from [self.semantic_encoder.encode]. *)
Variable similarity : string -> string -> Q.

(** [_paraphrase_sentence] *)
Definition paraphrase_sentence (sentence : string) (intensity : Q)
  : M string :=
  u <- random ;;
  if Qltb intensity u then ret sentence
  else
    match paraphraser ("paraphrase: " ++ sentence)
                      (length (PyStr.split_ws sentence) * 2)
                      (0.7 + intensity * 0.5)%Q with
    | Some paraphrased => ret paraphrased
    | None => ret sentence
    end.

Definition content_tags : list string := ["NOUN"; "VERB"; "ADJ"; "ADV"].

(** [for token in doc: ...] of [_modulate_perplexity]; [i] is [token.i]
    of the first token of [doc]. *)
Fixpoint modulate_tokens (intensity : Q) (doc : list (string * string))
    (i : nat) (words : list string) : M (list string) :=
  match doc with
  | [] => ret words
  | (text, pos) :: rest =>
      hit <- chance (intensity * 0.1) ;;
      words <-
        (if hit && PyStr.mem pos content_tags then
           match get_simple_synonyms text with
           | [] => ret words
           | synonyms =>
               w <- choice synonyms ;;
               set_item words i w
           end
         else ret words) ;;
      modulate_tokens intensity rest (S i) words
  end.

(** [_modulate_perplexity] *)
Definition modulate_perplexity (sentence : string) (intensity : Q)
  : M string :=
  let words := PyStr.split_ws sentence in
  let doc := nlp sentence in
  words <- modulate_tokens intensity doc 0 words ;;
  ret (PyStr.join " " words).

(** [if name in self.techniques: sentence = f(sentence, intensity)] *)
Definition when_enabled (self : t) (name : string)
    (f : string -> Q -> M string) (sentence : string) (intensity : Q)
  : M string :=
  if PyStr.mem name (techniques self) then f sentence intensity
  else ret sentence.

(** The body of the loop of [_fast_humanize], for the sentence of
    index [i]. *)
Definition fast_step (self : t) (intensity : Q) (i : nat)
    (sentence : string) : M string :=
  sentence <- when_enabled self "sentence_variation"
                vary_sentence_structure sentence intensity ;;
  sentence <- when_enabled self "human_patterns"
                add_human_patterns sentence intensity ;;
  link <- and_then (0 <? i) (chance (intensity * 0.3)) ;;
  if link then
    transition <- choice transitions ;;
    ret (transition ++ " " ++ PyStr.lower sentence)
  else ret sentence.

(** [_fast_humanize] *)
Definition fast_humanize (self : t) (sentences : list string)
    (intensity : Q) : M string :=
  result <- for_enumerate (fast_step self intensity) 0 sentences ;;
  create_paragraph_variation result intensity.

(** The technique chain of the loop of [_full_humanize]. *)
Definition full_chain (self : t) (intensity : Q) (sentence : string)
  : M string :=
  sentence <- when_enabled self "semantic_paraphrasing"
                paraphrase_sentence sentence intensity ;;
  sentence <- when_enabled self "sentence_variation"
                vary_sentence_structure sentence intensity ;;
  sentence <- when_enabled self "perplexity_modulation"
                modulate_perplexity sentence intensity ;;
  sentence <- when_enabled self "stylistic_injection"
                inject_style sentence intensity ;;
  when_enabled self "human_patterns"
    add_human_patterns sentence intensity.

(** The body of the loop of [_full_humanize]: [original] is
    [sentences[i]], the value the loop variable starts with. *)
Definition full_step (self : t) (intensity : Q) (preserve_meaning : bool)
    (i : nat) (original : string) : M string :=
  sentence <- full_chain self intensity original ;;
  if preserve_meaning then
    if Qltb (similarity original sentence) 0.7
    then add_human_patterns original (intensity * 0.5)
    else ret sentence
  else ret sentence.

(** [_full_humanize] *)
Definition full_humanize (self : t) (sentences : list string)
    (intensity : Q) (preserve_meaning : bool) : M string :=
  result <- for_enumerate (full_step self intensity preserve_meaning)
              0 sentences ;;
  create_paragraph_variation result intensity.

(** [humanize].  Its first step, [_load_models] when the models are not
    loaded yet, is assumed to succeed; it leaves the engine as
    [load_models self], whatever happens next. *)
Definition humanize (self : t) (text : string) (intensity : Q)
    (preserve_meaning fast_mode : bool) : M string :=
  let sentences := split_sentences text in
  if fast_mode then fast_humanize self sentences intensity
  else full_humanize self sentences intensity preserve_meaning.

End Providers.

End Engine.

(** ** [DetectionEvasion] of [app/services/engine.py] *)

Module DetectionEvasion.

Definition utf8 (a b c : nat) : string :=
  String (ascii_of_nat a) (String (ascii_of_nat b)
    (String (ascii_of_nat c) EmptyString)).

(** U+2014, U+2013 and U+200B in UTF-8. *)
Definition em_dash : string := utf8 226 128 148.
Definition en_dash : string := utf8 226 128 147.
Definition zero_width_space : string := utf8 226 128 139.

Definition dquote : string := String (ascii_of_nat 34) EmptyString.

(** [add_unicode_variations(text)], with the default rate 0.001. *)
Definition add_unicode_variations (text : string) : M string :=
  hit <- chance 0.001 ;;
  ret (if hit
       then PyStr.replace_first " " (" " ++ zero_width_space) text
       else text).

(** [vary_punctuation] *)
Definition vary_punctuation (text : string) : M string :=
  em <- chance 0.5 ;;
  let text :=
    PyStr.replace " - "
      (if em then " " ++ em_dash ++ " " else " " ++ en_dash ++ " ") text in
  if PyStr.contains dquote text then
    q <- chance 0.3 ;;
    ret (if q
         then PyStr.replace_first dquote dquote
                (PyStr.replace_first dquote dquote text)
         else text)
  else ret text.

End DetectionEvasion.

(** ** The service: [HumanizerService] of
       [app/services/humanizer_service.py] *)

Module Service.

(** The model settings read from [app.core.config.settings]. *)
Record Settings : Type := {
  USE_GPU : bool;
  MODEL_SIZE_FAST : string;
  MODEL_SIZE_BALANCED : string;
  MODEL_SIZE_QUALITY : string
}.

Definition settings : Settings :=
  {| USE_GPU := true; MODEL_SIZE_FAST := "small";
     MODEL_SIZE_BALANCED := "medium"; MODEL_SIZE_QUALITY := "large" |}.

(** The three engines are objects shared by every request: an engine is
    stored here once, and a write to its attributes is a write to this
    record. *)
Record t : Type := mk {
  fast_humanizer : option Engine.t;
  standard_humanizer : option Engine.t;
  advanced_humanizer : option Engine.t;
  initialized : bool
}.

(** [HumanizerService.__init__] *)
Definition new : t :=
  {| fast_humanizer := None; standard_humanizer := None;
     advanced_humanizer := None; initialized := false |}.

(** [initialize]; [cuda] is [torch.cuda.is_available()]. *)
Definition initialize (cuda : bool) (self : t) : t :=
  if initialized self then self
  else
    {| fast_humanizer :=
         Some (Engine.init cuda false (MODEL_SIZE_FAST settings)
                 (Some ["sentence_variation"; "human_patterns"]));
       standard_humanizer :=
         Some (Engine.init cuda (USE_GPU settings && cuda)
                 (MODEL_SIZE_BALANCED settings)
                 (Some ["sentence_variation"; "human_patterns";
                        "semantic_paraphrasing"]));
       advanced_humanizer :=
         Some (Engine.init cuda (USE_GPU settings && cuda)
                 (MODEL_SIZE_QUALITY settings)
                 (Some ["sentence_variation"; "perplexity_modulation";
                        "stylistic_injection"; "semantic_paraphrasing";
                        "human_patterns"]));
       initialized := true |}.

(** [get_humanizer] *)
Definition get_humanizer (self : t) (mode : string)
  : Exc (option Engine.t) :=
  if negb (initialized self)
  then Raise (RuntimeError "Humanizer service not initialized")
  else if String.eqb mode "fast" then Ok (fast_humanizer self)
  else if String.eqb mode "balanced" then Ok (standard_humanizer self)
  else if String.eqb mode "quality" then Ok (advanced_humanizer self)
  else Raise (ValueError ("Invalid mode: " ++ mode)).

(** [is_initialized] *)
Definition is_initialized (self : t) : bool := initialized self.

(** The service after a write to the engine that [get_humanizer] returns
    for [mode] (one of the three valid modes). *)
Definition update (self : t) (mode : string) (e : Engine.t) : t :=
  if String.eqb mode "fast" then
    {| fast_humanizer := Some e;
       standard_humanizer := standard_humanizer self;
       advanced_humanizer := advanced_humanizer self;
       initialized := initialized self |}
  else if String.eqb mode "balanced" then
    {| fast_humanizer := fast_humanizer self;
       standard_humanizer := Some e;
       advanced_humanizer := advanced_humanizer self;
       initialized := initialized self |}
  else
    {| fast_humanizer := fast_humanizer self;
       standard_humanizer := standard_humanizer self;
       advanced_humanizer := Some e;
       initialized := initialized self |}.

End Service.

(** ** The endpoints of [app/api/v1/humanize.py] *)

Module Api.

(** The outcome of a handler: a response body, or [HTTPException]. *)
Inductive Http (A : Type) : Type :=
| Http200 (body : A)
| HTTPException (status_code : nat) (detail : string).

Arguments Http200 {A} body.
Arguments HTTPException {A} status_code detail.

(** [except ValueError: 400] and [except Exception: 500] *)
Definition http_of_exn {A} (e : PyExn) : Http A :=
  match e with
  | ValueError msg => HTTPException 400 msg
  | _ => HTTPException 500 (str_exn e)
  end.

(** The fields of [HumanizeRequest] that the handler reads. *)
Record HumanizeRequest : Type := {
  text : string;
  mode : string;
  intensity : Q;
  preserve_meaning : bool;
  techniques : option (list string);
  cache : bool
}.

(** [HumanizeResponse], without the wall-clock [processing_time]. *)
Record HumanizeResponse : Type := {
  original_text : string;
  humanized_text : string;
  response_mode : string;
  techniques_applied : list string;
  similarity_score : option Q;
  cached : bool
}.

Record BatchHumanizeRequest : Type := {
  texts : list string;
  batch_mode : string;
  batch_intensity : Q
}.

(** [BatchHumanizeResponse], without [processing_time]; a result is the
    pair of the [original] and the [humanized] text. *)
Record BatchHumanizeResponse : Type := {
  results : list (string * string);
  total_texts : nat;
  batch_response_mode : string
}.

(** [await asyncio.gather] on the tasks for coroutines that never suspend:
    every task runs, in order, and the first exception is the outcome. *)
Fixpoint gather {A} (tasks : list (M A)) : M (list A) :=
  fun r =>
    match tasks with
    | [] => (Ok [], r)
    | task :: rest =>
        let (x, r1) := task r in
        let (xs, r2) := gather rest r1 in
        (match x, xs with
         | Ok a, Ok l => Ok (a :: l)
         | Raise e, _ => Raise e
         | Ok _, Raise e => Raise e
         end, r2)
    end.

Definition set_techniques (e : Engine.t) (l : list string) : Engine.t :=
  {| Engine.device := Engine.device e;
     Engine.model_size := Engine.model_size e;
     Engine.techniques := l;
     Engine.models_loaded := Engine.models_loaded e |}.

Section Endpoints.

(** The method [humanize] of the engine objects held by the service:
    [text], [intensity], [preserve_meaning], [fast_mode]. *)
Variable humanize : Engine.t -> string -> Q -> bool -> bool -> M string.

(** The similarity score of the response, computed by a fresh encoder;
    [None] when that computation raises. *)
Variable score : string -> string -> option Q.

(** The statements of [humanize_text] from the call of [humanize] to the
    construction of the response. *)
Definition respond (humanizer : Engine.t) (request : HumanizeRequest)
  : M HumanizeResponse :=
  let fast_mode := String.eqb (mode request) "fast" in
  humanized <- humanize humanizer (text request) (intensity request)
                 (preserve_meaning request) fast_mode ;;
  humanized <- DetectionEvasion.vary_punctuation humanized ;;
  humanized <-
    (if Qltb 0.8 (intensity request)
     then DetectionEvasion.add_unicode_variations humanized
     else ret humanized) ;;
  ret {| original_text := text request;
         humanized_text := humanized;
         response_mode := mode request;
         techniques_applied := Engine.techniques humanizer;
         similarity_score :=
           if preserve_meaning request && negb fast_mode
           then score (text request) humanized else None;
         cached := false |}.

(** [humanize_text].  [cache_entry] is what the cache holds for the key
    of the request.  The value is the outcome, the service and the
    generator after the call. *)
Definition humanize_text (cache_entry : option HumanizeResponse)
    (request : HumanizeRequest) (svc : Service.t) (rng : Rng)
  : Http HumanizeResponse * Service.t * Rng :=
  match (if cache request then cache_entry else None) with
  | Some hit =>
      (Http200 {| original_text := original_text hit;
                  humanized_text := humanized_text hit;
                  response_mode := response_mode hit;
                  techniques_applied := techniques_applied hit;
                  similarity_score := similarity_score hit;
                  cached := true |}, svc, rng)
  | None =>
      match Service.get_humanizer svc (mode request) with
      | Raise e => (http_of_exn e, svc, rng)
      | Ok None =>
          (HTTPException 500
             (if Engine.truthy (techniques request)
              then "'NoneType' object has no attribute 'techniques'"
              else "'NoneType' object has no attribute 'humanize'"),
           svc, rng)
      | Ok (Some humanizer) =>
          (* if request.techniques: humanizer.techniques = ... *)
          let humanizer :=
            match techniques request with
            | Some (x :: l) => set_techniques humanizer (x :: l)
            | _ => humanizer
            end in
          let svc :=
            Service.update svc (mode request)
              (Engine.load_models humanizer) in
          match respond humanizer request rng with
          | (Ok response, rng') => (Http200 response, svc, rng')
          | (Raise e, rng') => (http_of_exn e, svc, rng')
          end
      end
  end.

(** [process_text] of [humanize_batch] *)
Definition process_text (humanizer : option Engine.t)
    (request : BatchHumanizeRequest) (text : string) : M string :=
  match humanizer with
  | Some h => humanize h text (batch_intensity request) true true
  | None =>
      raise (AttributeError "'NoneType' object has no attribute 'humanize'")
  end.

(** [humanize_batch] *)
Definition humanize_batch (request : BatchHumanizeRequest)
    (svc : Service.t) (rng : Rng)
  : Http BatchHumanizeResponse * Service.t * Rng :=
  match Service.get_humanizer svc (batch_mode request) with
  | Raise e => (HTTPException 500 (str_exn e), svc, rng)
  | Ok humanizer =>
      let tasks := map (process_text humanizer request) (texts request) in
      let svc :=
        match humanizer, texts request with
        | Some h, _ :: _ =>
            Service.update svc (batch_mode request) (Engine.load_models h)
        | _, _ => svc
        end in
      match gather tasks rng with
      | (Ok humanized_texts, rng') =>
          (Http200 {| results := combine (texts request) humanized_texts;
                      total_texts := length (texts request);
                      batch_response_mode := batch_mode request |},
           svc, rng')
      | (Raise e, rng') => (HTTPException 500 (str_exn e), svc, rng')
      end
  end.

(** One turn of the loop of [websocket_humanize], for a message whose
    JSON object has the given ["text"] and (numeric) ["intensity"]
    members, when present.  [Ok] is the ["humanized"] member of the
    reply; [Raise] is logged and closes the socket. *)
Definition websocket_message (msg_text : option string)
    (msg_intensity : option Q) (svc : Service.t) (rng : Rng)
  : Exc string * Service.t * Rng :=
  match Service.get_humanizer svc "fast" with
  | Raise e => (Raise e, svc, rng)
  | Ok None =>
      (Raise (AttributeError "'NoneType' object has no attribute 'humanize'"),
       svc, rng)
  | Ok (Some humanizer) =>
      let (out, rng') :=
        humanize humanizer
          (match msg_text with Some s => s | None => "" end)
          (match msg_intensity with Some q => q | None => 0.7%Q end)
          true true rng in
      (out, Service.update svc "fast" (Engine.load_models humanizer), rng')
  end.

End Endpoints.

End Api.

(** ** [DetectionEvasion.add_typos] and [FastHumanizer] of
       [app/services/engine.py] *)

Module Typos.

Definition typo_patterns : list (string * string) :=
  [("the", "teh"); ("and", "adn"); ("you", "yuo");
   ("that", "taht"); ("with", "wiht"); ("have", "ahve")].

(** [for correct, typo in patterns: if ...: ...; break] *)
Fixpoint add_typos_loop (rate : Q) (patterns : list (string * string))
    (text : string) : M string :=
  match patterns with
  | [] => ret text
  | (correct, typo) :: rest =>
      hit <- and_then (PyStr.contains correct text) (chance rate) ;;
      if hit then ret (PyStr.replace_first correct typo text)
      else add_typos_loop rate rest text
  end.

(** [DetectionEvasion.add_typos(text, rate)] *)
Definition add_typos (text : string) (rate : Q) : M string :=
  add_typos_loop rate typo_patterns text.

End Typos.

Module FastHumanizer.

(** [FastHumanizer.__init__]: the attribute [engine]. *)
Definition init (cuda : bool) : Engine.t :=
  Engine.init cuda cuda "small" (Some ["sentence_variation"; "human_patterns"]).

Section Providers.

Variable paraphraser : string -> nat -> Q -> option string.
Variable nlp : string -> list (string * string).
Variable similarity : string -> string -> Q.

(** [for text in texts: results.append(self.engine.humanize(text,
    fast_mode=True))], with the defaults [intensity=0.7] and
    [preserve_meaning=True]. *)
Fixpoint humanize_batch (engine : Engine.t) (texts : list string)
  : M (list string) :=
  match texts with
  | [] => ret []
  | text :: rest =>
      result <- Engine.humanize paraphraser nlp similarity engine text 0.7
                  true true ;;
      results <- humanize_batch engine rest ;;
      ret (result :: results)
  end.

(** [humanize_async]: the call that the executor runs. *)
Definition humanize_async (engine : Engine.t) (text : string) : M string :=
  Engine.humanize paraphraser nlp similarity engine text 0.7 true true.

End Providers.

End FastHumanizer.

(** ** Python integers as text *)

Module PyInt.

(** [f"{n}"] for a natural number. *)
Definition format (n : nat) : string :=
  NilEmpty.string_of_uint (Nat.to_uint n).





End PyInt.

(** ** The analysis endpoints of [app/api/v1/analyze.py] *)

Module Analyze.

(** The dictionary [ai_patterns]. *)
Record Patterns : Type := {
  repetitive_structure : bool;
  uniform_sentence_length : bool;
  lack_of_contractions : bool;
  formal_tone : bool;
  perfect_grammar : bool;
  ai_phrases_found : list string
}.

Record AnalyzeResponse : Type := {
  text_length : nat;
  sentence_count : nat;
  ai_patterns_detected : Patterns;
  ai_probability : string;
  recommendation : string
}.

Definition contractions : list string :=
  ["'s"; "'t"; "'re"; "'ve"; "'ll"; "'d"; "'m"].

Definition ai_phrases : list string :=
  ["it is important to note"; "in conclusion"; "furthermore"; "moreover";
   "nevertheless"; "it should be noted"; "in summary"].

Definition Qnat (n : nat) : Q := inject_Z (Z.of_nat n).

(** [sum(l)] *)
Definition Qsum (l : list Q) : Q := fold_left Qplus l 0%Q.

(** [sentence_lengths] *)
Definition sentence_lengths (text : string) : list nat :=
  map (fun s => length (PyStr.split_ws s))
      (filter (fun s => PyStr.nonempty (PyStr.strip s))
              (PyStr.split_char "." text)).

(** [variance], 0 when there is no sentence. *)
Definition variance (lengths : list nat) : Q :=
  match lengths with
  | [] => 0%Q
  | _ =>
      let n := Qnat (length lengths) in
      let avg_length := (Qsum (map Qnat lengths) / n)%Q in
      (Qsum (map (fun l => (Qnat l - avg_length) * (Qnat l - avg_length))%Q
                 lengths) / n)%Q
  end.

(** The score of [analyze_text]. *)
Definition ai_score (uniform lack : bool) (found : list string) (v : Q) : nat :=
  (if uniform then 25 else 0) + (if lack then 25 else 0)
  + (if 2 <? length found then 25 else 0) + (if Qltb v 5 then 25 else 0).

(** [analyze_text]; no statement of its [try] block can raise. *)
Definition analyze_text (text : string) : AnalyzeResponse :=
  let sentences := PyStr.split_char "." text in
  let lengths := sentence_lengths text in
  let v := variance lengths in
  let uniform := match lengths with [] => false | _ => Qltb v 10 end in
  let has_contractions :=
    existsb (fun c => PyStr.contains c text) contractions in
  let found :=
    filter (fun phrase => PyStr.contains phrase (PyStr.lower text)) ai_phrases in
  let score := ai_score uniform (negb has_contractions) found v in
  {| text_length := String.length text;
     sentence_count := length sentences;
     ai_patterns_detected :=
       {| repetitive_structure := false;
          uniform_sentence_length := uniform;
          lack_of_contractions := negb has_contractions;
          formal_tone := false;
          perfect_grammar := false;
          ai_phrases_found := found |};
     ai_probability := PyInt.format score ++ "%";
     recommendation := if 50 <? score then "High humanization needed"
                       else "Light touch-up sufficient" |}.



End Analyze.

(** ** Notions used to state the properties *)

(** A text made of white space only (the empty text included). *)
Fixpoint blank (s : string) : bool :=
  match s with
  | EmptyString => true
  | String c r => PyStr.isspace c && blank r
  end.

(** Every draw lies strictly between 0 and 1. *)
Definition positive (d : nat -> Q) : Prop :=
  forall n, (0 < d n)%Q /\ (d n < 1)%Q.

(** The generator after [n] more draws. *)
Definition advance (n : nat) (r : Rng) : Rng :=
  mkRng (draws r) (n + cursor r).

(** [yields P c v]: on every generator whose draws satisfy [P], the
    computation [c] returns [v] without raising, after finitely many
    draws. *)
Definition yields {A} (P : (nat -> Q) -> Prop) (c : M A) (v : A) : Prop :=
  forall r, P (draws r) -> exists n, c r = (Ok v, advance n r).

(** [succeeds c]: the computation [c] returns a value, without raising,
    on every generator. *)
Definition succeeds {A} (c : M A) : Prop :=
  forall r, exists v n, c r = (Ok v, advance n r).

(** A string that does not start with white space. *)
Definition starts_clean (s : string) : bool :=
  match s with
  | EmptyString => true
  | String c _ => negb (PyStr.isspace c)
  end.

(** A text without its white space. *)
Fixpoint squeeze (s : string) : string :=
  match s with
  | EmptyString => EmptyString
  | String c r => if PyStr.isspace c then squeeze r else String c (squeeze r)
  end.

(** The texts of a list put end to end, without their white space. *)
Fixpoint squeeze_all (l : list string) : string :=
  match l with
  | [] => EmptyString
  | x :: r => squeeze x ++ squeeze_all r
  end.

(** The number of occurrences of a character in a text. *)
Fixpoint count_char (c : ascii) (s : string) : nat :=
  match s with
  | EmptyString => 0
  | String x r => (if Ascii.eqb x c then 1 else 0) + count_char c r
  end.

(** The bounds of the target length of a paragraph: [randint(2, 5)] when
    the intensity exceeds 0.5, [randint(3, 6)] otherwise. *)
Definition min_target (intensity : Q) : nat :=
  if Qltb 0.5 intensity then 2 else 3.

Definition max_target (intensity : Q) : nat :=
  if Qltb 0.5 intensity then 5 else 6.

(** [succeeds_on P c]: on every generator whose draws satisfy [P], the
    computation [c] returns a value without raising. *)
Definition succeeds_on {A} (P : (nat -> Q) -> Prop) (c : M A) : Prop :=
  forall r, P (draws r) -> exists v n, c r = (Ok v, advance n r).

(** [returns_on P c R]: on every generator whose draws satisfy [P], the
    computation [c] returns, without raising, a value that satisfies [R]. *)
Definition returns_on {A} (P : (nat -> Q) -> Prop) (c : M A) (R : A -> Prop)
  : Prop :=
  forall r, P (draws r) -> exists v n, c r = (Ok v, advance n r) /\ R v.

(** A word: not empty, and free of white space. *)
Fixpoint spaceless (s : string) : bool :=
  match s with
  | EmptyString => true
  | String c r => negb (PyStr.isspace c) && spaceless r
  end.

Definition solid (w : string) : bool := PyStr.nonempty w && spaceless w.

(** The tagger yields at most one token per word of the sentence. *)
Definition aligned (nlp : string -> list (string * string)) : Prop :=
  forall s, length (nlp s) <= length (PyStr.split_ws s).

(** A text made of white space and periods only. *)
Fixpoint wordless (s : string) : bool :=
  match s with
  | EmptyString => true
  | String c r => (PyStr.isspace c || Ascii.eqb c ".") && wordless r
  end.

(** [each_in_turn f l rng outs]: the calls [f t] for the members [t] of
    [l], made one after the other from the generator [rng], each on the
    generator that the call before it left, all return, and [outs] lists
    what they return, in the order of [l]. *)
Fixpoint each_in_turn {A B} (f : A -> M B) (l : list A) (rng : Rng)
    (outs : list B) : Prop :=
  match l, outs with
  | [], [] => True
  | t :: l', out :: outs' =>
      exists rng1, f t rng = (Ok out, rng1) /\ each_in_turn f l' rng1 outs'
  | _, _ => False
  end.

(** The request is not answered from the cache: it asks for no caching,
    or the cache holds nothing for its key. *)
Definition cache_miss (entry : option Api.HumanizeResponse)
    (req : Api.HumanizeRequest) : Prop :=
  Api.cache req = false \/ entry = None.

(** A cached entry, as the handler returns it. *)
Definition from_cache (hit : Api.HumanizeResponse) : Api.HumanizeResponse :=
  {| Api.original_text := Api.original_text hit;
     Api.humanized_text := Api.humanized_text hit;
     Api.response_mode := Api.response_mode hit;
     Api.techniques_applied := Api.techniques_applied hit;
     Api.similarity_score := Api.similarity_score hit;
     Api.cached := true |}.

(** The three modes that [get_humanizer] serves. *)
Definition valid_modes : list string := ["fast"; "balanced"; "quality"].

Module Ordering.

(** The techniques, as an enumeration. *)
Inductive Technique : Type :=
| SemanticParaphrasing
| SentenceVariation
| PerplexityModulation
| StylisticInjection
| HumanPatterns.

Definition name (t : Technique) : string :=
  match t with
  | SemanticParaphrasing => "semantic_paraphrasing"
  | SentenceVariation => "sentence_variation"
  | PerplexityModulation => "perplexity_modulation"
  | StylisticInjection => "stylistic_injection"
  | HumanPatterns => "human_patterns"
  end.

(** The fixed sequence of the ordering contract. *)
Definition fixed_order : list Technique :=
  [SemanticParaphrasing; SentenceVariation; PerplexityModulation;
   StylisticInjection; HumanPatterns].

(** The two techniques that the fast loop knows. *)
Definition fast_order : list Technique := [SentenceVariation; HumanPatterns].

Definition enabled (self : Engine.t) (t : Technique) : bool :=
  PyStr.mem (name t) (Engine.techniques self).

Section Chain.

Variable paraphraser : string -> nat -> Q -> option string.
Variable nlp : string -> list (string * string).

Definition run (t : Technique) : string -> Q -> M string :=
  match t with
  | SemanticParaphrasing => Engine.paraphrase_sentence paraphraser
  | SentenceVariation => Engine.vary_sentence_structure
  | PerplexityModulation => Engine.modulate_perplexity nlp
  | StylisticInjection => Engine.inject_style
  | HumanPatterns => Engine.add_human_patterns
  end.

(** The ordering contract in the words of the specification: the
    techniques of [ts], one after the other, each on the output of the
    one before, and nothing else. *)
Fixpoint apply_in_order (ts : list Technique) (intensity : Q)
    (sentence : string) : M string :=
  match ts with
  | [] => ret sentence
  | t :: rest =>
      sentence <- run t sentence intensity ;;
      apply_in_order rest intensity sentence
  end.

(** The enabled techniques among [order], in the order of [order]. *)
Definition spec_chain (order : list Technique) (self : Engine.t)
    (intensity : Q) (sentence : string) : M string :=
  apply_in_order (filter (enabled self) order) intensity sentence.

(** The step that the fast loop adds after the chain, for the sentence
    of index [i]: a transition phrase in front of the lower-cased
    sentence. *)
Definition transition_step (intensity : Q) (i : nat) (sentence : string)
  : M string :=
  link <- and_then (0 <? i) (chance (intensity * 0.3)) ;;
  if link then
    transition <- choice Engine.transitions ;;
    ret (transition ++ " " ++ PyStr.lower sentence)
  else ret sentence.

(** What the loop of the full pipeline does with the sentence [mutated]
    that the chain made of [original]: with meaning preservation on and a
    similarity below 0.7 it drops [mutated] and applies [human_patterns],
    enabled or not, to [original] at half the intensity; otherwise it keeps
    [mutated]. *)
Definition gate_step (similarity : string -> string -> Q) (intensity : Q)
    (preserve_meaning : bool) (original mutated : string) : M string :=
  if preserve_meaning && Qltb (similarity original mutated) 0.7
  then Engine.add_human_patterns original (intensity * 0.5)
  else ret mutated.

End Chain.

End Ordering.

(** What the full pipeline makes of a sentence when no effect fires:
    [perplexity_modulation], when enabled, joins the words of the sentence
    with single blanks. *)
Definition at_rest (self : Engine.t) (fast_mode : bool) (sentence : string)
  : string :=
  if negb fast_mode && PyStr.mem "perplexity_modulation" (Engine.techniques self)
  then PyStr.join " " (PyStr.split_ws sentence)
  else sentence.

(** ** Stubs of the external models, for the concrete runs *)

Module Stub.

(** A generator that delivers the draws of [l], then [d] for ever. *)
Definition rng (l : list Q) (d : Q) : Rng := mkRng (fun n => nth n l d) 0.

(** A paraphrase model whose call always fails. *)
Definition no_paraphrase (_ : string) (_ : nat) (_ : Q) : option string :=
  None.

(** A tagger that cuts at white space and tags every token [X]. *)
Definition plain_nlp (s : string) : list (string * string) :=
  map (fun w => (w, "X")) (PyStr.split_ws s).

(** The tagging of ["It can't be good."] by a tokenizer that separates the
    clitic and the final period; any other sentence as [plain_nlp]. *)
Definition clitic_nlp (s : string) : list (string * string) :=
  if String.eqb s "It can't be good."
  then [("It", "PRON"); ("ca", "AUX"); ("n't", "PART"); ("be", "AUX");
        ("good", "ADJ"); (".", "PUNCT")]
  else plain_nlp s.

(** Draws that make the quality tier put a rhetorical question in front of
    a six-word sentence and fire nothing else. *)
Definition lead_in_draws : list Q :=
  [0.5; 0.5; 0.5; 0.5; 0.5; 0.5; 0.5; 0.5; 0.05; 0.3]%Q.

(** The tagging of ["This is a good idea"], one token per word; any other
    sentence as [plain_nlp]. *)
Definition good_idea_nlp (s : string) : list (string * string) :=
  if String.eqb s "This is a good idea"
  then [("This", "PRON"); ("is", "AUX"); ("a", "DET"); ("good", "ADJ");
        ("idea", "NOUN")]
  else plain_nlp s.

Definition similar (_ _ : string) : Q := 1%Q.
Definition dissimilar (_ _ : string) : Q := 0%Q.

Definition no_score (_ _ : string) : option Q := None.

(** A [humanize] method made to fail on the text ["b"]. *)
Definition failing_on_b (_ : Engine.t) (text : string) (_ : Q)
    (_ _ : bool) : M string :=
  if String.eqb text "b" then raise (RuntimeError "forced failure")
  else ret text.

(** The service after start-up, on a machine without CUDA. *)
Definition service : Service.t := Service.initialize false Service.new.

(** The engines of that service for the fast and the quality tier. *)
Definition fast_engine : Engine.t :=
  Engine.init false false "small"
    (Some ["sentence_variation"; "human_patterns"]).

Definition quality_engine : Engine.t :=
  Engine.init false false "large"
    (Some ["sentence_variation"; "perplexity_modulation";
           "stylistic_injection"; "semantic_paraphrasing"; "human_patterns"]).

End Stub.

(** * Properties *)

(** ** The monad and the random source *)

Lemma Qltb_lt (x y : Q) : Qltb x y = true <-> (x < y)%Q.
Proof. unfold Qltb, Qlt. apply Z.ltb_lt. Qed.

Lemma Qltb_ge (x y : Q) : Qltb x y = false <-> (y <= x)%Q.
Proof. unfold Qltb, Qle. apply Z.ltb_ge. Qed.

(** A product with intensity 0 is never above a draw of [0, 1). *)
Lemma Qltb_zero_mult (u k : Q) : (0 <= u)%Q -> Qltb u (0 * k) = false.
Proof.
  intros H. apply Qltb_ge.
  apply Qle_trans with 0%Q; [|exact H].
  rewrite Qmult_0_l. apply Qle_refl.
Qed.

Lemma bind_ok {A B} (c : M A) (k : A -> M B) r a r' :
  c r = (Ok a, r') -> bind c k r = k a r'.
Proof. unfold bind. intros ->. reflexivity. Qed.

Lemma bind_raise {A B} (c : M A) (k : A -> M B) r e r' :
  c r = (Raise e, r') -> bind c k r = (Raise e, r').
Proof. unfold bind. intros ->. reflexivity. Qed.

Lemma random_eq r : random r = (Ok (draws r (cursor r)), advance 1 r).
Proof. reflexivity. Qed.

Lemma chance_eq p r :
  chance p r = (Ok (Qltb (draws r (cursor r)) p), advance 1 r).
Proof. reflexivity. Qed.

Lemma randint_eq a b r :
  randint a b r
  = (Ok (a + scale (draws r (cursor r)) (b + 1 - a)), advance 1 r).
Proof. reflexivity. Qed.

Lemma advance_advance n m r : advance n (advance m r) = advance (n + m) r.
Proof. unfold advance. simpl. f_equal. lia. Qed.

(** ** The service *)

Lemma get_humanizer_uninitialized svc mode :
  Service.initialized svc = false ->
  Service.get_humanizer svc mode
  = Raise (RuntimeError "Humanizer service not initialized").
Proof. unfold Service.get_humanizer. intros ->. reflexivity. Qed.

Lemma valid_mode_cases mode :
  In mode valid_modes ->
  mode = "fast" \/ mode = "balanced" \/ mode = "quality".
Proof.
  unfold valid_modes. simpl.
  intros [H | [H | [H | []]]]; subst; auto.
Qed.

(** A mode outside the three served ones is rejected by an initialized
    service. *)
Lemma get_humanizer_invalid svc mode :
  Service.initialized svc = true ->
  ~ In mode valid_modes ->
  Service.get_humanizer svc mode = Raise (ValueError ("Invalid mode: " ++ mode)).
Proof.
  intros Hi Hm. unfold Service.get_humanizer. rewrite Hi. simpl.
  destruct (String.eqb_spec mode "fast") as [->|_].
  { exfalso. apply Hm. simpl. auto. }
  destruct (String.eqb_spec mode "balanced") as [->|_].
  { exfalso. apply Hm. simpl. auto. }
  destruct (String.eqb_spec mode "quality") as [->|_].
  { exfalso. apply Hm. simpl. auto. }
  reflexivity.
Qed.

(** An answer of [get_humanizer] means: initialized, and a served mode. *)
Lemma get_humanizer_ok_inv svc mode h :
  Service.get_humanizer svc mode = Ok h ->
  Service.initialized svc = true /\ In mode valid_modes.
Proof.
  unfold Service.get_humanizer.
  destruct (Service.initialized svc); simpl; [|discriminate].
  destruct (String.eqb_spec mode "fast") as [->|_].
  { intros _. split; [reflexivity | simpl; auto]. }
  destruct (String.eqb_spec mode "balanced") as [->|_].
  { intros _. split; [reflexivity | simpl; auto]. }
  destruct (String.eqb_spec mode "quality") as [->|_].
  { intros _. split; [reflexivity | simpl; auto]. }
  discriminate.
Qed.

(** The engine written for a mode is the engine read for that mode. *)
Lemma get_humanizer_update svc mode h e :
  Service.get_humanizer svc mode = Ok h ->
  Service.get_humanizer (Service.update svc mode e) mode = Ok (Some e).
Proof.
  intros H. destruct (get_humanizer_ok_inv _ _ _ H) as [Hi Hm].
  destruct (valid_mode_cases _ Hm) as [-> | [-> | ->]];
    unfold Service.get_humanizer, Service.update; simpl;
    rewrite Hi; reflexivity.
Qed.

(** C10: on a service whose [initialize] has not completed, [get_humanizer]
    raises [RuntimeError] for every mode string, valid or not, so no engine
    is reached; once [initialize] has run, [get_humanizer] returns an
    engine, without raising, for each of fast, balanced and quality. *)
Theorem get_humanizer_gated_by_initialize (svc : Service.t) (mode : string) :
  Service.initialized svc = false ->
  Service.get_humanizer svc mode
  = Raise (RuntimeError "Humanizer service not initialized")
  /\ (forall cuda m, In m valid_modes ->
        exists e, Service.get_humanizer (Service.initialize cuda svc) m
                  = Ok (Some e)).
Proof.
  intros Hi. split.
  - apply get_humanizer_uninitialized. exact Hi.
  - intros cuda m Hm. unfold Service.initialize. rewrite Hi.
    destruct (valid_mode_cases _ Hm) as [-> | [-> | ->]];
      eexists; reflexivity.
Qed.

Lemma get_humanizer_gated_by_initialize_witness :
  Service.get_humanizer Service.new "no such mode"
  = Raise (RuntimeError "Humanizer service not initialized")
  /\ exists e, Service.get_humanizer (Service.initialize false Service.new)
                 "balanced" = Ok (Some e).
Proof.
  destruct (get_humanizer_gated_by_initialize Service.new "no such mode"
              eq_refl) as [H1 H2].
  split.
  - exact H1.
  - apply (H2 false "balanced"). simpl. auto.
Defined.

(** ** The endpoints and the shared engines *)

Section EndpointFacts.

Variable humanize : Engine.t -> string -> Q -> bool -> bool -> M string.
Variable score : string -> string -> option Q.

(** The handler past the cache and [get_humanizer], for a request whose
    mode is served by the engine [h]. *)
Lemma humanize_text_served entry req svc rng h :
  Api.cache req = false ->
  Service.get_humanizer svc (Api.mode req) = Ok (Some h) ->
  let h' := match Api.techniques req with
            | Some (x :: l) => Api.set_techniques h (x :: l)
            | _ => h
            end in
  Api.humanize_text humanize score entry req svc rng
  = (match fst (Api.respond humanize score h' req rng) with
     | Ok response => Api.Http200 response
     | Raise e => Api.http_of_exn e
     end,
     Service.update svc (Api.mode req) (Engine.load_models h'),
     snd (Api.respond humanize score h' req rng)).
Proof.
  intros Hc Hg. unfold Api.humanize_text. rewrite Hc, Hg. cbv zeta.
  destruct (Api.respond humanize score _ req rng) as [[response | e] rng'];
    reflexivity.
Qed.

(** The response names the technique list of the engine it ran. *)
Lemma respond_techniques h req rng response rng' :
  Api.respond humanize score h req rng = (Ok response, rng') ->
  Api.techniques_applied response = Engine.techniques h.
Proof.
  unfold Api.respond, bind, ret.
  destruct (humanize h _ _ _ _ rng) as [[t1 | e1] r1]; [|discriminate].
  destruct (DetectionEvasion.vary_punctuation t1 r1) as [[t2 | e2] r2];
    [|discriminate].
  destruct (Qltb 0.8 (Api.intensity req)).
  - destruct (DetectionEvasion.add_unicode_variations t2 r2)
      as [[t3 | e3] r3]; [|discriminate].
    intros H. injection H as <- _. reflexivity.
  - intros H. injection H as <- _. reflexivity.
Qed.

(** C1, as the code has it: the override of a call is assigned to the
    [techniques] attribute of the engine that the service shares between
    all requests, and nothing restores it.  After the call the service
    serves, for that mode, an engine whose technique list is the override,
    and a later call without an override runs that engine: when it
    answers, the techniques it reports are those of the earlier override,
    not the default set of the tier. *)
Theorem override_written_to_shared_engine
    entry req svc rng h x l entry2 req2 :
  Api.cache req = false ->
  Service.get_humanizer svc (Api.mode req) = Ok (Some h) ->
  Api.techniques req = Some (x :: l) ->
  Api.mode req2 = Api.mode req ->
  Api.techniques req2 = None ->
  Api.cache req2 = false ->
  let after := Api.humanize_text humanize score entry req svc rng in
  let svc1 := snd (fst after) in
  let rng1 := snd after in
  (exists h1, Service.get_humanizer svc1 (Api.mode req) = Ok (Some h1)
              /\ Engine.techniques h1 = x :: l)
  /\ (forall response,
        fst (fst (Api.humanize_text humanize score entry2 req2 svc1 rng1))
        = Api.Http200 response ->
        Api.techniques_applied response = x :: l).
Proof.
  intros Hc Hg Ht Hm2 Ht2 Hc2 after svc1 rng1.
  assert (Hafter : svc1 = Service.update svc (Api.mode req)
                     (Engine.load_models (Api.set_techniques h (x :: l)))).
  { unfold svc1, after.
    rewrite (humanize_text_served entry req svc rng h Hc Hg).
    rewrite Ht. reflexivity. }
  assert (Hg1 : Service.get_humanizer svc1 (Api.mode req)
                = Ok (Some (Engine.load_models
                              (Api.set_techniques h (x :: l))))).
  { rewrite Hafter. eapply get_humanizer_update. exact Hg. }
  split.
  - eexists. split; [exact Hg1 | reflexivity].
  - intros response.
    rewrite <- Hm2 in Hg1.
    rewrite (humanize_text_served entry2 req2 svc1 rng1 _ Hc2 Hg1).
    rewrite Ht2. simpl fst.
    destruct (Api.respond humanize score _ req2 rng1)
      as [[response' | e] rng2] eqn:Hr; simpl.
    + intros H. injection H as <-.
      rewrite (respond_techniques _ _ _ _ _ Hr). reflexivity.
    + destruct e; discriminate.
Qed.

Lemma cache_miss_lookup entry req :
  cache_miss entry req -> (if Api.cache req then entry else None) = None.
Proof.
  intros [Hc | He]; [rewrite Hc; reflexivity|].
  subst entry. destruct (Api.cache req); reflexivity.
Qed.

(** The handler past [get_humanizer], for a request that misses the cache
    and whose mode is served by the engine [h]. *)
Lemma humanize_text_past_cache entry req svc rng h :
  cache_miss entry req ->
  Service.get_humanizer svc (Api.mode req) = Ok (Some h) ->
  let h' := match Api.techniques req with
            | Some (x :: l) => Api.set_techniques h (x :: l)
            | _ => h
            end in
  Api.humanize_text humanize score entry req svc rng
  = (match fst (Api.respond humanize score h' req rng) with
     | Ok response => Api.Http200 response
     | Raise e => Api.http_of_exn e
     end,
     Service.update svc (Api.mode req) (Engine.load_models h'),
     snd (Api.respond humanize score h' req rng)).
Proof.
  intros Hc Hg. unfold Api.humanize_text.
  rewrite (cache_miss_lookup _ _ Hc), Hg. cbv zeta.
  destruct (Api.respond humanize score _ req rng) as [[response | e] rng'];
    reflexivity.
Qed.

(** An unknown mode never reaches [humanize]: the handler answers 400
    and neither the service nor the generator is touched. *)
Lemma humanize_text_invalid_mode entry req svc rng :
  cache_miss entry req ->
  Service.initialized svc = true ->
  ~ In (Api.mode req) valid_modes ->
  Api.humanize_text humanize score entry req svc rng
  = (Api.HTTPException 400 ("Invalid mode: " ++ Api.mode req), svc, rng).
Proof.
  intros Hc Hi Hm. unfold Api.humanize_text.
  rewrite (cache_miss_lookup _ _ Hc), (get_humanizer_invalid _ _ Hi Hm).
  reflexivity.
Qed.

(** A cached entry is returned as it is, before anything else is done. *)
Lemma humanize_text_hit entry req svc rng hit :
  Api.cache req = true ->
  entry = Some hit ->
  Api.humanize_text humanize score entry req svc rng
  = (Api.Http200 (from_cache hit), svc, rng).
Proof.
  intros Hc He. unfold Api.humanize_text. rewrite Hc, He. reflexivity.
Qed.

(** The WebSocket turn hands the intensity of the message to [humanize]
    as it came. *)
Lemma websocket_message_passes_intensity msg_text q svc rng h :
  Service.get_humanizer svc "fast" = Ok (Some h) ->
  fst (fst (Api.websocket_message humanize (Some msg_text) (Some q) svc rng))
  = fst (humanize h msg_text q true true rng).
Proof.
  intros Hg. unfold Api.websocket_message. rewrite Hg.
  destruct (humanize h msg_text q true true rng). reflexivity.
Qed.

End EndpointFacts.

(** ** Splitting a blank text *)

Lemma lstrip_blank s : blank s = true -> PyStr.lstrip s = EmptyString.
Proof.
  induction s as [|c r IH]; simpl; [reflexivity|].
  intros H. apply andb_prop in H as [Hc Hr]. rewrite Hc. auto.
Qed.

Lemma strip_blank s : blank s = true -> PyStr.strip s = EmptyString.
Proof.
  intros H. unfold PyStr.strip. rewrite (lstrip_blank _ H). reflexivity.
Qed.

Lemma blank_rev_onto s acc :
  blank (PyStr.rev_onto s acc) = blank s && blank acc.
Proof.
  revert acc. induction s as [|c r IH]; intros acc; simpl; [reflexivity|].
  rewrite IH. simpl.
  destruct (PyStr.isspace c), (blank r), (blank acc); reflexivity.
Qed.

(** No mark ends a sentence in a blank text, so the pattern never matches
    and the text stays in one piece. *)
Lemma re_split_blank s cur :
  blank s = true ->
  PyStr.re_split_aux s cur false false = [PyStr.rev (PyStr.rev_onto s cur)].
Proof.
  revert cur. induction s as [|c r IH]; intros cur; simpl; [reflexivity|].
  intros H. apply andb_prop in H as [Hc Hr]. rewrite Hc. apply IH, Hr.
Qed.

Lemma split_sentences_blank text :
  blank text = true -> Engine.split_sentences text = [].
Proof.
  intros H. unfold Engine.split_sentences, PyStr.re_split_sentences.
  rewrite (re_split_blank _ _ H). simpl.
  rewrite strip_blank; [reflexivity|].
  unfold PyStr.rev. rewrite !blank_rev_onto, H. reflexivity.
Qed.

(** C6: for every engine, intensity, preserve-meaning flag and mode (fast or
    full), [humanize] on the empty string, or on a string of white space
    only, splits into no sentence and returns the empty string, without
    raising and without a draw. *)
Theorem humanize_blank
    (paraphraser : string -> nat -> Q -> option string)
    (nlp : string -> list (string * string))
    (similarity : string -> string -> Q)
    (self : Engine.t) (text : string) (intensity : Q)
    (preserve_meaning fast_mode : bool) (rng : Rng) :
  blank text = true ->
  Engine.split_sentences text = []
  /\ Engine.humanize paraphraser nlp similarity self text intensity
       preserve_meaning fast_mode rng
     = (Ok EmptyString, rng).
Proof.
  intros H. split; [apply split_sentences_blank, H|].
  unfold Engine.humanize. rewrite (split_sentences_blank _ H).
  destruct fast_mode; reflexivity.
Qed.

Lemma humanize_blank_witness :
  Engine.humanize Stub.no_paraphrase Stub.plain_nlp Stub.similar
    (Engine.init false false "small" None) "   " 0.7 true false
    (Stub.rng [] 0.5)
  = (Ok EmptyString, Stub.rng [] 0.5)
  /\ Engine.humanize Stub.no_paraphrase Stub.plain_nlp Stub.similar
       (Engine.init false false "small" None) "" 1 false true
       (Stub.rng [] 0.5)
     = (Ok EmptyString, Stub.rng [] 0.5).
Proof.
  split.
  - apply (humanize_blank Stub.no_paraphrase Stub.plain_nlp Stub.similar
             (Engine.init false false "small" None) "   " 0.7 true false
             (Stub.rng [] 0.5)).
    reflexivity.
  - apply (humanize_blank Stub.no_paraphrase Stub.plain_nlp Stub.similar
             (Engine.init false false "small" None) "" 1 false true
             (Stub.rng [] 0.5)).
    reflexivity.
Defined.

(** ** Paragraph composition *)

(** The target length of a paragraph is one draw; it cannot fail. *)
Lemma para_length_eq intensity r :
  exists n,
    (if Qltb 0.5 intensity then randint 2 5 else randint 3 6) r
    = (Ok n, advance 1 r).
Proof.
  destruct (Qltb 0.5 intensity); eexists; apply randint_eq.
Qed.

Lemma advance_0 r : advance 0 r = r.
Proof. destruct r. reflexivity. Qed.

(** The loop cuts the pending paragraph followed by the sentences still to
    come into non-empty paragraphs, dropping nothing and keeping the order;
    it makes one draw per sentence. *)
Lemma paragraph_loop_partition intensity sentences :
  forall paragraph r,
  exists paragraphs : list (list string),
    Engine.paragraph_loop intensity sentences paragraph r
    = (Ok (map (PyStr.join " ") paragraphs), advance (length sentences) r)
    /\ concat paragraphs = (paragraph ++ sentences)%list
    /\ Forall (fun p => p <> []) paragraphs.
Proof.
  induction sentences as [|s rest IH]; intros paragraph r.
  - destruct paragraph as [|p ps].
    + exists []. simpl. rewrite advance_0.
      split; [reflexivity|]. split; [reflexivity | constructor].
    + exists [p :: ps]. simpl. rewrite advance_0.
      split; [reflexivity|]. split.
      * rewrite ?app_nil_r. reflexivity.
      * constructor; [discriminate | constructor].
  - cbn [Engine.paragraph_loop].
    destruct (para_length_eq intensity r) as [n Hn].
    rewrite (bind_ok _ _ _ _ _ Hn).
    destruct ((n <=? length (paragraph ++ [s])%list)
              || match rest with [] => true | _ => false end).
    + destruct (IH [] (advance 1 r)) as [ps [Hrun [Hcat Hne]]].
      exists ((paragraph ++ [s])%list :: ps).
      rewrite (bind_ok _ _ _ _ _ Hrun). unfold ret.
      rewrite advance_advance. split; [|split].
      * simpl length. do 2 f_equal. lia.
      * simpl. rewrite Hcat. simpl. rewrite <- app_assoc. reflexivity.
      * constructor; [|exact Hne]. destruct paragraph; discriminate.
    + destruct (IH (paragraph ++ [s])%list (advance 1 r))
        as [ps [Hrun [Hcat Hne]]].
      exists ps. rewrite Hrun, advance_advance. split; [|split].
      * simpl length. do 2 f_equal. lia.
      * rewrite Hcat, <- app_assoc. reflexivity.
      * exact Hne.
Qed.

(** C8: for every list of processed sentences and every sequence of draws,
    paragraph composition cuts the list into consecutive non-empty
    paragraphs whose concatenation is the input list: every sentence occurs
    exactly once, in input order, and the last, partial paragraph is
    flushed.  The output joins the sentences of a paragraph with a single
    blank and the paragraphs with a double line break, so a single
    paragraph is printed without any paragraph break. *)
Theorem composition_keeps_every_sentence
    (sentences : list string) (intensity : Q) (rng : Rng) :
  exists paragraphs : list (list string),
    concat paragraphs = sentences
    /\ Forall (fun p => p <> []) paragraphs
    /\ Engine.create_paragraph_variation sentences intensity rng
       = (Ok (PyStr.join Engine.para_break
                (map (PyStr.join " ") paragraphs)),
          advance (length sentences) rng)
    /\ (length paragraphs <= 1 ->
        Engine.create_paragraph_variation sentences intensity rng
        = (Ok (PyStr.join " " sentences), advance (length sentences) rng)).
Proof.
  destruct (paragraph_loop_partition intensity sentences [] rng)
    as [ps [Hrun [Hcat Hne]]].
  simpl in Hcat. exists ps.
  unfold Engine.create_paragraph_variation.
  rewrite (bind_ok _ _ _ _ _ Hrun). unfold ret.
  rewrite length_map.
  split; [exact Hcat|]. split; [exact Hne|].
  destruct ps as [|p [|q ps]].
  - simpl in *. subst. split; reflexivity.
  - simpl in *. rewrite app_nil_r in Hcat. subst. split; reflexivity.
  - split; [reflexivity|]. simpl. intros H. lia.
Qed.

(** ** The semantic gate *)

(** When none of its four triggers fires, [human_patterns] returns the
    sentence as it got it, after four draws. *)
Lemma add_human_patterns_no_trigger sentence p r :
  (p * 0.2 <= draws r (cursor r))%Q ->
  (p * 0.4 <= draws r (1 + cursor r))%Q ->
  (p * 0.05 <= draws r (2 + cursor r))%Q ->
  (p * 0.15 <= draws r (3 + cursor r))%Q ->
  Engine.add_human_patterns sentence p r = (Ok sentence, advance 4 r).
Proof.
  intros H0 H1 H2 H3.
  apply Qltb_ge in H0, H1, H2, H3.
  unfold Engine.add_human_patterns, chance, random, ret, bind, advance.
  cbn [draws cursor Nat.add] in *.
  rewrite H0. cbn [draws cursor]. rewrite H1. cbn [draws cursor].
  rewrite H2. cbn [draws cursor]. rewrite H3. reflexivity.
Qed.

(** C4, as the code has it: in the full pipeline with meaning preservation
    on, when the cosine similarity between the original sentence and the
    sentence mutated by the technique chain is below 0.7, the mutated
    sentence is discarded: the step yields exactly what [human_patterns]
    alone makes of the original sentence at half the configured intensity,
    run on the generator as the chain left it (which may be the very
    sentence the chain made).  The step yields the bare original whenever
    none of the four triggers of that reduced pass fires. *)
Theorem gate_reverts_to_human_patterns
    (paraphraser : string -> nat -> Q -> option string)
    (nlp : string -> list (string * string))
    (similarity : string -> string -> Q)
    (self : Engine.t) (intensity : Q) (i : nat) (original mutated : string)
    (rng rng1 : Rng) :
  Engine.full_chain paraphraser nlp self intensity original rng
  = (Ok mutated, rng1) ->
  (similarity original mutated < 0.7)%Q ->
  Engine.full_step paraphraser nlp similarity self intensity true i original rng
  = Engine.add_human_patterns original (intensity * 0.5) rng1
  /\ ((intensity * 0.5 * 0.2 <= draws rng1 (cursor rng1))%Q ->
      (intensity * 0.5 * 0.4 <= draws rng1 (1 + cursor rng1))%Q ->
      (intensity * 0.5 * 0.05 <= draws rng1 (2 + cursor rng1))%Q ->
      (intensity * 0.5 * 0.15 <= draws rng1 (3 + cursor rng1))%Q ->
      Engine.full_step paraphraser nlp similarity self intensity true i
        original rng
      = (Ok original, advance 4 rng1)).
Proof.
  intros Hchain Hsim.
  assert (Hstep : Engine.full_step paraphraser nlp similarity self intensity
                    true i original rng
                  = Engine.add_human_patterns original (intensity * 0.5) rng1).
  { unfold Engine.full_step.
    rewrite (bind_ok _ _ _ _ _ Hchain).
    apply Qltb_lt in Hsim. rewrite Hsim. reflexivity. }
  split; [exact Hstep|].
  intros H0 H1 H2 H3. rewrite Hstep.
  apply add_human_patterns_no_trigger; assumption.
Qed.

Lemma gate_reverts_to_human_patterns_witness :
  Engine.full_step Stub.no_paraphrase Stub.plain_nlp Stub.dissimilar
    (Engine.init false false "large" None) 1 true 0
    "We think that it is good." (Stub.rng Stub.lead_in_draws 0.9)
  = Engine.add_human_patterns "We think that it is good." (1 * 0.5)
      (advance 15 (Stub.rng Stub.lead_in_draws 0.9))
  /\ Engine.full_step Stub.no_paraphrase Stub.plain_nlp Stub.dissimilar
       (Engine.init false false "large" None) 1 true 0
       "We think that it is good." (Stub.rng Stub.lead_in_draws 0.9)
     = (Ok "We think that it is good.",
        advance 4 (advance 15 (Stub.rng Stub.lead_in_draws 0.9))).
Proof.
  destruct (gate_reverts_to_human_patterns Stub.no_paraphrase Stub.plain_nlp
              Stub.dissimilar (Engine.init false false "large" None) 1 0
              "We think that it is good."
              "But here's the question: We think that it is good."
              (Stub.rng Stub.lead_in_draws 0.9)
              (advance 15 (Stub.rng Stub.lead_in_draws 0.9)))
    as [H1 H2].
  - vm_compute. reflexivity.
  - reflexivity.
  - split; [exact H1|].
    apply H2; apply Qle_bool_imp_le; vm_compute; reflexivity.
Defined.

(** C4, as stated, fails on both of its additions.  With [human_patterns]
    the only technique enabled and a similarity below 0.7, the chain turns
    ["Yes."] into ["I mean, yes."] and the reduced pass on the original
    makes the same sentence again: the final sentence is the mutated
    sentence.  And on other draws the contraction trigger of the reduced
    pass fires and finds nothing to contract: the final sentence is the
    bare original although a trigger fired. *)
Lemma gate_can_return_the_mutated_sentence :
  (Engine.full_chain Stub.no_paraphrase Stub.plain_nlp
     (Engine.init false false "large" (Some ["human_patterns"])) 1 "Yes."
     (Stub.rng [0.9; 0.9; 0.9; 0.1; 0.2; 0.9; 0.9; 0.9; 0.05; 0.2]%Q 0.9)
   = (Ok "I mean, yes.",
      advance 5
        (Stub.rng [0.9; 0.9; 0.9; 0.1; 0.2; 0.9; 0.9; 0.9; 0.05; 0.2]%Q 0.9))
   /\ (Stub.dissimilar "Yes." "I mean, yes." < 0.7)%Q
   /\ Engine.full_step Stub.no_paraphrase Stub.plain_nlp Stub.dissimilar
        (Engine.init false false "large" (Some ["human_patterns"])) 1 true 0
        "Yes."
        (Stub.rng [0.9; 0.9; 0.9; 0.1; 0.2; 0.9; 0.9; 0.9; 0.05; 0.2]%Q 0.9)
      = (Ok "I mean, yes.",
         advance 10
           (Stub.rng [0.9; 0.9; 0.9; 0.1; 0.2; 0.9; 0.9; 0.9; 0.05; 0.2]%Q
              0.9)))
  /\ (Engine.full_chain Stub.no_paraphrase Stub.plain_nlp
        (Engine.init false false "large" (Some ["human_patterns"])) 1 "Yes."
        (Stub.rng [0.9; 0.9; 0.9; 0.1; 0.2; 0.9; 0.1; 0.9; 0.9]%Q 0.9)
      = (Ok "I mean, yes.",
         advance 5 (Stub.rng [0.9; 0.9; 0.9; 0.1; 0.2; 0.9; 0.1; 0.9; 0.9]%Q
                      0.9))
      /\ chance (1 * 0.5 * 0.4)
           (advance 6 (Stub.rng [0.9; 0.9; 0.9; 0.1; 0.2; 0.9; 0.1; 0.9; 0.9]%Q
                         0.9))
         = (Ok true,
            advance 7 (Stub.rng [0.9; 0.9; 0.9; 0.1; 0.2; 0.9; 0.1; 0.9; 0.9]%Q
                         0.9))
      /\ Engine.full_step Stub.no_paraphrase Stub.plain_nlp Stub.dissimilar
           (Engine.init false false "large" (Some ["human_patterns"])) 1 true
           0 "Yes."
           (Stub.rng [0.9; 0.9; 0.9; 0.1; 0.2; 0.9; 0.1; 0.9; 0.9]%Q 0.9)
         = (Ok "Yes.",
            advance 9
              (Stub.rng [0.9; 0.9; 0.9; 0.1; 0.2; 0.9; 0.1; 0.9; 0.9]%Q 0.9))).
Proof.
  split; [split; [|split]|split; [|split]];
    try (vm_compute; reflexivity).
Qed.

(** ** The order of the techniques *)

Lemma bind_ret_r {A} (c : M A) r : bind c ret r = c r.
Proof. unfold bind, ret. destruct (c r) as [[a | e] r']; reflexivity. Qed.

Lemma bind_ext {A B} (c : M A) (k1 k2 : A -> M B) r :
  (forall a r', k1 a r' = k2 a r') -> bind c k1 r = bind c k2 r.
Proof.
  intros H. unfold bind. destruct (c r) as [[a | e] r']; [apply H | reflexivity].
Qed.

Section OrderFacts.

Variable paraphraser : string -> nat -> Q -> option string.
Variable nlp : string -> list (string * string).

(** One guarded call of the source is the technique itself when it is
    enabled and nothing otherwise. *)
Lemma when_enabled_run self t sentence intensity :
  Engine.when_enabled self (Ordering.name t)
    (Ordering.run paraphraser nlp t) sentence intensity
  = if Ordering.enabled self t
    then Ordering.run paraphraser nlp t sentence intensity
    else ret sentence.
Proof. reflexivity. Qed.

(** Filtering the order and running what is left is running each technique
    of the order under its guard. *)
Lemma spec_chain_cons t order self intensity sentence r :
  Ordering.spec_chain paraphraser nlp (t :: order) self intensity sentence r
  = bind (Engine.when_enabled self (Ordering.name t)
            (Ordering.run paraphraser nlp t) sentence intensity)
         (Ordering.spec_chain paraphraser nlp order self intensity) r.
Proof.
  rewrite when_enabled_run. unfold Ordering.spec_chain. simpl filter.
  destruct (Ordering.enabled self t); reflexivity.
Qed.

(** The full loop applies exactly the enabled techniques, in the fixed
    order. *)
Lemma full_chain_in_fixed_order self intensity sentence r :
  Engine.full_chain paraphraser nlp self intensity sentence r
  = Ordering.spec_chain paraphraser nlp Ordering.fixed_order self intensity
      sentence r.
Proof.
  unfold Ordering.fixed_order, Engine.full_chain.
  rewrite spec_chain_cons. apply bind_ext. intros s1 r1.
  rewrite spec_chain_cons. apply bind_ext. intros s2 r2.
  rewrite spec_chain_cons. apply bind_ext. intros s3 r3.
  rewrite spec_chain_cons. apply bind_ext. intros s4 r4.
  rewrite spec_chain_cons.
  rewrite <- (bind_ret_r (Engine.when_enabled self "human_patterns" _ _ _)).
  apply bind_ext. intros s5 r5. reflexivity.
Qed.

(** The fast loop applies the enabled ones among [sentence_variation] and
    [human_patterns], in that order, and then its transition step. *)
Lemma fast_step_in_order self intensity i sentence r :
  Engine.fast_step self intensity i sentence r
  = bind (Ordering.spec_chain paraphraser nlp Ordering.fast_order self
            intensity sentence)
         (Ordering.transition_step intensity i) r.
Proof.
  unfold Ordering.fast_order, Engine.fast_step, Ordering.transition_step.
  unfold bind. rewrite spec_chain_cons. unfold bind.
  cbn [Ordering.name Ordering.run].
  destruct (Engine.when_enabled self "sentence_variation" _ _ _ r)
    as [[s1 | e1] r1]; [|reflexivity].
  rewrite spec_chain_cons. unfold bind.
  cbn [Ordering.name Ordering.run].
  destruct (Engine.when_enabled self "human_patterns" _ _ _ r1)
    as [[s2 | e2] r2]; reflexivity.
Qed.

(** The body of the full loop is the chain followed by the gate. *)
Lemma full_step_in_order similarity self intensity preserve_meaning i
    sentence r :
  Engine.full_step paraphraser nlp similarity self intensity
    preserve_meaning i sentence r
  = bind (Ordering.spec_chain paraphraser nlp Ordering.fixed_order self
            intensity sentence)
         (Ordering.gate_step similarity intensity preserve_meaning sentence)
         r.
Proof.
  unfold Engine.full_step, bind.
  rewrite full_chain_in_fixed_order.
  destruct (Ordering.spec_chain _ _ _ _ _ _ r) as [[mutated | e] r1];
    [|reflexivity].
  unfold Ordering.gate_step.
  destruct preserve_meaning; [|reflexivity].
  cbn [andb].
  destruct (Qltb (similarity sentence mutated) 0.7); reflexivity.
Qed.

(** C7, as the code has it: for every sentence and every set of enabled
    techniques, the technique chain of the loop of the full pipeline applies
    exactly the enabled techniques in the fixed order semantic_paraphrasing,
    sentence_variation, perplexity_modulation, stylistic_injection,
    human_patterns.  The body of that loop is the chain followed by the
    semantic gate: with meaning preservation off the body is the chain and
    nothing else; with meaning preservation on and a similarity below 0.7
    between the sentence and what the chain made of it, the gate drops the
    chain's result and applies human_patterns, enabled or not, to the
    sentence at half the intensity.  The loop of the fast mode applies the
    enabled ones among sentence_variation and human_patterns only, in that
    order, and then one more step of its own: for every sentence but the
    first, with probability intensity * 0.3, it puts a transition phrase in
    front of the lower-cased sentence; for the first sentence that step
    does nothing. *)
Theorem techniques_apply_in_fixed_order
    (similarity : string -> string -> Q)
    (self : Engine.t) (intensity : Q) (preserve_meaning : bool) (i : nat)
    (sentence : string) (rng : Rng) :
  Engine.full_chain paraphraser nlp self intensity sentence rng
  = Ordering.spec_chain paraphraser nlp Ordering.fixed_order self intensity
      sentence rng
  /\ Engine.full_step paraphraser nlp similarity self intensity
       preserve_meaning i sentence rng
     = bind (Ordering.spec_chain paraphraser nlp Ordering.fixed_order self
               intensity sentence)
            (Ordering.gate_step similarity intensity preserve_meaning
               sentence) rng
  /\ Engine.full_step paraphraser nlp similarity self intensity false i
       sentence rng
     = Ordering.spec_chain paraphraser nlp Ordering.fixed_order self
         intensity sentence rng
  /\ Engine.fast_step self intensity i sentence rng
     = bind (Ordering.spec_chain paraphraser nlp Ordering.fast_order self
               intensity sentence)
            (Ordering.transition_step intensity i) rng
  /\ Engine.fast_step self intensity 0 sentence rng
     = Ordering.spec_chain paraphraser nlp Ordering.fast_order self intensity
         sentence rng.
Proof.
  split; [apply full_chain_in_fixed_order|].
  split; [apply full_step_in_order|].
  split.
  { rewrite full_step_in_order.
    rewrite <- (bind_ret_r (Ordering.spec_chain _ _ Ordering.fixed_order
                              _ _ _)).
    apply bind_ext. intros s r. reflexivity. }
  split; [apply fast_step_in_order|].
  rewrite fast_step_in_order.
  rewrite <- (bind_ret_r (Ordering.spec_chain _ _ _ _ _ _)).
  apply bind_ext. intros s r. reflexivity.
Qed.

End OrderFacts.

(** C7, as stated, fails for the fast mode: on the second sentence of a
    text the fast loop of the fast tier turns ["General Kenobi."] into
    ["Actually, general kenobi."], although none of its techniques fired;
    the enabled techniques alone leave the sentence as it is. *)
Lemma fast_mode_adds_a_transition :
  fst (Engine.fast_step
         (Engine.init false false "small"
            (Some ["sentence_variation"; "human_patterns"]))
         1 1 "General Kenobi." (Stub.rng [0.9; 0.9; 0.9; 0.9; 0.1; 0]%Q 0.9))
  = Ok "Actually, general kenobi."
  /\ fst (Ordering.spec_chain Stub.no_paraphrase Stub.plain_nlp
            Ordering.fast_order
            (Engine.init false false "small"
               (Some ["sentence_variation"; "human_patterns"]))
            1 "General Kenobi."
            (Stub.rng [0.9; 0.9; 0.9; 0.9; 0.1; 0]%Q 0.9))
     = Ok "General Kenobi.".
Proof. split; vm_compute; reflexivity. Qed.

(** The gate of the full loop applies [human_patterns] although the engine
    has only [sentence_variation] enabled: the chain leaves
    ["We think it is good."] as it is, the body of the loop makes it
    ["We think it's good."]. *)
Example gate_applies_a_disabled_technique :
  fst (Engine.full_chain Stub.no_paraphrase Stub.plain_nlp
         (Engine.init false false "large" (Some ["sentence_variation"]))
         1 "We think it is good." (Stub.rng [0.9; 0.1]%Q 0.9))
  = Ok "We think it is good."
  /\ fst (Engine.full_step Stub.no_paraphrase Stub.plain_nlp Stub.dissimilar
            (Engine.init false false "large" (Some ["sentence_variation"]))
            1 true 0 "We think it is good."
            (Stub.rng [0.9; 0.1]%Q 0.9))
     = Ok "We think it's good.".
Proof. split; vm_compute; reflexivity. Qed.

(** ** Intensity 0 *)

Lemma yields_ret {A} P (v : A) : yields P (ret v) v.
Proof. intros r _. exists 0. rewrite advance_0. reflexivity. Qed.

Lemma yields_bind {A B} P (c : M A) (k : A -> M B) a b :
  yields P c a -> yields P (k a) b -> yields P (bind c k) b.
Proof.
  intros Hc Hk r HP. destruct (Hc r HP) as [n Hn].
  destruct (Hk (advance n r) HP) as [m Hm].
  exists (m + n). rewrite (bind_ok _ _ _ _ _ Hn), Hm, advance_advance.
  reflexivity.
Qed.

Lemma yields_weaken {A} (P P' : (nat -> Q) -> Prop) (c : M A) v :
  (forall d, P' d -> P d) -> yields P c v -> yields P' c v.
Proof. intros H Hc r HP. apply Hc, H, HP. Qed.

Lemma positive_uniform d : positive d -> uniform d.
Proof.
  intros H n. destruct (H n) as [H0 H1]. split; [|exact H1].
  apply Qlt_le_weak, H0.
Qed.

(** At intensity 0 a scaled probability is 0 and no draw is below it. *)
Lemma chance_zero k : yields uniform (chance (0 * k)) false.
Proof.
  intros r HP. exists 1. rewrite chance_eq.
  rewrite Qltb_zero_mult; [reflexivity | apply HP].
Qed.

Lemma and_then_chance_zero b k :
  yields uniform (and_then b (chance (0 * k))) false.
Proof. destruct b; [apply chance_zero | apply yields_ret]. Qed.

Lemma vary_sentence_structure_zero sentence :
  yields uniform (Engine.vary_sentence_structure sentence 0) sentence.
Proof.
  unfold Engine.vary_sentence_structure.
  eapply yields_bind; [apply and_then_chance_zero|].
  eapply yields_bind; [apply and_then_chance_zero|].
  apply yields_ret.
Qed.

Lemma add_human_patterns_zero sentence :
  yields uniform (Engine.add_human_patterns sentence 0) sentence.
Proof.
  unfold Engine.add_human_patterns.
  eapply yields_bind; [apply chance_zero|].
  eapply yields_bind; [apply yields_ret|].
  eapply yields_bind; [apply chance_zero|].
  eapply yields_bind; [apply chance_zero|].
  eapply yields_bind; [apply yields_ret|].
  eapply yields_bind; [apply chance_zero|].
  apply yields_ret.
Qed.

Lemma when_enabled_yields P self name f sentence intensity :
  yields P (f sentence intensity) sentence ->
  yields P (Engine.when_enabled self name f sentence intensity) sentence.
Proof.
  intros H. unfold Engine.when_enabled.
  destruct (PyStr.mem name (Engine.techniques self));
    [exact H | apply yields_ret].
Qed.

Lemma fast_step_zero self i sentence :
  yields uniform (Engine.fast_step self 0 i sentence) sentence.
Proof.
  unfold Engine.fast_step.
  eapply yields_bind;
    [apply when_enabled_yields, vary_sentence_structure_zero|].
  eapply yields_bind; [apply when_enabled_yields, add_human_patterns_zero|].
  eapply yields_bind; [apply and_then_chance_zero|].
  apply yields_ret.
Qed.

Lemma for_enumerate_yields {A B} P (body : nat -> A -> M B) (f : A -> B) l :
  (forall i x, yields P (body i x) (f x)) ->
  forall i, yields P (for_enumerate body i l) (map f l).
Proof.
  intros H. induction l as [|x rest IH]; intros i; simpl.
  - apply yields_ret.
  - eapply yields_bind; [apply H|].
    eapply yields_bind; [apply IH|].
    apply yields_ret.
Qed.

(** A guard [random.random() > intensity] at intensity 0 lets a draw
    through only when the draw is 0. *)
Lemma random_positive : forall r, positive (draws r) ->
  exists u, random r = (Ok u, advance 1 r) /\ Qltb 0 u = true.
Proof.
  intros r HP. eexists. split; [apply random_eq|].
  apply Qltb_lt, HP.
Qed.

Section ZeroFacts.

Variable paraphraser : string -> nat -> Q -> option string.
Variable nlp : string -> list (string * string).
Variable similarity : string -> string -> Q.

Lemma paraphrase_sentence_zero sentence :
  yields positive (Engine.paraphrase_sentence paraphraser sentence 0) sentence.
Proof.
  intros r HP. destruct (random_positive r HP) as [u [Hu Hlt]].
  exists 1. unfold Engine.paraphrase_sentence.
  rewrite (bind_ok _ _ _ _ _ Hu), Hlt. reflexivity.
Qed.

Lemma inject_style_zero sentence :
  yields positive (Engine.inject_style sentence 0) sentence.
Proof.
  intros r HP. destruct (random_positive r HP) as [u [Hu Hlt]].
  exists 1. unfold Engine.inject_style.
  rewrite (bind_ok _ _ _ _ _ Hu), Hlt. reflexivity.
Qed.

Lemma modulate_tokens_zero doc :
  forall i words,
    yields uniform (Engine.modulate_tokens 0 doc i words) words.
Proof.
  induction doc as [|[text pos] rest IH]; intros i words; simpl.
  - apply yields_ret.
  - eapply yields_bind; [apply chance_zero|].
    simpl. eapply yields_bind; [apply yields_ret|].
    apply IH.
Qed.

(** With no substitution, [perplexity_modulation] still rebuilds the
    sentence from its words. *)
Lemma modulate_perplexity_zero sentence :
  yields uniform (Engine.modulate_perplexity nlp sentence 0)
    (PyStr.join " " (PyStr.split_ws sentence)).
Proof.
  unfold Engine.modulate_perplexity.
  eapply yields_bind; [apply modulate_tokens_zero|].
  apply yields_ret.
Qed.

Lemma full_chain_zero self sentence :
  yields positive (Engine.full_chain paraphraser nlp self 0 sentence)
    (at_rest self false sentence).
Proof.
  unfold Engine.full_chain, at_rest. simpl negb. simpl andb.
  eapply yields_bind;
    [apply when_enabled_yields, paraphrase_sentence_zero|].
  eapply yields_bind.
  { apply when_enabled_yields.
    eapply yields_weaken; [apply positive_uniform|].
    apply vary_sentence_structure_zero. }
  eapply yields_bind.
  { instantiate (1 := if PyStr.mem "perplexity_modulation"
                           (Engine.techniques self)
                      then PyStr.join " " (PyStr.split_ws sentence)
                      else sentence).
    unfold Engine.when_enabled.
    destruct (PyStr.mem "perplexity_modulation" (Engine.techniques self)).
    - eapply yields_weaken; [apply positive_uniform|].
      apply modulate_perplexity_zero.
    - apply yields_ret. }
  eapply yields_bind; [apply when_enabled_yields, inject_style_zero|].
  apply when_enabled_yields.
  eapply yields_weaken; [apply positive_uniform|].
  apply add_human_patterns_zero.
Qed.

Lemma full_step_zero self i sentence :
  yields positive
    (Engine.full_step paraphraser nlp similarity self 0 false i sentence)
    (at_rest self false sentence).
Proof.
  unfold Engine.full_step.
  eapply yields_bind; [apply full_chain_zero | apply yields_ret].
Qed.

(** C5, as the code has it: at intensity 0 with the gate off, for every
    text and every sequence of draws of [0, 1), the fast mode hands the
    input sentences, unchanged, to paragraph composition.  The full mode
    does the same when no draw is exactly 0, up to one rewriting that needs
    no random trigger: perplexity_modulation, when it is enabled, joins the
    words of each sentence with single blanks.  In both modes the output is
    the paragraph composition of these sentences. *)
Theorem intensity_zero_leaves_sentences
    (self : Engine.t) (text : string) (fast_mode : bool) (rng : Rng) :
  uniform (draws rng) ->
  (fast_mode = false -> positive (draws rng)) ->
  exists n,
    Engine.humanize paraphraser nlp similarity self text 0 false fast_mode rng
    = Engine.create_paragraph_variation
        (map (at_rest self fast_mode) (Engine.split_sentences text)) 0
        (advance n rng).
Proof.
  intros Hu Hp. unfold Engine.humanize. destruct fast_mode.
  - unfold Engine.fast_humanize.
    destruct (for_enumerate_yields uniform (Engine.fast_step self 0)
                (fun s => s) (Engine.split_sentences text)
                (fast_step_zero self) 0 rng Hu) as [n Hn].
    exists n. rewrite (bind_ok _ _ _ _ _ Hn).
    unfold at_rest. simpl. rewrite map_id. reflexivity.
  - unfold Engine.full_humanize.
    destruct (for_enumerate_yields positive
                (Engine.full_step paraphraser nlp similarity self 0 false)
                (at_rest self false) (Engine.split_sentences text)
                (full_step_zero self) 0 rng (Hp eq_refl)) as [n Hn].
    exists n. rewrite (bind_ok _ _ _ _ _ Hn). reflexivity.
Qed.

End ZeroFacts.

Lemma uniform_half : uniform (fun _ => 0.5%Q).
Proof.
  intros n. split; [apply Qle_bool_imp_le|]; reflexivity.
Qed.

Lemma positive_half : positive (fun _ => 0.5%Q).
Proof. intros n. split; reflexivity. Qed.

Lemma intensity_zero_leaves_sentences_witness :
  exists n,
    Engine.humanize Stub.no_paraphrase Stub.plain_nlp Stub.similar
      (Engine.init false false "large" None)
      "The cat sat on the mat. It was a sunny day." 0 false false
      (mkRng (fun _ => 0.5%Q) 0)
    = Engine.create_paragraph_variation
        (map (at_rest (Engine.init false false "large" None) false)
           (Engine.split_sentences
              "The cat sat on the mat. It was a sunny day.")) 0
        (advance n (mkRng (fun _ => 0.5%Q) 0)).
Proof.
  apply (intensity_zero_leaves_sentences Stub.no_paraphrase Stub.plain_nlp
           Stub.similar (Engine.init false false "large" None)
           "The cat sat on the mat. It was a sunny day." false
           (mkRng (fun _ => 0.5%Q) 0)).
  - exact uniform_half.
  - intros _. exact positive_half.
Defined.

(** C5, as stated, fails: at intensity 0, gate off, with every draw 0.5, the
    quality tier turns the one sentence ["Hello   world."] (three blanks)
    into ["Hello world."]. *)
Lemma intensity_zero_still_rewrites :
  fst (Engine.humanize Stub.no_paraphrase Stub.plain_nlp Stub.similar
         (Engine.init false false "large" None)
         "Hello   world." 0 false false (mkRng (fun _ => 0.5%Q) 0))
  = Ok "Hello world."
  /\ Engine.split_sentences "Hello   world." = ["Hello   world."]
  /\ Engine.split_sentences "Hello world." = ["Hello world."].
Proof. repeat split; vm_compute; reflexivity. Qed.

(** A draw of exactly 0 passes the guard of [stylistic_injection] at
    intensity 0, and the sentence gets a lead-in. *)
Example zero_draw_passes_the_guard :
  fst (Engine.inject_style "It works." 0 (Stub.rng [0; 0; 0]%Q 0.9))
  = Ok "You know what? It works.".
Proof. vm_compute. reflexivity. Qed.

(** ** Faults inside the loop over the sentences *)

(** The loop has no handler: the first sentence whose body raises ends
    it, and the sentences after it are not processed. *)
Lemma for_enumerate_raise {A B} (body : nat -> A -> M B) pre x post e :
  forall i r ys r1 r2,
    for_enumerate body i pre r = (Ok ys, r1) ->
    body (i + length pre) x r1 = (Raise e, r2) ->
    for_enumerate body i (pre ++ x :: post)%list r = (Raise e, r2).
Proof.
  induction pre as [|p pre IH]; intros i r ys r1 r2 Hpre Hx; simpl in *.
  - injection Hpre as _ <-. rewrite Nat.add_0_r in Hx.
    rewrite (bind_raise _ _ _ _ _ Hx). reflexivity.
  - unfold bind in Hpre |- *.
    destruct (body i p r) as [[y | e'] r'] eqn:Hp; [|discriminate].
    destruct (for_enumerate body (S i) pre r') as [[ys' | e'] r''] eqn:Hrest;
      [|discriminate].
    injection Hpre as _ <-.
    replace (i + S (length pre)) with (S i + length pre) in Hx by lia.
    rewrite (IH (S i) r' ys' r'' r2 Hrest Hx). reflexivity.
Qed.

Section FaultFacts.

Variable paraphraser : string -> nat -> Q -> option string.
Variable nlp : string -> list (string * string).
Variable similarity : string -> string -> Q.

(** A failure of the paraphrase model is caught where it occurs. *)
Lemma paraphrase_failure_recovered sentence intensity r :
  paraphraser ("paraphrase: " ++ sentence)
    (length (PyStr.split_ws sentence) * 2) (0.7 + intensity * 0.5)%Q = None ->
  Engine.paraphrase_sentence paraphraser sentence intensity r
  = (Ok sentence, advance 1 r).
Proof.
  intros H. unfold Engine.paraphrase_sentence.
  rewrite (bind_ok _ _ _ _ _ (random_eq r)), H.
  destruct (Qltb intensity (draws r (cursor r))); reflexivity.
Qed.

(** C2, as the code has it: the loop of the full pipeline has no handler
    around the technique chain.  When the sentences before [s] are
    transformed and transforming [s] raises (for example [IndexError] from
    the list assignment of perplexity_modulation), [humanize] raises that
    same exception: the document is aborted, no text is returned, and the
    sentences after [s] are not processed.  The one fault recovered inside
    the pipeline is a failure of the paraphrase model, which leaves the
    sentence as it was before that technique. *)
Theorem sentence_fault_aborts_document
    (self : Engine.t) (text : string) (intensity : Q)
    (preserve_meaning : bool) (pre post : list string) (s : string)
    (e : PyExn) (done : list string) (rng rng1 rng2 : Rng) :
  Engine.split_sentences text = (pre ++ s :: post)%list ->
  for_enumerate
    (Engine.full_step paraphraser nlp similarity self intensity
       preserve_meaning) 0 pre rng = (Ok done, rng1) ->
  Engine.full_step paraphraser nlp similarity self intensity preserve_meaning
    (length pre) s rng1 = (Raise e, rng2) ->
  Engine.humanize paraphraser nlp similarity self text intensity
    preserve_meaning false rng = (Raise e, rng2)
  /\ (forall sentence r,
        paraphraser ("paraphrase: " ++ sentence)
          (length (PyStr.split_ws sentence) * 2)
          (0.7 + intensity * 0.5)%Q = None ->
        Engine.paraphrase_sentence paraphraser sentence intensity r
        = (Ok sentence, advance 1 r)).
Proof.
  intros Hsplit Hpre Hs. split.
  - unfold Engine.humanize, Engine.full_humanize. rewrite Hsplit.
    apply bind_raise.
    apply (for_enumerate_raise _ pre s post e 0 rng done rng1 rng2 Hpre).
    exact Hs.
  - intros sentence r. apply paraphrase_failure_recovered.
Qed.

End FaultFacts.

Lemma sentence_fault_aborts_document_witness :
  Engine.humanize Stub.no_paraphrase Stub.clitic_nlp Stub.similar
    Stub.quality_engine "It is good. It can't be good. It is bad." 1 false false
    (Stub.rng [] 0.05)
  = (Raise (IndexError "list assignment index out of range"),
     advance 23 (Stub.rng [] 0.05))
  /\ Engine.paraphrase_sentence Stub.no_paraphrase "It is good." 1
       (Stub.rng [] 0.05)
     = (Ok "It is good.", advance 1 (Stub.rng [] 0.05)).
Proof.
  destruct (sentence_fault_aborts_document Stub.no_paraphrase Stub.clitic_nlp
              Stub.similar Stub.quality_engine
              "It is good. It can't be good. It is bad." 1 false
              ["It is good."] ["It is bad."] "It can't be good."
              (IndexError "list assignment index out of range")
              ["I'd say, you kind of *know* what? it is good."]
              (Stub.rng [] 0.05) (advance 16 (Stub.rng [] 0.05))
              (advance 23 (Stub.rng [] 0.05)))
    as [H1 H2].
  - vm_compute. reflexivity.
  - vm_compute. reflexivity.
  - vm_compute. reflexivity.
  - split; [exact H1 | apply H2; reflexivity].
Defined.

(** C2, as stated, fails: with the tagger separating the clitic of
    ["can't"], the token ["good"] of the second sentence has index 4 among
    6 tokens while the sentence has 4 words; the assignment
    [words[token.i] = ...] of perplexity_modulation raises [IndexError] and
    [humanize] raises it too, instead of returning the document with that
    sentence unchanged. *)
Lemma perplexity_fault_escapes_humanize :
  fst (Engine.humanize Stub.no_paraphrase Stub.clitic_nlp Stub.similar
         Stub.quality_engine "It is good. It can't be good. It is bad." 1 false
         false (Stub.rng [] 0.05))
  = Raise (IndexError "list assignment index out of range").
Proof. vm_compute. reflexivity. Qed.

(** ** The fast path never raises *)

Lemma succeeds_ret {A} (v : A) : succeeds (ret v).
Proof. intros r. exists v, 0. rewrite advance_0. reflexivity. Qed.

Lemma succeeds_bind {A B} (c : M A) (k : A -> M B) :
  succeeds c -> (forall a, succeeds (k a)) -> succeeds (bind c k).
Proof.
  intros Hc Hk r. destruct (Hc r) as [a [n Hn]].
  destruct (Hk a (advance n r)) as [b [m Hm]].
  exists b, (m + n).
  rewrite (bind_ok _ _ _ _ _ Hn), Hm, advance_advance. reflexivity.
Qed.

Lemma succeeds_random : succeeds random.
Proof. intros r. eexists. exists 1. apply random_eq. Qed.

Lemma succeeds_chance p : succeeds (chance p).
Proof. intros r. eexists. exists 1. apply chance_eq. Qed.

Lemma succeeds_randint a b : succeeds (randint a b).
Proof. intros r. eexists. exists 1. apply randint_eq. Qed.

Lemma succeeds_and_then b c : succeeds c -> succeeds (and_then b c).
Proof. intros H. destruct b; [exact H | apply succeeds_ret]. Qed.

(** [random.choice] on a list that is not empty. *)
Lemma succeeds_choice {A} (x : A) l : succeeds (choice (x :: l)).
Proof. intros r. eexists. exists 1. reflexivity. Qed.

Lemma succeeds_if {A} (b : bool) (c1 c2 : M A) :
  succeeds c1 -> succeeds c2 -> succeeds (if b then c1 else c2).
Proof. destruct b; auto. Qed.

Ltac total_steps :=
  repeat first
    [ apply succeeds_bind; [|intros ?]
    | apply succeeds_if
    | apply succeeds_and_then
    | apply succeeds_chance
    | apply succeeds_randint
    | apply succeeds_random
    | apply succeeds_choice
    | apply succeeds_ret ].

Lemma succeeds_vary_sentence_structure sentence intensity :
  succeeds (Engine.vary_sentence_structure sentence intensity).
Proof. unfold Engine.vary_sentence_structure. total_steps. Qed.

Lemma succeeds_apply_imperfections l :
  forall sentence, succeeds (Engine.apply_imperfections l sentence).
Proof.
  induction l as [|[[correct variant] p] rest IH]; intros sentence; simpl.
  - apply succeeds_ret.
  - apply succeeds_bind; [total_steps | intros hit; apply IH].
Qed.

Lemma succeeds_add_human_patterns sentence intensity :
  succeeds (Engine.add_human_patterns sentence intensity).
Proof.
  unfold Engine.add_human_patterns, Engine.fillers, Engine.personal_touches.
  total_steps; apply succeeds_apply_imperfections.
Qed.

Lemma succeeds_when_enabled self name f sentence intensity :
  succeeds (f sentence intensity) ->
  succeeds (Engine.when_enabled self name f sentence intensity).
Proof.
  intros H. unfold Engine.when_enabled.
  apply succeeds_if; [exact H | apply succeeds_ret].
Qed.

Lemma succeeds_fast_step self intensity i sentence :
  succeeds (Engine.fast_step self intensity i sentence).
Proof.
  unfold Engine.fast_step, Engine.transitions.
  apply succeeds_bind;
    [apply succeeds_when_enabled, succeeds_vary_sentence_structure|].
  intros s1. apply succeeds_bind;
    [apply succeeds_when_enabled, succeeds_add_human_patterns|].
  intros s2. total_steps.
Qed.

Lemma succeeds_for_enumerate {A B} (body : nat -> A -> M B) l :
  (forall i x, succeeds (body i x)) ->
  forall i, succeeds (for_enumerate body i l).
Proof.
  intros H. induction l as [|x rest IH]; intros i; simpl.
  - apply succeeds_ret.
  - apply succeeds_bind; [apply H|]. intros y.
    apply succeeds_bind; [apply IH|]. intros ys. apply succeeds_ret.
Qed.

Lemma succeeds_create_paragraph_variation sentences intensity :
  succeeds (Engine.create_paragraph_variation sentences intensity).
Proof.
  unfold Engine.create_paragraph_variation.
  apply succeeds_bind; [|intros result; apply succeeds_ret].
  intros r.
  destruct (paragraph_loop_partition intensity sentences [] r)
    as [ps [H _]].
  eexists. eexists. exact H.
Qed.

Section BatchFacts.

Variable humanize : Engine.t -> string -> Q -> bool -> bool -> M string.

Lemma gather_length {A} (tasks : list (M A)) :
  forall r outs r',
    Api.gather tasks r = (Ok outs, r') -> length outs = length tasks.
Proof.
  induction tasks as [|task rest IH]; intros r outs r'; simpl.
  - intros H. injection H as <- _. reflexivity.
  - destruct (task r) as [x r1].
    destruct (Api.gather rest r1) as [xs r2] eqn:Hrest.
    destruct x as [a | e]; [|discriminate].
    destruct xs as [l | e]; [|discriminate].
    intros H. injection H as <- _. simpl. f_equal. eapply IH, Hrest.
Qed.

(** One task that raises makes the whole [gather] raise. *)
Lemma gather_raise {A} (pre : list (M A)) task post e :
  forall r outs r1,
    Api.gather pre r = (Ok outs, r1) ->
    fst (task r1) = Raise e ->
    fst (Api.gather (pre ++ task :: post)%list r) = Raise e.
Proof.
  induction pre as [|p pre IH]; intros r outs r1; simpl.
  - intros H Ht. injection H as _ <-.
    destruct (task r) as [x r']. simpl in Ht. subst x.
    destruct (Api.gather post r'). reflexivity.
  - destruct (p r) as [x ra].
    destruct (Api.gather pre ra) as [xs rb] eqn:Hpre.
    destruct x as [a | e']; [|discriminate].
    destruct xs as [l | e']; [|discriminate].
    intros H Ht. injection H as _ <-.
    specialize (IH ra l rb Hpre Ht).
    destruct (Api.gather (pre ++ task :: post)%list ra) as [ys rc].
    simpl in IH. subst ys. reflexivity.
Qed.

Lemma gather_succeeds {A} (tasks : list (M A)) :
  Forall succeeds tasks -> succeeds (Api.gather tasks).
Proof.
  induction 1 as [|task rest Ht _ IH]; intros r; simpl.
  - exists [], 0. rewrite advance_0. reflexivity.
  - destruct (Ht r) as [a [n Hn]]. rewrite Hn.
    destruct (IH (advance n r)) as [l [m Hm]]. rewrite Hm.
    exists (a :: l), (m + n). rewrite advance_advance. reflexivity.
Qed.

(** The handler, once [gather] has returned. *)
Lemma humanize_batch_ok req svc rng h outs rng' :
  Service.get_humanizer svc (Api.batch_mode req) = Ok h ->
  Api.gather (map (Api.process_text humanize h req) (Api.texts req)) rng
  = (Ok outs, rng') ->
  fst (fst (Api.humanize_batch humanize req svc rng))
  = Api.Http200
      {| Api.results := combine (Api.texts req) outs;
         Api.total_texts := length (Api.texts req);
         Api.batch_response_mode := Api.batch_mode req |}.
Proof.
  intros Hg Hrun. unfold Api.humanize_batch. rewrite Hg. cbv zeta.
  rewrite Hrun. reflexivity.
Qed.

Lemma humanize_batch_raise req svc rng h e :
  Service.get_humanizer svc (Api.batch_mode req) = Ok h ->
  fst (Api.gather (map (Api.process_text humanize h req) (Api.texts req)) rng)
  = Raise e ->
  fst (fst (Api.humanize_batch humanize req svc rng))
  = Api.HTTPException 500 (str_exn e).
Proof.
  intros Hg Hrun. unfold Api.humanize_batch. rewrite Hg. cbv zeta.
  destruct (Api.gather _ rng) as [x rng']. simpl in Hrun. subst x.
  reflexivity.
Qed.

End BatchFacts.

Lemma combine_fst_snd {A B} (l : list A) (l' : list B) :
  length l' = length l ->
  map fst (combine l l') = l /\ map snd (combine l l') = l'.
Proof.
  revert l'. induction l as [|x l IH]; intros [|y l'] H; simpl in *;
    try discriminate; [split; reflexivity|].
  injection H as H. destruct (IH l' H) as [H1 H2].
  rewrite H1, H2. split; reflexivity.
Qed.

(** What [gather] returns is what the calls return, each in its turn. *)
Lemma gather_each_in_turn {A B} (f : A -> M B) (l : list A) :
  forall rng outs rng',
    Api.gather (map f l) rng = (Ok outs, rng') ->
    each_in_turn f l rng outs.
Proof.
  induction l as [|t l IH]; intros rng outs rng'; simpl.
  - intros H. injection H as <- _. exact I.
  - destruct (f t rng) as [x r1] eqn:Ht.
    destruct (Api.gather (map f l) r1) as [xs r2] eqn:Hrest.
    destruct x as [a | e]; [|discriminate].
    destruct xs as [outs' | e]; [|discriminate].
    intros H. injection H as <- _.
    exists r1. split; [reflexivity|]. eapply IH, Hrest.
Qed.

(** C3, as the code has it: on an initialized service and a served mode,
    the batch operation run on the engine returns, for every list of input
    texts, one (original, humanized) pair per input, in input order: the
    pair of each text and of what the fast path of [humanize] returns for
    it, at the intensity of the request, the calls being made one after the
    other on the one random source; the fast path does not raise.  But a
    failure of the call for one text is not reported per text: whatever the
    [humanize] method, when the texts before [t] are processed and the call
    for [t] raises, the batch answers one HTTP 500 carrying that exception
    and no result at all (neither for the texts before [t] nor for those
    after it). *)
Theorem batch_is_all_or_nothing
    (paraphraser : string -> nat -> Q -> option string)
    (nlp : string -> list (string * string))
    (similarity : string -> string -> Q)
    (req : Api.BatchHumanizeRequest) (svc : Service.t) (rng : Rng)
    (h : Engine.t) :
  Service.get_humanizer svc (Api.batch_mode req) = Ok (Some h) ->
  (exists outs,
      fst (fst (Api.humanize_batch
                  (Engine.humanize paraphraser nlp similarity) req svc rng))
      = Api.Http200
          {| Api.results := combine (Api.texts req) outs;
             Api.total_texts := length (Api.texts req);
             Api.batch_response_mode := Api.batch_mode req |}
      /\ each_in_turn
           (fun text =>
              Engine.humanize paraphraser nlp similarity h text
                (Api.batch_intensity req) true true)
           (Api.texts req) rng outs
      /\ length outs = length (Api.texts req)
      /\ map fst (combine (Api.texts req) outs) = Api.texts req
      /\ map snd (combine (Api.texts req) outs) = outs)
  /\ (forall humanize pre t post outs rng1 e,
        Api.texts req = (pre ++ t :: post)%list ->
        Api.gather (map (Api.process_text humanize (Some h) req) pre) rng
        = (Ok outs, rng1) ->
        fst (humanize h t (Api.batch_intensity req) true true rng1)
        = Raise e ->
        fst (fst (Api.humanize_batch humanize req svc rng))
        = Api.HTTPException 500 (str_exn e)).
Proof.
  intros Hg. split.
  - assert (Hall : Forall succeeds
                     (map (Api.process_text
                             (Engine.humanize paraphraser nlp similarity)
                             (Some h) req) (Api.texts req))).
    { apply Forall_forall. intros task Hin.
      apply in_map_iff in Hin as [text [<- _]].
      unfold Api.process_text, Engine.humanize, Engine.fast_humanize.
      apply succeeds_bind.
      - apply succeeds_for_enumerate. intros i x. apply succeeds_fast_step.
      - intros result. apply succeeds_create_paragraph_variation. }
    destruct (gather_succeeds _ Hall rng) as [outs [n Hrun]].
    pose proof (gather_length _ _ _ _ Hrun) as Hlen.
    rewrite length_map in Hlen.
    destruct (combine_fst_snd (Api.texts req) outs Hlen) as [Hfst Hsnd].
    exists outs. split; [eapply humanize_batch_ok; eassumption|].
    split; [|split; [exact Hlen | split; [exact Hfst | exact Hsnd]]].
    eapply gather_each_in_turn. exact Hrun.
  - intros humanize pre t post outs rng1 e Htexts Hpre Ht.
    eapply humanize_batch_raise; [exact Hg|].
    rewrite Htexts, map_app. simpl map.
    eapply gather_raise; [exact Hpre | exact Ht].
Qed.

Lemma batch_is_all_or_nothing_witness :
  (exists outs,
      fst (fst (Api.humanize_batch
                  (Engine.humanize Stub.no_paraphrase Stub.plain_nlp
                     Stub.similar)
                  {| Api.texts := ["It is good."; "b"; "c"];
                     Api.batch_mode := "fast";
                     Api.batch_intensity := 1 |}
                  Stub.service (Stub.rng [] 0.05)))
      = Api.Http200
          {| Api.results := combine ["It is good."; "b"; "c"] outs;
             Api.total_texts := 3;
             Api.batch_response_mode := "fast" |}
      /\ each_in_turn
           (fun text =>
              Engine.humanize Stub.no_paraphrase Stub.plain_nlp Stub.similar
                Stub.fast_engine text 1 true true)
           ["It is good."; "b"; "c"] (Stub.rng [] 0.05) outs)
  /\ fst (fst (Api.humanize_batch
                 (Engine.humanize Stub.no_paraphrase Stub.plain_nlp
                    Stub.similar)
                 {| Api.texts := ["It is good."; "b"; "c"];
                    Api.batch_mode := "fast";
                    Api.batch_intensity := 1 |}
                 Stub.service (Stub.rng [] 0.05)))
     = Api.Http200
         {| Api.results := [("It is good.", "I'd say, it is good.");
                            ("b", "I'd say, b"); ("c", "I'd say, c")];
            Api.total_texts := 3;
            Api.batch_response_mode := "fast" |}
  /\ fst (fst (Api.humanize_batch Stub.failing_on_b
                 {| Api.texts := ["It is good."; "b"; "c"];
                    Api.batch_mode := "fast";
                    Api.batch_intensity := 1 |}
                 Stub.service (Stub.rng [] 0.05)))
     = Api.HTTPException 500 "forced failure".
Proof.
  destruct (batch_is_all_or_nothing Stub.no_paraphrase Stub.plain_nlp
              Stub.similar
              {| Api.texts := ["It is good."; "b"; "c"];
                 Api.batch_mode := "fast";
                 Api.batch_intensity := 1 |}
              Stub.service (Stub.rng [] 0.05) Stub.fast_engine eq_refl)
    as [[outs [H1 [H2 _]]] H3].
  split; [|split].
  - exists outs. split; [exact H1 | exact H2].
  - vm_compute. reflexivity.
  - apply (H3 Stub.failing_on_b ["It is good."] "b" ["c"] ["It is good."]
             (Stub.rng [] 0.05) (RuntimeError "forced failure"));
      reflexivity.
Defined.

(** C3, as stated, fails: with a [humanize] made to fail on the second of
    three texts, the batch returns no result for the first and the third
    text either; its whole answer is one HTTP 500. *)
Lemma batch_failure_fails_every_text :
  fst (fst (Api.humanize_batch Stub.failing_on_b
              {| Api.texts := ["a"; "b"; "c"]; Api.batch_mode := "fast";
                 Api.batch_intensity := 0.7 |}
              Stub.service (Stub.rng [] 0.5)))
  = Api.HTTPException 500 "forced failure".
Proof. reflexivity. Qed.

(** ** Validation of the request parameters *)

(** C9, as the code has it: on an initialized service the mode of a request
    to the humanize endpoint that is not answered from the cache (it asks
    for no caching, or the cache holds nothing for its key) is validated
    before the pipeline runs.  A mode other than fast, balanced and quality
    makes such a request fail with HTTP 400 "Invalid mode", whatever the
    [humanize] method is: it is not called, and the service and the random
    source are left as they were.  A request answered from the cache is
    validated in nothing: the cached entry comes back with status 200
    before [get_humanizer] is called, whatever the mode of the request.
    For each of the three modes [get_humanizer] answers without raising.
    The intensity is validated neither by the service nor
    by the engine: the WebSocket handler hands the intensity of a message
    to [humanize] as it came. *)
Theorem mode_validated_before_pipeline
    (humanize : Engine.t -> string -> Q -> bool -> bool -> M string)
    (score : string -> string -> option Q)
    (entry : option Api.HumanizeResponse) (req : Api.HumanizeRequest)
    (svc : Service.t) (rng : Rng) :
  Service.initialized svc = true ->
  (cache_miss entry req ->
   ~ In (Api.mode req) valid_modes ->
   Api.humanize_text humanize score entry req svc rng
   = (Api.HTTPException 400 ("Invalid mode: " ++ Api.mode req), svc, rng))
  /\ (forall hit,
        Api.cache req = true ->
        entry = Some hit ->
        Api.humanize_text humanize score entry req svc rng
        = (Api.Http200 (from_cache hit), svc, rng))
  /\ (In (Api.mode req) valid_modes ->
      exists h, Service.get_humanizer svc (Api.mode req) = Ok h)
  /\ (forall msg_text q h,
        Service.get_humanizer svc "fast" = Ok (Some h) ->
        fst (fst (Api.websocket_message humanize (Some msg_text) (Some q)
                    svc rng))
        = fst (humanize h msg_text q true true rng)).
Proof.
  intros Hi. split; [|split; [|split]].
  - intros Hc Hm. apply humanize_text_invalid_mode; assumption.
  - intros hit Hc He. apply humanize_text_hit; assumption.
  - intros Hm. unfold Service.get_humanizer. rewrite Hi. simpl.
    destruct (valid_mode_cases _ Hm) as [-> | [-> | ->]];
      eexists; reflexivity.
  - intros msg_text q h Hg. apply websocket_message_passes_intensity, Hg.
Qed.

Lemma mode_validated_before_pipeline_witness :
  Api.humanize_text Stub.failing_on_b Stub.no_score None
    {| Api.text := "Hello there."; Api.mode := "turbo";
       Api.intensity := 0.7; Api.preserve_meaning := true;
       Api.techniques := None; Api.cache := true |}
    Stub.service (Stub.rng [] 0.5)
  = (Api.HTTPException 400 "Invalid mode: turbo", Stub.service,
     Stub.rng [] 0.5)
  /\ Api.humanize_text Stub.failing_on_b Stub.no_score
       (Some {| Api.original_text := "Hello there.";
                Api.humanized_text := "Well, hello there.";
                Api.response_mode := "fast";
                Api.techniques_applied := ["human_patterns"];
                Api.similarity_score := None;
                Api.cached := false |})
       {| Api.text := "Hello there."; Api.mode := "turbo";
          Api.intensity := 0.7; Api.preserve_meaning := true;
          Api.techniques := None; Api.cache := true |}
       Stub.service (Stub.rng [] 0.5)
     = (Api.Http200
          {| Api.original_text := "Hello there.";
             Api.humanized_text := "Well, hello there.";
             Api.response_mode := "fast";
             Api.techniques_applied := ["human_patterns"];
             Api.similarity_score := None;
             Api.cached := true |},
        Stub.service, Stub.rng [] 0.5).
Proof.
  split.
  - destruct (mode_validated_before_pipeline Stub.failing_on_b Stub.no_score
                None
                {| Api.text := "Hello there."; Api.mode := "turbo";
                   Api.intensity := 0.7; Api.preserve_meaning := true;
                   Api.techniques := None; Api.cache := true |}
                Stub.service (Stub.rng [] 0.5) eq_refl)
      as [H _].
    apply H.
    + right. reflexivity.
    + simpl. intros [H1 | [H1 | [H1 | []]]]; discriminate.
  - destruct (mode_validated_before_pipeline Stub.failing_on_b Stub.no_score
                (Some {| Api.original_text := "Hello there.";
                         Api.humanized_text := "Well, hello there.";
                         Api.response_mode := "fast";
                         Api.techniques_applied := ["human_patterns"];
                         Api.similarity_score := None;
                         Api.cached := false |})
                {| Api.text := "Hello there."; Api.mode := "turbo";
                   Api.intensity := 0.7; Api.preserve_meaning := true;
                   Api.techniques := None; Api.cache := true |}
                Stub.service (Stub.rng [] 0.5) eq_refl)
      as [_ [H _]].
    apply (H _ eq_refl eq_refl).
Defined.

(** C9, as stated, fails: a WebSocket message with intensity 5, which is
    outside [0, 1], is not rejected; it enters the pipeline of the fast
    engine and comes back humanized. *)
Lemma websocket_intensity_is_not_validated :
  fst (fst (Api.websocket_message
              (Engine.humanize Stub.no_paraphrase Stub.plain_nlp Stub.similar)
              (Some "Hello there.") (Some 5%Q) Stub.service
              (Stub.rng [] 0.5)))
  = Ok "in my experience, hello there.".
Proof. vm_compute. reflexivity. Qed.

(** C1, at a concrete input: after one request for the quality tier that
    overrides the techniques with [human_patterns] alone, the quality
    engine of the service holds that list, and the next request, which has
    no override, reports it as the techniques it applied. *)
Lemma override_written_to_shared_engine_witness :
  (exists h1,
      Service.get_humanizer
        (snd (fst (Api.humanize_text
                     (Engine.humanize Stub.no_paraphrase Stub.plain_nlp
                        Stub.similar) Stub.no_score None
                     {| Api.text := "It is good."; Api.mode := "quality";
                        Api.intensity := 0.7; Api.preserve_meaning := false;
                        Api.techniques := Some ["human_patterns"];
                        Api.cache := false |}
                     Stub.service (Stub.rng [] 0.5))))
        "quality" = Ok (Some h1)
      /\ Engine.techniques h1 = ["human_patterns"])
  /\ Engine.techniques Stub.quality_engine
     = ["sentence_variation"; "perplexity_modulation"; "stylistic_injection";
        "semantic_paraphrasing"; "human_patterns"].
Proof.
  split; [|reflexivity].
  apply (override_written_to_shared_engine
           (Engine.humanize Stub.no_paraphrase Stub.plain_nlp Stub.similar)
           Stub.no_score None
           {| Api.text := "It is good."; Api.mode := "quality";
              Api.intensity := 0.7; Api.preserve_meaning := false;
              Api.techniques := Some ["human_patterns"];
              Api.cache := false |}
           Stub.service (Stub.rng [] 0.5) Stub.quality_engine
           "human_patterns" [] None
           {| Api.text := "It is bad."; Api.mode := "quality";
              Api.intensity := 0.7; Api.preserve_meaning := false;
              Api.techniques := None; Api.cache := false |});
    reflexivity.
Defined.

(** The two requests of the lemma above, run: the second response lists
    [human_patterns] alone as the techniques of the quality tier. *)
Example override_leaks_into_next_request :
  let run := Api.humanize_text
               (Engine.humanize Stub.no_paraphrase Stub.plain_nlp Stub.similar)
               Stub.no_score None in
  let first := run {| Api.text := "It is good."; Api.mode := "quality";
                      Api.intensity := 0.7; Api.preserve_meaning := false;
                      Api.techniques := Some ["human_patterns"];
                      Api.cache := false |}
                 Stub.service (Stub.rng [] 0.5) in
  let second := run {| Api.text := "It is bad."; Api.mode := "quality";
                       Api.intensity := 0.7; Api.preserve_meaning := false;
                       Api.techniques := None; Api.cache := false |}
                  (snd (fst first)) (snd first) in
  match fst (fst second) with
  | Api.Http200 response =>
      Api.techniques_applied response = ["human_patterns"]
  | Api.HTTPException _ _ => False
  end.
Proof. vm_compute. reflexivity. Qed.

(** ** The sentence splitter *)

Lemma rev_onto_rev_onto s : forall a b,
  PyStr.rev_onto (PyStr.rev_onto s a) b = PyStr.rev_onto a (s ++ b).
Proof.
  induction s as [|c r IH]; intros a b; simpl; [reflexivity|].
  rewrite IH. reflexivity.
Qed.

Lemma append_nil_r (s : string) : s ++ "" = s.
Proof. induction s as [|c r IH]; simpl; [|rewrite IH]; reflexivity. Qed.

Lemma append_assoc (a b c : string) : (a ++ b) ++ c = a ++ (b ++ c).
Proof. induction a as [|x r IH]; simpl; [|rewrite IH]; reflexivity. Qed.

Lemma rev_involutive s : PyStr.rev (PyStr.rev s) = s.
Proof.
  unfold PyStr.rev. rewrite rev_onto_rev_onto. simpl. apply append_nil_r.
Qed.

Lemma rev_onto_append s : forall acc,
  PyStr.rev_onto s acc = PyStr.rev_onto s "" ++ acc.
Proof.
  induction s as [|c r IH]; intros acc; simpl; [reflexivity|].
  rewrite (IH (String c acc)), (IH (String c "")), append_assoc.
  reflexivity.
Qed.

Lemma rev_append a b : PyStr.rev (a ++ b) = PyStr.rev b ++ PyStr.rev a.
Proof.
  unfold PyStr.rev. induction a as [|c r IH]; simpl.
  - rewrite append_nil_r. reflexivity.
  - rewrite (rev_onto_append (r ++ b)), (rev_onto_append r (String c "")).
    rewrite IH, append_assoc. reflexivity.
Qed.

Lemma lstrip_clean s : starts_clean s = true -> PyStr.lstrip s = s.
Proof.
  destruct s as [|c r]; simpl; [reflexivity|].
  destruct (PyStr.isspace c); [discriminate | reflexivity].
Qed.

Lemma starts_clean_lstrip s : starts_clean (PyStr.lstrip s) = true.
Proof.
  induction s as [|c r IH]; simpl; [reflexivity|].
  destruct (PyStr.isspace c) eqn:Hc; [exact IH|]. simpl. rewrite Hc.
  reflexivity.
Qed.

(** [lstrip] removes a prefix. *)
Lemma lstrip_suffix s : exists w, s = w ++ PyStr.lstrip s.
Proof.
  induction s as [|c r [w IH]]; simpl.
  - exists "". reflexivity.
  - destruct (PyStr.isspace c).
    + exists (String c w). simpl. rewrite <- IH. reflexivity.
    + exists "". reflexivity.
Qed.

Lemma starts_clean_prefix a b :
  starts_clean (a ++ b) = true -> starts_clean a = true.
Proof. destruct a; simpl; auto. Qed.

(** [strip] leaves white space at neither end. *)
Lemma strip_idempotent s : PyStr.strip (PyStr.strip s) = PyStr.strip s.
Proof.
  unfold PyStr.strip, PyStr.rstrip.
  set (t := PyStr.lstrip s). set (u := PyStr.lstrip (PyStr.rev t)).
  assert (Hu : starts_clean u = true) by apply starts_clean_lstrip.
  assert (Hclean : starts_clean (PyStr.rev u) = true).
  { destruct (lstrip_suffix (PyStr.rev t)) as [w Hw]. fold u in Hw.
    apply (f_equal PyStr.rev) in Hw.
    rewrite rev_involutive, rev_append in Hw.
    apply starts_clean_prefix with (b := PyStr.rev w).
    rewrite <- Hw. apply starts_clean_lstrip. }
  rewrite (lstrip_clean _ Hclean), rev_involutive, (lstrip_clean _ Hu).
  reflexivity.
Qed.

(** The splitter returns non-empty, trimmed sentences. *)
Theorem split_sentences_nonempty_trimmed (text : string) :
  Forall (fun s => PyStr.nonempty s = true /\ PyStr.strip s = s)
    (Engine.split_sentences text).
Proof.
  unfold Engine.split_sentences. apply Forall_forall. intros s Hin.
  apply in_map_iff in Hin as [piece [<- Hpiece]].
  apply filter_In in Hpiece as [_ Hne].
  split; [exact Hne | apply strip_idempotent].
Qed.

(** ** More facts about the pipeline *)

(** The fast mode of [humanize] returns a text for every input, intensity
    and sequence of draws: none of its steps can raise. *)
Theorem fast_humanize_never_raises
    (paraphraser : string -> nat -> Q -> option string)
    (nlp : string -> list (string * string))
    (similarity : string -> string -> Q)
    (self : Engine.t) (text : string) (intensity : Q)
    (preserve_meaning : bool) :
  succeeds (Engine.humanize paraphraser nlp similarity self text intensity
              preserve_meaning true).
Proof.
  unfold Engine.humanize, Engine.fast_humanize.
  apply succeeds_bind.
  - apply succeeds_for_enumerate. intros i x. apply succeeds_fast_step.
  - intros result. apply succeeds_create_paragraph_variation.
Qed.

(** The technique sets of the three tiers, as [initialize] builds them. *)
Theorem tier_technique_sets (cuda : bool) :
  exists fast balanced quality,
    Service.get_humanizer (Service.initialize cuda Service.new) "fast"
    = Ok (Some fast)
    /\ Service.get_humanizer (Service.initialize cuda Service.new) "balanced"
       = Ok (Some balanced)
    /\ Service.get_humanizer (Service.initialize cuda Service.new) "quality"
       = Ok (Some quality)
    /\ Engine.techniques fast = ["sentence_variation"; "human_patterns"]
    /\ Engine.techniques balanced
       = ["sentence_variation"; "human_patterns"; "semantic_paraphrasing"]
    /\ Engine.techniques quality
       = ["sentence_variation"; "perplexity_modulation";
          "stylistic_injection"; "semantic_paraphrasing"; "human_patterns"].
Proof. do 3 eexists. repeat split. Qed.

(** Two sentences at an intensity of at most 0.5 make one paragraph: the
    target length is at least 3. *)
Lemma two_sentences_one_paragraph a b intensity r :
  Qltb 0.5 intensity = false ->
  Engine.create_paragraph_variation [a; b] intensity r
  = (Ok (a ++ " " ++ b), advance 2 r).
Proof.
  intros Hi. unfold Engine.create_paragraph_variation.
  cbn [Engine.paragraph_loop]. rewrite Hi.
  unfold bind. rewrite randint_eq. cbn [app length].
  replace (3 + scale (draws r (cursor r)) (6 + 1 - 3) <=? 1) with false
    by (symmetry; apply Nat.leb_gt; lia).
  cbn [orb]. rewrite randint_eq. rewrite orb_true_r.
  unfold ret. rewrite advance_advance. reflexivity.
Qed.

(** The scenario of the specification: on the fast tier at intensity 0 the
    text ["The cat sat on the mat. It was a sunny day."] comes back as it
    is, in one paragraph, whatever the draws of [0, 1). *)
Theorem cat_on_the_mat_unchanged
    (paraphraser : string -> nat -> Q -> option string)
    (nlp : string -> list (string * string))
    (similarity : string -> string -> Q)
    (preserve_meaning : bool) (rng : Rng) :
  uniform (draws rng) ->
  exists n,
    Engine.humanize paraphraser nlp similarity
      Stub.fast_engine "The cat sat on the mat. It was a sunny day." 0
      preserve_meaning true rng
    = (Ok "The cat sat on the mat. It was a sunny day.", advance n rng).
Proof.
  intros Hu. unfold Engine.humanize, Engine.fast_humanize.
  destruct (for_enumerate_yields uniform (Engine.fast_step Stub.fast_engine 0)
              (fun s => s)
              (Engine.split_sentences
                 "The cat sat on the mat. It was a sunny day.")
              (fast_step_zero Stub.fast_engine) 0 rng Hu) as [n Hn].
  exists (2 + n). rewrite (bind_ok _ _ _ _ _ Hn), map_id.
  change (Engine.split_sentences
            "The cat sat on the mat. It was a sunny day.")
    with ["The cat sat on the mat."; "It was a sunny day."].
  rewrite two_sentences_one_paragraph by reflexivity.
  rewrite advance_advance. reflexivity.
Qed.

Lemma cat_on_the_mat_unchanged_witness :
  exists n,
    Engine.humanize Stub.no_paraphrase Stub.plain_nlp Stub.similar
      Stub.fast_engine "The cat sat on the mat. It was a sunny day." 0
      true true (mkRng (fun _ => 0.5%Q) 0)
    = (Ok "The cat sat on the mat. It was a sunny day.",
       advance n (mkRng (fun _ => 0.5%Q) 0)).
Proof.
  apply (cat_on_the_mat_unchanged Stub.no_paraphrase Stub.plain_nlp
           Stub.similar true (mkRng (fun _ => 0.5%Q) 0)).
  exact uniform_half.
Defined.

(** ** The random source delivers integers of the requested range *)

Lemma scale_lt u n :
  (0 <= u)%Q -> (u < 1)%Q -> 0 < n -> scale u n < n.
Proof.
  intros H0 H1 Hn. unfold scale.
  assert (Hlt : (Qfloor (u * inject_Z (Z.of_nat n)) < Z.of_nat n)%Z).
  { rewrite Zlt_Qlt.
    apply Qle_lt_trans with (u * inject_Z (Z.of_nat n))%Q;
      [apply Qfloor_le|].
    rewrite <- (Qmult_1_l (inject_Z (Z.of_nat n))) at 2.
    apply Qmult_lt_compat_r; [|exact H1].
    change 0%Q with (inject_Z 0). rewrite <- Zlt_Qlt. lia. }
  lia.
Qed.

(** With draws of [0, 1), [random.randint(a, b)] is an integer of [a, b]
    and the target length of a paragraph lies in [2, 5] when the intensity
    exceeds 0.5 and in [3, 6] otherwise. *)
Theorem randint_in_range (a b : nat) (intensity : Q) (r : Rng) :
  uniform (draws r) ->
  a <= b ->
  (exists n, randint a b r = (Ok n, advance 1 r) /\ a <= n <= b)
  /\ (exists len,
        (if Qltb 0.5 intensity then randint 2 5 else randint 3 6) r
        = (Ok len, advance 1 r)
        /\ if Qltb 0.5 intensity then 2 <= len <= 5 else 3 <= len <= 6).
Proof.
  intros Hu Hab. destruct (Hu (cursor r)) as [H0 H1].
  assert (Hrange : forall x y, x <= y ->
            x <= x + scale (draws r (cursor r)) (y + 1 - x) <= y).
  { intros x y Hxy.
    pose proof (scale_lt (draws r (cursor r)) (y + 1 - x) H0 H1). lia. }
  split.
  - eexists. split; [apply randint_eq | apply Hrange, Hab].
  - destruct (Qltb 0.5 intensity); eexists;
      (split; [apply randint_eq | apply Hrange; lia]).
Qed.

Lemma randint_in_range_witness :
  (exists n, randint 1 9 (mkRng (fun _ => 0.5%Q) 0)
             = (Ok n, advance 1 (mkRng (fun _ => 0.5%Q) 0))
             /\ 1 <= n <= 9)
  /\ (exists len,
        (if Qltb 0.5 0.7 then randint 2 5 else randint 3 6)
          (mkRng (fun _ => 0.5%Q) 0)
        = (Ok len, advance 1 (mkRng (fun _ => 0.5%Q) 0))
        /\ if Qltb 0.5 0.7 then 2 <= len <= 5 else 3 <= len <= 6).
Proof.
  apply (randint_in_range 1 9 0.7 (mkRng (fun _ => 0.5%Q) 0)).
  - exact uniform_half.
  - lia.
Defined.

(** ** Splitting and composing change white space only *)

Lemma squeeze_append a b : squeeze (a ++ b) = squeeze a ++ squeeze b.
Proof.
  induction a as [|c r IH]; simpl; [reflexivity|].
  destruct (PyStr.isspace c); simpl; rewrite IH; reflexivity.
Qed.

Lemma squeeze_rev_onto s : forall acc,
  squeeze (PyStr.rev_onto s acc) = PyStr.rev_onto (squeeze s) (squeeze acc).
Proof.
  induction s as [|c r IH]; intros acc; simpl; [reflexivity|].
  rewrite IH. simpl. destruct (PyStr.isspace c); reflexivity.
Qed.

Lemma squeeze_rev s : squeeze (PyStr.rev s) = PyStr.rev (squeeze s).
Proof. unfold PyStr.rev. apply squeeze_rev_onto. Qed.

Lemma squeeze_lstrip s : squeeze (PyStr.lstrip s) = squeeze s.
Proof.
  induction s as [|c r IH]; simpl; [reflexivity|].
  destruct (PyStr.isspace c) eqn:Hc; [exact IH|]. simpl. rewrite Hc.
  reflexivity.
Qed.

Lemma squeeze_strip s : squeeze (PyStr.strip s) = squeeze s.
Proof.
  unfold PyStr.strip, PyStr.rstrip.
  rewrite squeeze_rev, squeeze_lstrip, squeeze_rev, rev_involutive.
  apply squeeze_lstrip.
Qed.

Lemma squeeze_all_app l1 l2 :
  squeeze_all (l1 ++ l2)%list = squeeze_all l1 ++ squeeze_all l2.
Proof.
  induction l1 as [|x r IH]; simpl; [reflexivity|].
  rewrite IH, append_assoc. reflexivity.
Qed.

(** The pieces cut by the pattern hold every character of the text that is
    not white space, in order. *)
Lemma squeeze_re_split s : forall cur skipping after_punct,
  squeeze_all (PyStr.re_split_aux s cur skipping after_punct)
  = PyStr.rev (squeeze cur) ++ squeeze s.
Proof.
  induction s as [|c r IH]; intros cur skipping after_punct; simpl.
  - rewrite squeeze_rev, !append_nil_r. reflexivity.
  - destruct (PyStr.isspace c) eqn:Hc.
    + destruct skipping; [apply IH|].
      destruct after_punct.
      * simpl. rewrite IH, squeeze_rev. reflexivity.
      * rewrite IH. simpl. rewrite Hc. reflexivity.
    + rewrite IH. simpl. rewrite Hc.
      unfold PyStr.rev. simpl.
      rewrite (rev_onto_append _ (String c "")), append_assoc. reflexivity.
Qed.

Lemma squeeze_all_strip_filter pieces :
  squeeze_all
    (map PyStr.strip
       (filter (fun s => PyStr.nonempty (PyStr.strip s)) pieces))
  = squeeze_all pieces.
Proof.
  induction pieces as [|x r IH]; simpl; [reflexivity|].
  destruct (PyStr.strip x) eqn:Hx; simpl.
  - rewrite IH, <- (squeeze_strip x), Hx. reflexivity.
  - rewrite Hx, IH, <- (squeeze_strip x), Hx. reflexivity.
Qed.

(** The sentence splitter drops white space and nothing else: the
    sentences, put end to end, spell the text without its white space. *)
Theorem split_sentences_loses_only_white_space (text : string) :
  squeeze_all (Engine.split_sentences text) = squeeze text.
Proof.
  unfold Engine.split_sentences, PyStr.re_split_sentences.
  rewrite squeeze_all_strip_filter, squeeze_re_split. reflexivity.
Qed.

Lemma squeeze_blank s : blank s = true -> squeeze s = EmptyString.
Proof.
  induction s as [|c r IH]; simpl; [reflexivity|].
  intros H. apply andb_prop in H as [Hc Hr]. rewrite Hc. auto.
Qed.

Lemma squeeze_join sep l :
  blank sep = true -> squeeze (PyStr.join sep l) = squeeze_all l.
Proof.
  intros Hsep. induction l as [|x [|y r] IH].
  - reflexivity.
  - simpl. rewrite append_nil_r. reflexivity.
  - change (PyStr.join sep (x :: y :: r))
      with (x ++ sep ++ PyStr.join sep (y :: r)).
    rewrite !squeeze_append, (squeeze_blank _ Hsep), IH. reflexivity.
Qed.

Lemma squeeze_all_joined paragraphs :
  squeeze_all (map (PyStr.join " ") paragraphs)
  = squeeze_all (concat paragraphs).
Proof.
  induction paragraphs as [|p ps IH]; simpl; [reflexivity|].
  rewrite squeeze_all_app, IH, squeeze_join; reflexivity.
Qed.

(** What the composer prints for paragraphs that partition the sentences. *)
Lemma squeeze_composed paragraphs sentences :
  concat paragraphs = sentences ->
  squeeze (if 1 <? length (map (PyStr.join " ") paragraphs)
           then PyStr.join Engine.para_break
                  (map (PyStr.join " ") paragraphs)
           else PyStr.join " " sentences)
  = squeeze_all sentences.
Proof.
  intros Hcat.
  destruct (1 <? length (map (PyStr.join " ") paragraphs)).
  - rewrite squeeze_join by reflexivity.
    rewrite squeeze_all_joined, Hcat. reflexivity.
  - apply squeeze_join. reflexivity.
Qed.

(** Paragraph composition adds white space and nothing else: for every
    list of sentences, intensity and sequence of draws, its output without
    white space is the sentences put end to end. *)
Theorem composition_adds_only_white_space
    (sentences : list string) (intensity : Q) (rng : Rng) :
  exists out,
    Engine.create_paragraph_variation sentences intensity rng
    = (Ok out, advance (length sentences) rng)
    /\ squeeze out = squeeze_all sentences.
Proof.
  destruct (paragraph_loop_partition intensity sentences [] rng)
    as [ps [Hrun [Hcat _]]].
  simpl in Hcat.
  unfold Engine.create_paragraph_variation.
  rewrite (bind_ok _ _ _ _ _ Hrun). unfold ret.
  eexists. split; [reflexivity|].
  apply squeeze_composed, Hcat.
Qed.

Lemma squeeze_split_ws s : forall cur,
  squeeze_all (PyStr.split_ws_aux s cur)
  = PyStr.rev (squeeze cur) ++ squeeze s.
Proof.
  induction s as [|c r IH]; intros cur; simpl.
  - destruct cur as [|x cur']; simpl; [reflexivity|].
    rewrite squeeze_rev, !append_nil_r. reflexivity.
  - destruct (PyStr.isspace c) eqn:Hc.
    + destruct cur as [|x cur']; simpl.
      * apply IH.
      * rewrite IH, squeeze_rev. reflexivity.
    + rewrite IH. simpl. rewrite Hc. unfold PyStr.rev. simpl.
      rewrite (rev_onto_append _ (String c "")), append_assoc. reflexivity.
Qed.

Lemma squeeze_at_rest self fast_mode s :
  squeeze (at_rest self fast_mode s) = squeeze s.
Proof.
  unfold at_rest.
  destruct (negb fast_mode
            && PyStr.mem "perplexity_modulation" (Engine.techniques self));
    [|reflexivity].
  rewrite squeeze_join by reflexivity.
  unfold PyStr.split_ws. rewrite squeeze_split_ws. reflexivity.
Qed.

Lemma squeeze_all_at_rest self fast_mode l :
  squeeze_all (map (at_rest self fast_mode) l) = squeeze_all l.
Proof.
  induction l as [|x r IH]; simpl; [reflexivity|].
  rewrite squeeze_at_rest, IH. reflexivity.
Qed.

(** At intensity 0 with the gate off, [humanize] returns the text up to
    white space: in fast mode for every sequence of draws of [0, 1), in the
    full mode when moreover no draw is exactly 0. *)
Theorem intensity_zero_keeps_text_up_to_white_space
    (paraphraser : string -> nat -> Q -> option string)
    (nlp : string -> list (string * string))
    (similarity : string -> string -> Q)
    (self : Engine.t) (text : string) (fast_mode : bool) (rng : Rng) :
  uniform (draws rng) ->
  (fast_mode = false -> positive (draws rng)) ->
  exists out rng',
    Engine.humanize paraphraser nlp similarity self text 0 false fast_mode rng
    = (Ok out, rng')
    /\ squeeze out = squeeze text.
Proof.
  intros Hu Hp.
  assert (Hloop : exists n,
            for_enumerate
              (if fast_mode then Engine.fast_step self 0
               else Engine.full_step paraphraser nlp similarity self 0 false)
              0 (Engine.split_sentences text) rng
            = (Ok (map (at_rest self fast_mode) (Engine.split_sentences text)),
               advance n rng)).
  { destruct fast_mode.
    - destruct (for_enumerate_yields uniform (Engine.fast_step self 0)
                  (fun s => s) (Engine.split_sentences text)
                  (fast_step_zero self) 0 rng Hu) as [n Hn].
      exists n. rewrite Hn. unfold at_rest. simpl. rewrite map_id.
      reflexivity.
    - apply (for_enumerate_yields positive
               (Engine.full_step paraphraser nlp similarity self 0 false)
               (at_rest self false) (Engine.split_sentences text)
               (full_step_zero paraphraser nlp similarity self) 0 rng
               (Hp eq_refl)). }
  destruct Hloop as [n Hn].
  destruct (paragraph_loop_partition 0
              (map (at_rest self fast_mode) (Engine.split_sentences text)) []
              (advance n rng)) as [ps [Hrun [Hcat _]]].
  simpl in Hcat.
  eexists. eexists. split.
  - unfold Engine.humanize, Engine.fast_humanize, Engine.full_humanize.
    destruct fast_mode; rewrite (bind_ok _ _ _ _ _ Hn);
      unfold Engine.create_paragraph_variation;
      rewrite (bind_ok _ _ _ _ _ Hrun); reflexivity.
  - rewrite (squeeze_composed _ _ Hcat), squeeze_all_at_rest.
    unfold Engine.split_sentences, PyStr.re_split_sentences.
    rewrite squeeze_all_strip_filter, squeeze_re_split. reflexivity.
Qed.

Lemma intensity_zero_keeps_text_up_to_white_space_witness :
  exists out rng',
    Engine.humanize Stub.no_paraphrase Stub.plain_nlp Stub.similar
      Stub.quality_engine "Hello   world.  It works!" 0 false false
      (mkRng (fun _ => 0.5%Q) 0)
    = (Ok out, rng')
    /\ squeeze out = squeeze "Hello   world.  It works!".
Proof.
  apply (intensity_zero_keeps_text_up_to_white_space Stub.no_paraphrase
           Stub.plain_nlp Stub.similar Stub.quality_engine
           "Hello   world.  It works!" false (mkRng (fun _ => 0.5%Q) 0)).
  - exact uniform_half.
  - intros _. exact positive_half.
Defined.

(** ** The sizes of the paragraphs *)

Lemma para_length_bounds intensity r :
  exists n,
    (if Qltb 0.5 intensity then randint 2 5 else randint 3 6) r
    = (Ok n, advance 1 r)
    /\ min_target intensity <= n
    /\ (uniform (draws r) -> n <= max_target intensity).
Proof.
  unfold min_target, max_target.
  destruct (Qltb 0.5 intensity); eexists;
    (split; [apply randint_eq|]); (split; [lia|]);
    intros Hu; destruct (Hu (cursor r)) as [H0 H1];
    pose proof (scale_lt (draws r (cursor r)) 4 H0 H1); simpl; lia.
Qed.

Lemma concat_nil_of_nonempty {A} (ps : list (list A)) :
  concat ps = [] -> Forall (fun p => 1 <= length p) ps -> ps = [].
Proof.
  destruct ps as [|p ps]; [reflexivity|].
  simpl. intros Hc Hf. inversion Hf as [|? ? Hp _]; subst.
  destruct p; [simpl in Hp; lia | discriminate].
Qed.

Lemma paragraph_loop_bounds intensity sentences :
  forall paragraph r,
    uniform (draws r) ->
    length paragraph < max_target intensity ->
    exists paragraphs : list (list string),
      Engine.paragraph_loop intensity sentences paragraph r
      = (Ok (map (PyStr.join " ") paragraphs), advance (length sentences) r)
      /\ concat paragraphs = (paragraph ++ sentences)%list
      /\ Forall (fun p => 1 <= length p <= max_target intensity) paragraphs
      /\ Forall (fun p => min_target intensity <= length p)
           (removelast paragraphs).
Proof.
  induction sentences as [|s rest IH]; intros paragraph r Hu Hlen.
  - destruct paragraph as [|p ps].
    + exists []. simpl. rewrite advance_0.
      split; [reflexivity|]. split; [reflexivity|]. split; constructor.
    + exists [p :: ps]. simpl. rewrite advance_0.
      split; [reflexivity|]. split; [rewrite ?app_nil_r; reflexivity|].
      split; [|constructor].
      constructor; [|constructor]. simpl in *. lia.
  - cbn [Engine.paragraph_loop].
    destruct (para_length_bounds intensity r) as [n [Hn [Hlo Hhi]]].
    specialize (Hhi Hu).
    rewrite (bind_ok _ _ _ _ _ Hn).
    assert (Hp : length (paragraph ++ [s])%list = length paragraph + 1)
      by (rewrite length_app; reflexivity).
    destruct (n <=? length (paragraph ++ [s])%list) eqn:Hflush.
    + apply Nat.leb_le in Hflush. cbn [orb].
      assert (H0 : @length string [] < max_target intensity)
        by (simpl; lia).
      destruct (IH [] (advance 1 r) Hu H0) as [ps [Hrun [Hcat [Hb Hm]]]].
      exists ((paragraph ++ [s])%list :: ps).
      rewrite (bind_ok _ _ _ _ _ Hrun). unfold ret. rewrite advance_advance.
      split; [simpl length; do 2 f_equal; lia|].
      split; [simpl; rewrite Hcat; simpl; rewrite <- app_assoc; reflexivity|].
      split; [constructor; [lia | exact Hb]|].
      destruct ps as [|q ps]; [constructor|].
      change (removelast ((paragraph ++ [s])%list :: q :: ps))
        with ((paragraph ++ [s])%list :: removelast (q :: ps)).
      constructor; [lia | exact Hm].
    + apply Nat.leb_gt in Hflush. cbn [orb].
      destruct rest as [|s' rest'].
      * assert (H0 : @length string [] < max_target intensity)
          by (simpl; lia).
        destruct (IH [] (advance 1 r) Hu H0) as [ps [Hrun [Hcat [Hb Hm]]]].
        simpl in Hcat.
        assert (Hps : ps = []).
        { apply concat_nil_of_nonempty; [exact Hcat|].
          eapply Forall_impl; [|exact Hb]. simpl. intros a Ha. lia. }
        subst ps.
        exists [(paragraph ++ [s])%list].
        rewrite (bind_ok _ _ _ _ _ Hrun). unfold ret. rewrite advance_advance.
        split; [reflexivity|].
        split; [simpl; rewrite app_nil_r; reflexivity|].
        split; [constructor; [lia | constructor] | constructor].
      * assert (H1 : length (paragraph ++ [s])%list < max_target intensity)
          by lia.
        destruct (IH (paragraph ++ [s])%list (advance 1 r) Hu H1)
          as [ps [Hrun [Hcat [Hb Hm]]]].
        exists ps. rewrite Hrun, advance_advance.
        split; [simpl length; do 2 f_equal; lia|].
        split; [rewrite Hcat, <- app_assoc; reflexivity|].
        split; assumption.
Qed.

(** With draws of [0, 1), what the composer returns is its sentences cut
    into paragraphs, the sentences of a paragraph joined by single blanks
    and the paragraphs by a blank line, where every paragraph holds between
    1 and 5 sentences (6 when the intensity is at most 0.5) and every
    paragraph but the last holds at least 2 (3 when the intensity is at
    most 0.5). *)
Theorem paragraph_sizes_bounded
    (sentences : list string) (intensity : Q) (rng : Rng) :
  uniform (draws rng) ->
  exists paragraphs : list (list string),
    Engine.create_paragraph_variation sentences intensity rng
    = (Ok (PyStr.join Engine.para_break (map (PyStr.join " ") paragraphs)),
       advance (length sentences) rng)
    /\ concat paragraphs = sentences
    /\ Forall (fun p => 1 <= length p <= max_target intensity) paragraphs
    /\ Forall (fun p => min_target intensity <= length p)
         (removelast paragraphs).
Proof.
  intros Hu.
  destruct (paragraph_loop_bounds intensity sentences [] rng Hu)
    as [ps [Hrun [Hcat [Hb Hm]]]].
  { unfold max_target. destruct (Qltb 0.5 intensity); simpl; lia. }
  simpl in Hcat. exists ps.
  split; [|split; [exact Hcat | split; [exact Hb | exact Hm]]].
  unfold Engine.create_paragraph_variation.
  rewrite (bind_ok _ _ _ _ _ Hrun). unfold ret.
  rewrite length_map.
  destruct ps as [|p [|q ps]].
  - simpl in *. subst. reflexivity.
  - simpl in *. rewrite app_nil_r in Hcat. subst. reflexivity.
  - reflexivity.
Qed.

Lemma paragraph_sizes_bounded_witness :
  (exists paragraphs : list (list string),
      Engine.create_paragraph_variation
        ["a."; "b."; "c."; "d."; "e."; "f."; "g."] 0.7
        (mkRng (fun _ => 0.5%Q) 0)
      = (Ok (PyStr.join Engine.para_break
               (map (PyStr.join " ") paragraphs)),
         advance 7 (mkRng (fun _ => 0.5%Q) 0))
      /\ concat paragraphs = ["a."; "b."; "c."; "d."; "e."; "f."; "g."]
      /\ Forall (fun p => 1 <= length p <= max_target 0.7) paragraphs
      /\ Forall (fun p => min_target 0.7 <= length p)
           (removelast paragraphs))
  /\ Engine.create_paragraph_variation
       ["a."; "b."; "c."; "d."; "e."; "f."; "g."] 0.7
       (mkRng (fun _ => 0.5%Q) 0)
     = (Ok (PyStr.join Engine.para_break ["a. b. c. d."; "e. f. g."]),
        advance 7 (mkRng (fun _ => 0.5%Q) 0)).
Proof.
  split.
  - apply (paragraph_sizes_bounded
             ["a."; "b."; "c."; "d."; "e."; "f."; "g."]
             0.7 (mkRng (fun _ => 0.5%Q) 0)).
    exact uniform_half.
  - vm_compute. reflexivity.
Defined.

(** A pending paragraph and sentences that together stay within the
    smallest target are flushed as one paragraph, by the last sentence. *)
Lemma paragraph_loop_short intensity sentences :
  forall paragraph r,
    sentences <> [] ->
    length paragraph + length sentences <= min_target intensity ->
    Engine.paragraph_loop intensity sentences paragraph r
    = (Ok [PyStr.join " " (paragraph ++ sentences)%list],
       advance (length sentences) r).
Proof.
  induction sentences as [|s rest IH]; intros paragraph r Hne Hlen;
    [contradiction|].
  cbn [Engine.paragraph_loop].
  destruct (para_length_bounds intensity r) as [n [Hn [Hlo _]]].
  rewrite (bind_ok _ _ _ _ _ Hn).
  destruct rest as [|s' rest'].
  - rewrite orb_true_r. reflexivity.
  - replace (n <=? length (paragraph ++ [s])%list) with false.
    2:{ symmetry. apply Nat.leb_gt. rewrite length_app. simpl in *. lia. }
    cbn [orb].
    rewrite IH; [|discriminate | rewrite length_app; simpl in *; lia].
    rewrite advance_advance, <- app_assoc. simpl.
    do 2 f_equal. f_equal. lia.
Qed.

(** A document of at most two sentences (three when the intensity is at
    most 0.5) is composed as a single paragraph, its sentences joined by
    single blanks, whatever the draws; so, in fast mode at intensity 0 and
    with draws of [0, 1), a text of at most three sentences comes back as
    its sentences joined by single blanks. *)
Theorem short_document_is_one_paragraph
    (paraphraser : string -> nat -> Q -> option string)
    (nlp : string -> list (string * string))
    (similarity : string -> string -> Q)
    (self : Engine.t) (sentences : list string) (intensity : Q) (rng : Rng) :
  length sentences <= min_target intensity ->
  Engine.create_paragraph_variation sentences intensity rng
  = (Ok (PyStr.join " " sentences), advance (length sentences) rng)
  /\ (forall text preserve_meaning,
        Engine.split_sentences text = sentences ->
        intensity = 0%Q ->
        uniform (draws rng) ->
        exists n,
          Engine.humanize paraphraser nlp similarity self text 0
            preserve_meaning true rng
          = (Ok (PyStr.join " " sentences), advance n rng)).
Proof.
  intros Hlen.
  assert (Hone : forall r,
            Engine.create_paragraph_variation sentences intensity r
            = (Ok (PyStr.join " " sentences), advance (length sentences) r)).
  { intros r. unfold Engine.create_paragraph_variation.
    destruct sentences as [|s rest].
    - simpl. unfold bind, ret. simpl. rewrite advance_0. reflexivity.
    - rewrite (bind_ok _ _ _ _ _
                 (paragraph_loop_short intensity (s :: rest) [] r
                    ltac:(discriminate) Hlen)).
      reflexivity. }
  split; [apply Hone|].
  intros text preserve_meaning Hsplit Hi Hu. subst intensity.
  unfold Engine.humanize, Engine.fast_humanize. rewrite Hsplit.
  destruct (for_enumerate_yields uniform (Engine.fast_step self 0)
              (fun s => s) sentences (fast_step_zero self) 0 rng Hu)
    as [n Hn].
  rewrite (bind_ok _ _ _ _ _ Hn), map_id, Hone, advance_advance.
  eexists. reflexivity.
Qed.

Lemma short_document_is_one_paragraph_witness :
  Engine.create_paragraph_variation
    ["The cat sat on the mat."; "It was a sunny day."] 1
    (mkRng (fun _ => 0.5%Q) 0)
  = (Ok "The cat sat on the mat. It was a sunny day.",
     advance 2 (mkRng (fun _ => 0.5%Q) 0)).
Proof.
  apply (short_document_is_one_paragraph Stub.no_paraphrase Stub.plain_nlp
           Stub.similar Stub.fast_engine
           ["The cat sat on the mat."; "It was a sunny day."] 1
           (mkRng (fun _ => 0.5%Q) 0)).
  vm_compute. apply le_n.
Defined.

(** ** Words: [split] and [join] *)

Lemma split_ws_aux_word w : forall cur rest,
  spaceless w = true ->
  PyStr.split_ws_aux (w ++ rest) cur
  = PyStr.split_ws_aux rest (PyStr.rev_onto w cur).
Proof.
  induction w as [|c r IH]; intros cur rest H; simpl in *; [reflexivity|].
  apply andb_prop in H as [Hc Hr].
  apply negb_true_iff in Hc. rewrite Hc. apply IH, Hr.
Qed.

Lemma rev_onto_nonempty w cur :
  PyStr.nonempty w = true -> PyStr.nonempty (PyStr.rev_onto w cur) = true.
Proof.
  revert cur. induction w as [|c r IH]; intros cur H; [discriminate|].
  simpl. destruct r as [|d r']; [reflexivity|]. apply IH. reflexivity.
Qed.

(** Joining words with single blanks and splitting again gives the words
    back. *)
Lemma split_ws_join words :
  Forall (fun w => solid w = true) words ->
  PyStr.split_ws (PyStr.join " " words) = words.
Proof.
  unfold PyStr.split_ws.
  induction words as [|x [|y r] IH]; intros H.
  - reflexivity.
  - inversion H as [|? ? Hx _]; subst.
    apply andb_prop in Hx as [Hne Hsp]. simpl.
    rewrite <- (append_nil_r x) at 1.
    rewrite (split_ws_aux_word x "" "" Hsp). simpl.
    fold (PyStr.rev x).
    assert (Hr : PyStr.nonempty (PyStr.rev x) = true)
      by (apply rev_onto_nonempty, Hne).
    rewrite Hr. fold (PyStr.rev (PyStr.rev x)).
    rewrite rev_involutive. reflexivity.
  - inversion H as [|? ? Hx Hrest]; subst.
    apply andb_prop in Hx as [Hne Hsp].
    specialize (IH Hrest).
    change (PyStr.join " " (x :: y :: r))
      with (x ++ String " " (PyStr.join " " (y :: r))).
    set (J := PyStr.join " " (y :: r)) in *.
    rewrite (split_ws_aux_word x "" _ Hsp).
    cbn [PyStr.split_ws_aux]. change (PyStr.isspace " ") with true.
    cbv iota. fold (PyStr.rev x).
    assert (Hr : PyStr.nonempty (PyStr.rev x) = true)
      by (apply rev_onto_nonempty, Hne).
    rewrite Hr. fold (PyStr.rev (PyStr.rev x)).
    rewrite rev_involutive, IH. reflexivity.
Qed.

Lemma spaceless_rev_onto s : forall acc,
  spaceless s = true -> spaceless acc = true ->
  spaceless (PyStr.rev_onto s acc) = true.
Proof.
  induction s as [|c r IH]; intros acc Hs Ha; simpl in *; [exact Ha|].
  apply andb_prop in Hs as [Hc Hr]. apply IH; [exact Hr|].
  simpl. rewrite Hc, Ha. reflexivity.
Qed.

(** [split] returns words. *)
Lemma split_ws_aux_solid s : forall cur,
  spaceless cur = true ->
  Forall (fun w => solid w = true) (PyStr.split_ws_aux s cur).
Proof.
  assert (Hword : forall cur, spaceless cur = true ->
            PyStr.nonempty cur = true -> solid (PyStr.rev cur) = true).
  { intros cur Hs Hn. unfold solid, PyStr.rev.
    rewrite (rev_onto_nonempty cur "" Hn).
    rewrite spaceless_rev_onto; auto. }
  induction s as [|c r IH]; intros cur Hcur; simpl.
  - destruct (PyStr.nonempty cur) eqn:Hn; constructor; auto.
  - destruct (PyStr.isspace c) eqn:Hc.
    + destruct (PyStr.nonempty cur) eqn:Hn.
      * constructor; [auto | apply IH; reflexivity].
      * apply IH. reflexivity.
    + apply IH. simpl. rewrite Hc, Hcur. reflexivity.
Qed.

Lemma split_ws_solid s :
  Forall (fun w => solid w = true) (PyStr.split_ws s).
Proof. apply split_ws_aux_solid. reflexivity. Qed.

(** ** Perplexity modulation on aligned tokens *)

Lemma lookup_solid k tbl :
  Forall (fun kv => Forall (fun w => solid w = true) (snd kv)) tbl ->
  Forall (fun w => solid w = true) (Engine.lookup k tbl).
Proof.
  induction 1 as [|[k' v] rest Hv _ IH]; simpl; [constructor|].
  destruct (String.eqb k k'); [exact Hv | exact IH].
Qed.

Lemma synonyms_solid word :
  Forall (fun w => solid w = true) (Engine.get_simple_synonyms word).
Proof.
  unfold Engine.get_simple_synonyms. apply lookup_solid.
  unfold Engine.synonym_table.
  repeat (constructor; [repeat constructor|]). constructor.
Qed.

Lemma choice_in {A} (x : A) l r :
  exists v, choice (x :: l) r = (Ok v, advance 1 r) /\ In v (x :: l).
Proof.
  eexists. split; [reflexivity|].
  destruct (Nat.lt_ge_cases (scale (draws r (cursor r)) (length (x :: l)))
              (length (x :: l))) as [Hlt | Hge].
  - apply nth_In, Hlt.
  - rewrite nth_overflow by exact Hge. left. reflexivity.
Qed.

Lemma set_item_ok {A} (l : list A) i x :
  i < length l ->
  exists l', PyList.set_item l i x = Some l'
             /\ length l' = length l
             /\ forall P : A -> Prop, Forall P l -> P x -> Forall P l'.
Proof.
  revert i. induction l as [|y r IH]; intros i Hi; [simpl in Hi; lia|].
  destruct i as [|k]; simpl.
  - exists (x :: r). split; [reflexivity|]. split; [reflexivity|].
    intros P Hl Hx. inversion Hl; subst. constructor; assumption.
  - destruct (IH k) as [l' [Hset [Hlen Hall]]]; [simpl in Hi; lia|].
    rewrite Hset. exists (y :: l'). split; [reflexivity|].
    split; [simpl; rewrite Hlen; reflexivity|].
    intros P Hl Hx. inversion Hl; subst. constructor; auto.
Qed.

Lemma modulate_tokens_aligned intensity doc :
  forall i words r,
    i + length doc <= length words ->
    Forall (fun w => solid w = true) words ->
    exists words' n,
      Engine.modulate_tokens intensity doc i words r
      = (Ok words', advance n r)
      /\ length words' = length words
      /\ Forall (fun w => solid w = true) words'.
Proof.
  induction doc as [|[text pos] rest IH]; intros i words r Hi Hsolid.
  - exists words, 0. simpl. rewrite advance_0. auto.
  - cbn [Engine.modulate_tokens].
    rewrite (bind_ok _ _ _ _ _ (chance_eq _ r)).
    simpl length in Hi.
    assert (Hkeep : forall r1 k, r1 = advance k r ->
              exists words' n,
                bind (ret words)
                  (fun w => Engine.modulate_tokens intensity rest (S i) w) r1
                = (Ok words', advance n r)
                /\ length words' = length words
                /\ Forall (fun w => solid w = true) words').
    { intros r1 k ->.
      destruct (IH (S i) words (advance k r)) as [w' [n [Hrun [Hl Hs]]]];
        [lia | exact Hsolid |].
      exists w', (n + k). unfold bind, ret. rewrite Hrun, advance_advance.
      auto. }
    destruct (Qltb (draws r (cursor r)) (intensity * 0.1)
              && PyStr.mem pos Engine.content_tags);
      [|apply (Hkeep _ 1 eq_refl)].
    pose proof (synonyms_solid text) as Hsyn.
    destruct (Engine.get_simple_synonyms text) as [|syn syns];
      [apply (Hkeep _ 1 eq_refl)|].
    destruct (choice_in syn syns (advance 1 r)) as [w [Hw Hin]].
    destruct (set_item_ok words i w) as [words1 [Hset [Hlen Hall]]]; [lia|].
    assert (Hsolid1 : Forall (fun w => solid w = true) words1).
    { apply Hall; [exact Hsolid|].
      rewrite Forall_forall in Hsyn. apply Hsyn, Hin. }
    destruct (IH (S i) words1 (advance 1 (advance 1 r)))
      as [w' [n [Hrun [Hl Hs]]]]; [lia | exact Hsolid1 |].
    exists w', (n + 2).
    unfold bind at 1. unfold bind at 1. rewrite Hw.
    unfold set_item. rewrite Hset. unfold ret at 1.
    rewrite Hrun, !advance_advance.
    split; [do 2 f_equal; lia|]. split; [congruence | exact Hs].
Qed.

(** When the tagger yields at most one token per word of the sentence,
    perplexity modulation cannot raise, and it returns a sentence with the
    same number of words as its input. *)
Theorem modulate_perplexity_aligned
    (nlp : string -> list (string * string))
    (sentence : string) (intensity : Q) (rng : Rng) :
  length (nlp sentence) <= length (PyStr.split_ws sentence) ->
  exists out n,
    Engine.modulate_perplexity nlp sentence intensity rng
    = (Ok out, advance n rng)
    /\ length (PyStr.split_ws out) = length (PyStr.split_ws sentence).
Proof.
  intros Hal. unfold Engine.modulate_perplexity.
  destruct (modulate_tokens_aligned intensity (nlp sentence) 0
              (PyStr.split_ws sentence) rng Hal (split_ws_solid sentence))
    as [words' [n [Hrun [Hlen Hsolid]]]].
  exists (PyStr.join " " words'), n.
  rewrite (bind_ok _ _ _ _ _ Hrun). split; [reflexivity|].
  rewrite (split_ws_join _ Hsolid). exact Hlen.
Qed.

Lemma modulate_perplexity_aligned_witness :
  (exists out n,
      Engine.modulate_perplexity Stub.good_idea_nlp "This is a good idea" 1
        (Stub.rng [] 0.05)
      = (Ok out, advance n (Stub.rng [] 0.05))
      /\ length (PyStr.split_ws out)
         = length (PyStr.split_ws "This is a good idea"))
  /\ Engine.modulate_perplexity Stub.good_idea_nlp "This is a good idea" 1
       (Stub.rng [] 0.05)
     = (Ok "This is a great idea", advance 6 (Stub.rng [] 0.05)).
Proof.
  split.
  - apply (modulate_perplexity_aligned Stub.good_idea_nlp
             "This is a good idea" 1 (Stub.rng [] 0.05)).
    vm_compute. apply le_n.
  - vm_compute. reflexivity.
Defined.

(** ** The full pipeline on aligned tokens *)

Lemma returns_on_ret {A} P (v : A) (R : A -> Prop) :
  R v -> returns_on P (ret v) R.
Proof. intros H r _. exists v, 0. rewrite advance_0. auto. Qed.

Lemma returns_on_bind {A B} P (c : M A) (k : A -> M B) R1 R2 :
  returns_on P c R1 ->
  (forall a, R1 a -> returns_on P (k a) R2) ->
  returns_on P (bind c k) R2.
Proof.
  intros Hc Hk r HP. destruct (Hc r HP) as [a [n [Hn Ha]]].
  destruct (Hk a Ha (advance n r) HP) as [b [m [Hm Hb]]].
  exists b, (m + n).
  rewrite (bind_ok _ _ _ _ _ Hn), Hm, advance_advance. auto.
Qed.

Lemma returns_on_succeeds {A} P (c : M A) :
  succeeds c -> returns_on P c (fun _ => True).
Proof.
  intros H r _. destruct (H r) as [v [n Hn]]. exists v, n. auto.
Qed.

Lemma returns_on_weaken {A} P (c : M A) (R1 R2 : A -> Prop) :
  (forall a, R1 a -> R2 a) -> returns_on P c R1 -> returns_on P c R2.
Proof.
  intros H Hc r HP. destruct (Hc r HP) as [v [n [Hn Hv]]].
  exists v, n. auto.
Qed.

Lemma returns_on_if {A} P (b : bool) (c1 c2 : M A) R :
  returns_on P c1 R -> returns_on P c2 R ->
  returns_on P (if b then c1 else c2) R.
Proof. destruct b; auto. Qed.

(** With draws of [0, 1), [randint(a, b)] lies in [a, b]. *)
Lemma randint_returns a b :
  a <= b -> returns_on uniform (randint a b) (fun n => a <= n <= b).
Proof.
  intros Hab r Hu. destruct (Hu (cursor r)) as [H0 H1].
  eexists. exists 1. split; [apply randint_eq|].
  pose proof (scale_lt (draws r (cursor r)) (b + 1 - a) H0 H1). lia.
Qed.

Lemma get_item_returns P l i :
  i < length l -> returns_on P (get_item l i) (fun _ => True).
Proof.
  intros Hi. unfold get_item.
  destruct (nth_error l i) eqn:Hn.
  - apply returns_on_ret. exact I.
  - apply nth_error_None in Hn. lia.
Qed.

Lemma set_item_returns P l i x :
  i < length l -> returns_on P (set_item l i x) (fun _ => True).
Proof.
  intros Hi. unfold set_item.
  destruct (set_item_ok l i x Hi) as [l' [Hset _]]. rewrite Hset.
  apply returns_on_ret. exact I.
Qed.

Lemma returns_on_ret_any {A} P (v : A) :
  returns_on P (ret v) (fun _ => True).
Proof. apply returns_on_ret. exact I. Qed.

Ltac returns_total :=
  apply returns_on_succeeds; total_steps.

(** Stylistic injection cannot raise: the word it stresses is drawn among
    the words of the sentence, the first and the last excepted. *)
Lemma inject_style_returns sentence intensity :
  returns_on uniform (Engine.inject_style sentence intensity)
    (fun _ => True).
Proof.
  unfold Engine.inject_style, Engine.questions.
  apply returns_on_bind with (R1 := fun _ => True); [returns_total|].
  intros u _. apply returns_on_if; [apply returns_on_ret_any|].
  apply returns_on_bind with (R1 := fun _ => True); [returns_total|].
  intros ask _.
  apply returns_on_bind with (R1 := fun _ => True); [returns_total|].
  intros sentence1 _.
  destruct (5 <? length (PyStr.split_ws sentence1)) eqn:Hlen.
  - apply Nat.ltb_lt in Hlen. cbn [and_then].
    apply returns_on_bind with (R1 := fun _ => True); [returns_total|].
    intros stress _.
    apply returns_on_bind with (R1 := fun _ => True);
      [|intros words _; apply returns_on_ret_any].
    apply returns_on_if; [|apply returns_on_ret_any].
    eapply returns_on_bind; [apply randint_returns; lia|].
    intros idx Hidx. cbv beta in Hidx.
    apply returns_on_bind with (R1 := fun _ => True);
      [apply get_item_returns; lia|].
    intros w _.
    apply returns_on_if;
      [apply set_item_returns; lia | apply returns_on_ret_any].
  - cbn [and_then].
    apply returns_on_bind with (R1 := fun b => b = false);
      [apply returns_on_ret; reflexivity|].
    intros stress ->.
    apply returns_on_bind with (R1 := fun _ => True);
      [apply returns_on_ret_any | intros words _; apply returns_on_ret_any].
Qed.

Lemma succeeds_paraphrase_sentence paraphraser sentence intensity :
  succeeds (Engine.paraphrase_sentence paraphraser sentence intensity).
Proof.
  unfold Engine.paraphrase_sentence.
  apply succeeds_bind; [apply succeeds_random|]. intros u.
  apply succeeds_if; [apply succeeds_ret|].
  destruct (paraphraser _ _ _); apply succeeds_ret.
Qed.

Section NoFaultFacts.

Variable paraphraser : string -> nat -> Q -> option string.
Variable nlp : string -> list (string * string).
Variable similarity : string -> string -> Q.

Lemma modulate_perplexity_returns sentence intensity :
  aligned nlp ->
  returns_on uniform (Engine.modulate_perplexity nlp sentence intensity)
    (fun _ => True).
Proof.
  intros nlp_aligned r _.
  destruct (modulate_tokens_aligned intensity (nlp sentence) 0
              (PyStr.split_ws sentence) r (nlp_aligned sentence)
              (split_ws_solid sentence))
    as [words' [n [Hrun _]]].
  exists (PyStr.join " " words'), n.
  unfold Engine.modulate_perplexity.
  rewrite (bind_ok _ _ _ _ _ Hrun). auto.
Qed.

Lemma when_enabled_returns self name f sentence intensity :
  returns_on uniform (f sentence intensity) (fun _ => True) ->
  returns_on uniform (Engine.when_enabled self name f sentence intensity)
    (fun _ => True).
Proof.
  intros H. unfold Engine.when_enabled.
  apply returns_on_if; [exact H | apply returns_on_ret_any].
Qed.

(** The guarded call of perplexity modulation returns when the technique
    is not enabled, and when the tagger is aligned. *)
Lemma guarded_perplexity_returns self sentence intensity :
  PyStr.mem "perplexity_modulation" (Engine.techniques self) = false
  \/ aligned nlp ->
  returns_on uniform
    (Engine.when_enabled self "perplexity_modulation"
       (Engine.modulate_perplexity nlp) sentence intensity)
    (fun _ => True).
Proof.
  intros [Hoff | Hal].
  - unfold Engine.when_enabled. rewrite Hoff. apply returns_on_ret_any.
  - apply when_enabled_returns, modulate_perplexity_returns, Hal.
Qed.

Lemma full_chain_returns self intensity sentence :
  PyStr.mem "perplexity_modulation" (Engine.techniques self) = false
  \/ aligned nlp ->
  returns_on uniform
    (Engine.full_chain paraphraser nlp self intensity sentence)
    (fun _ => True).
Proof.
  intros Hsafe. unfold Engine.full_chain.
  apply returns_on_bind with (R1 := fun _ => True).
  { apply when_enabled_returns, returns_on_succeeds,
      succeeds_paraphrase_sentence. }
  intros s1 _. apply returns_on_bind with (R1 := fun _ => True).
  { apply when_enabled_returns, returns_on_succeeds,
      succeeds_vary_sentence_structure. }
  intros s2 _. apply returns_on_bind with (R1 := fun _ => True).
  { apply guarded_perplexity_returns, Hsafe. }
  intros s3 _. apply returns_on_bind with (R1 := fun _ => True).
  { apply when_enabled_returns, inject_style_returns. }
  intros s4 _.
  apply when_enabled_returns, returns_on_succeeds,
    succeeds_add_human_patterns.
Qed.

Lemma full_step_returns self intensity preserve_meaning i sentence :
  PyStr.mem "perplexity_modulation" (Engine.techniques self) = false
  \/ aligned nlp ->
  returns_on uniform
    (Engine.full_step paraphraser nlp similarity self intensity
       preserve_meaning i sentence)
    (fun _ => True).
Proof.
  intros Hsafe. unfold Engine.full_step.
  apply returns_on_bind with (R1 := fun _ => True);
    [apply full_chain_returns, Hsafe|].
  intros s _.
  repeat apply returns_on_if; try apply returns_on_ret_any.
  apply returns_on_succeeds, succeeds_add_human_patterns.
Qed.

Lemma for_enumerate_returns {A B} (body : nat -> A -> M B) l :
  (forall i x, returns_on uniform (body i x) (fun _ => True)) ->
  forall i, returns_on uniform (for_enumerate body i l)
              (fun ys => length ys = length l).
Proof.
  intros H. induction l as [|x rest IH]; intros i; simpl.
  - apply returns_on_ret. reflexivity.
  - apply returns_on_bind with (R1 := fun _ => True); [apply H|].
    intros y _. eapply returns_on_bind; [apply IH|].
    intros ys Hys. apply returns_on_ret. simpl. rewrite Hys. reflexivity.
Qed.

Lemma humanize_returns self text intensity preserve_meaning fast_mode :
  fast_mode = true
  \/ PyStr.mem "perplexity_modulation" (Engine.techniques self) = false
  \/ aligned nlp ->
  returns_on uniform
    (Engine.humanize paraphraser nlp similarity self text intensity
       preserve_meaning fast_mode)
    (fun _ => True).
Proof.
  intros Hsafe. unfold Engine.humanize. destruct fast_mode.
  - apply returns_on_succeeds.
    unfold Engine.fast_humanize. apply succeeds_bind.
    + apply succeeds_for_enumerate. intros i x. apply succeeds_fast_step.
    + intros result. apply succeeds_create_paragraph_variation.
  - destruct Hsafe as [Hfast | Hsafe]; [discriminate|].
    unfold Engine.full_humanize.
    eapply returns_on_bind.
    + apply for_enumerate_returns. intros i x.
      apply full_step_returns, Hsafe.
    + intros result _. apply returns_on_succeeds.
      apply succeeds_create_paragraph_variation.
Qed.

(** With draws of [0, 1), [humanize] returns a text, for every text,
    intensity and flag and whatever the paraphrase model, the tagger and
    the encoder answer, as soon as the call is in fast mode or
    [perplexity_modulation] is not among the techniques of the engine, as
    for the engines of the fast and of the balanced tier: no other
    technique raises.  The same holds with [perplexity_modulation] enabled
    for a tagger that yields at most one token per word. *)
Theorem humanize_never_raises_without_perplexity
    (self : Engine.t) (text : string) (intensity : Q)
    (preserve_meaning fast_mode : bool) (rng : Rng) :
  uniform (draws rng) ->
  fast_mode = true
  \/ PyStr.mem "perplexity_modulation" (Engine.techniques self) = false
  \/ aligned nlp ->
  exists out n,
    Engine.humanize paraphraser nlp similarity self text intensity
      preserve_meaning fast_mode rng
    = (Ok out, advance n rng).
Proof.
  intros Hu Hsafe.
  destruct (humanize_returns self text intensity preserve_meaning fast_mode
              Hsafe rng Hu) as [out [n [H _]]].
  exists out, n. exact H.
Qed.

Variable score : string -> string -> option Q.

Lemma succeeds_vary_punctuation text :
  succeeds (DetectionEvasion.vary_punctuation text).
Proof.
  unfold DetectionEvasion.vary_punctuation. total_steps.
Qed.

Lemma succeeds_add_unicode_variations text :
  succeeds (DetectionEvasion.add_unicode_variations text).
Proof.
  unfold DetectionEvasion.add_unicode_variations. total_steps.
Qed.

(** With draws of [0, 1), a request to the humanize endpoint that is not
    answered from the cache and names a served mode is answered with status
    200, and the response carries the text and the mode of the request, as
    soon as the mode is fast or [perplexity_modulation] is not among the
    techniques the engine runs with (the override of the request when it
    has one, the techniques of the engine otherwise), or the tagger yields
    at most one token per word. *)
Theorem served_request_is_answered
    (entry : option Api.HumanizeResponse) (req : Api.HumanizeRequest)
    (svc : Service.t) (rng : Rng) (h : Engine.t) :
  uniform (draws rng) ->
  cache_miss entry req ->
  Service.get_humanizer svc (Api.mode req) = Ok (Some h) ->
  Api.mode req = "fast"
  \/ PyStr.mem "perplexity_modulation"
       (match Api.techniques req with
        | Some (x :: l) => x :: l
        | _ => Engine.techniques h
        end) = false
  \/ aligned nlp ->
  exists response,
    fst (fst (Api.humanize_text
                (Engine.humanize paraphraser nlp similarity) score entry
                req svc rng))
    = Api.Http200 response
    /\ Api.original_text response = Api.text req
    /\ Api.response_mode response = Api.mode req
    /\ Api.cached response = false.
Proof.
  intros Hu Hc Hg Hsafe.
  rewrite (humanize_text_past_cache _ score entry req svc rng h Hc Hg).
  cbv zeta. cbn [fst].
  set (h' := match Api.techniques req with
             | Some (x :: l) => Api.set_techniques h (x :: l)
             | _ => h
             end).
  assert (Hsafe' : String.eqb (Api.mode req) "fast" = true
                   \/ PyStr.mem "perplexity_modulation"
                        (Engine.techniques h') = false
                   \/ aligned nlp).
  { destruct Hsafe as [Hfast | [Hoff | Hal]].
    - left. rewrite Hfast. reflexivity.
    - right. left. unfold h'.
      destruct (Api.techniques req) as [[|x l]|]; exact Hoff.
    - right. right. exact Hal. }
  assert (Hrun : returns_on uniform
                   (Api.respond (Engine.humanize paraphraser nlp similarity)
                      score h' req)
                   (fun response =>
                      Api.original_text response = Api.text req
                      /\ Api.response_mode response = Api.mode req
                      /\ Api.cached response = false)).
  { unfold Api.respond.
    apply returns_on_bind with (R1 := fun _ => True);
      [apply humanize_returns, Hsafe'|].
    intros t1 _. apply returns_on_bind with (R1 := fun _ => True);
      [apply returns_on_succeeds, succeeds_vary_punctuation|].
    intros t2 _. apply returns_on_bind with (R1 := fun _ => True).
    { apply returns_on_if;
        [apply returns_on_succeeds, succeeds_add_unicode_variations
        | apply returns_on_ret_any]. }
    intros t3 _. apply returns_on_ret. auto. }
  destruct (Hrun rng Hu) as [response [n [Hr Hfields]]].
  exists response. rewrite Hr. auto.
Qed.

End NoFaultFacts.

Lemma uniform_low : uniform (fun _ => 0.05%Q).
Proof.
  intros n. split; [apply Qle_bool_imp_le|]; reflexivity.
Qed.

Lemma humanize_never_raises_without_perplexity_witness :
  (exists out n,
      Engine.humanize Stub.no_paraphrase Stub.clitic_nlp Stub.similar
        (Engine.init false false "medium"
           (Some ["sentence_variation"; "human_patterns";
                  "semantic_paraphrasing"]))
        "It can't be good." 1 true
        false (mkRng (fun _ => 0.05%Q) 0)
      = (Ok out, advance n (mkRng (fun _ => 0.05%Q) 0)))
  /\ fst (Engine.humanize Stub.no_paraphrase Stub.clitic_nlp Stub.similar
            (Engine.init false false "medium"
               (Some ["sentence_variation"; "human_patterns";
                      "semantic_paraphrasing"]))
            "It can't be good." 1 true
            false (mkRng (fun _ => 0.05%Q) 0))
     = Ok "I'd say, it kind of can't be good.".
Proof.
  split.
  - apply (humanize_never_raises_without_perplexity Stub.no_paraphrase
             Stub.clitic_nlp Stub.similar
             (Engine.init false false "medium"
                (Some ["sentence_variation"; "human_patterns";
                       "semantic_paraphrasing"]))
             "It can't be good." 1
             true false (mkRng (fun _ => 0.05%Q) 0)).
    + exact uniform_low.
    + right. left. reflexivity.
  - vm_compute. reflexivity.
Defined.

Lemma served_request_is_answered_witness :
  (exists response,
      fst (fst (Api.humanize_text
                  (Engine.humanize Stub.no_paraphrase Stub.clitic_nlp
                     Stub.similar) Stub.no_score None
                  {| Api.text := "It can't be good.";
                     Api.mode := "balanced";
                     Api.intensity := 0.9; Api.preserve_meaning := true;
                     Api.techniques := None; Api.cache := true |}
                  Stub.service (mkRng (fun _ => 0.05%Q) 0)))
      = Api.Http200 response
      /\ Api.original_text response = "It can't be good."
      /\ Api.response_mode response = "balanced"
      /\ Api.cached response = false)
  /\ fst (fst (Api.humanize_text
                 (Engine.humanize Stub.no_paraphrase Stub.clitic_nlp
                    Stub.similar) Stub.no_score None
                 {| Api.text := "It can't be good.";
                    Api.mode := "balanced";
                    Api.intensity := 0.9; Api.preserve_meaning := true;
                    Api.techniques := None; Api.cache := true |}
                 Stub.service (mkRng (fun _ => 0.05%Q) 0)))
     = Api.Http200
         {| Api.original_text := "It can't be good.";
            Api.humanized_text := "I'd say, it kind of can't be good.";
            Api.response_mode := "balanced";
            Api.techniques_applied :=
              ["sentence_variation"; "human_patterns";
               "semantic_paraphrasing"];
            Api.similarity_score := None;
            Api.cached := false |}.
Proof.
  split.
  - apply (served_request_is_answered Stub.no_paraphrase Stub.clitic_nlp
             Stub.similar Stub.no_score None
             {| Api.text := "It can't be good."; Api.mode := "balanced";
                Api.intensity := 0.9; Api.preserve_meaning := true;
                Api.techniques := None; Api.cache := true |}
             Stub.service (mkRng (fun _ => 0.05%Q) 0)
             (Engine.init false false "medium"
                (Some ["sentence_variation"; "human_patterns";
                       "semantic_paraphrasing"]))).
    + exact uniform_low.
    + right. reflexivity.
    + reflexivity.
    + right. left. reflexivity.
  - vm_compute. reflexivity.
Defined.

(** ** Punctuation and typos *)

Lemma substring_all s : forall m,
  String.length s <= m -> substring 0 m s = s.
Proof.
  induction s as [|c r IH]; intros m Hm; destruct m as [|m'];
    simpl in *; try reflexivity; try lia.
  rewrite IH by lia. reflexivity.
Qed.

Lemma prefix_split old : forall s m,
  prefix old s = true -> String.length s <= m + String.length old ->
  old ++ substring (String.length old) m s = s.
Proof.
  induction old as [|a old' IH]; intros s m Hp Hm.
  - simpl in *. apply substring_all. lia.
  - destruct s as [|b s']; simpl in Hp; [discriminate|].
    revert Hp. destruct (ascii_dec a b) as [->|]; [|discriminate].
    intros Hp. simpl. rewrite IH; [reflexivity | exact Hp | simpl in Hm; lia].
Qed.

(** Replacing the first occurrence of a piece by the same piece changes
    nothing. *)
Lemma replace_first_same old s : PyStr.replace_first old old s = s.
Proof.
  induction s as [|c r IH]; [reflexivity|].
  cbn [PyStr.replace_first].
  destruct (prefix old (String c r)) eqn:Hp.
  - apply prefix_split; [exact Hp | lia].
  - rewrite IH. reflexivity.
Qed.

Lemma contains_cons old c r :
  PyStr.contains old (String c r) = false ->
  prefix old (String c r) = false /\ PyStr.contains old r = false.
Proof.
  intros H. cbn [PyStr.contains] in H.
  destruct (prefix old (String c r)); [discriminate | auto].
Qed.

(** A text that does not contain the piece is left as it is by [replace]. *)
Lemma replace_absent old new s :
  PyStr.contains old s = false -> PyStr.replace old new s = s.
Proof.
  unfold PyStr.replace. induction s as [|c r IH]; intros H;
    [reflexivity|].
  destruct (contains_cons _ _ _ H) as [Hp Hr].
  cbn [PyStr.replace_aux]. rewrite Hp, (IH Hr). reflexivity.
Qed.

(** [vary_punctuation] changes dashes only: its result is the text with
    every [" - "] replaced by one and the same dash, an em dash or an en
    dash; the quotes stay as they are, whether their branch runs or not.  A
    text without [" - "] is returned unchanged. *)
Theorem vary_punctuation_changes_dashes_only (text : string) (rng : Rng) :
  exists dash n,
    (dash = DetectionEvasion.em_dash \/ dash = DetectionEvasion.en_dash)
    /\ DetectionEvasion.vary_punctuation text rng
       = (Ok (PyStr.replace " - " (" " ++ dash ++ " ") text), advance n rng)
    /\ (PyStr.contains " - " text = false ->
        DetectionEvasion.vary_punctuation text rng
        = (Ok text, advance n rng)).
Proof.
  unfold DetectionEvasion.vary_punctuation.
  rewrite (bind_ok _ _ _ _ _ (chance_eq 0.5 rng)).
  set (em := Qltb (draws rng (cursor rng)) 0.5).
  exists (if em then DetectionEvasion.em_dash else DetectionEvasion.en_dash).
  set (dashed := PyStr.replace " - " _ text).
  assert (Hd : dashed
               = PyStr.replace " - "
                   (" " ++ (if em then DetectionEvasion.em_dash
                            else DetectionEvasion.en_dash) ++ " ") text)
    by (unfold dashed; destruct em; reflexivity).
  assert (Hrun : exists n,
            (if PyStr.contains DetectionEvasion.dquote dashed
             then bind (chance 0.3)
                    (fun q =>
                       ret (if q
                            then PyStr.replace_first DetectionEvasion.dquote
                                   DetectionEvasion.dquote
                                   (PyStr.replace_first
                                      DetectionEvasion.dquote
                                      DetectionEvasion.dquote dashed)
                            else dashed))
             else ret dashed) (advance 1 rng)
            = (Ok dashed, advance n rng)).
  { destruct (PyStr.contains DetectionEvasion.dquote dashed).
    - exists 2. rewrite (bind_ok _ _ _ _ _ (chance_eq 0.3 (advance 1 rng))).
      rewrite !replace_first_same.
      destruct (Qltb _ 0.3); unfold ret; rewrite advance_advance;
        reflexivity.
    - exists 1. reflexivity. }
  destruct Hrun as [n Hrun]. exists n.
  split; [destruct em; auto|].
  split; [rewrite Hrun, Hd; reflexivity|].
  intros Habs. rewrite Hrun, Hd, (replace_absent _ _ _ Habs). reflexivity.
Qed.

Lemma add_typos_loop_once rate patterns all text :
  (forall p, In p patterns -> In p all) ->
  forall r,
  exists out n,
    Typos.add_typos_loop rate patterns text r = (Ok out, advance n r)
    /\ (out = text
        \/ exists correct typo,
             In (correct, typo) all
             /\ PyStr.contains correct text = true
             /\ out = PyStr.replace_first correct typo text)
    /\ (uniform (draws r) -> (rate <= 0)%Q -> out = text).
Proof.
  induction patterns as [|[correct typo] rest IH]; intros Hsub r.
  - exists text, 0. simpl. rewrite advance_0. auto.
  - cbn [Typos.add_typos_loop].
    assert (Hrest : forall p, In p rest -> In p all)
      by (intros p Hp; apply Hsub; right; exact Hp).
    destruct (PyStr.contains correct text) eqn:Hc; cbn [and_then].
    + rewrite (bind_ok _ _ _ _ _ (chance_eq rate r)).
      destruct (Qltb (draws r (cursor r)) rate) eqn:Hhit.
      * exists (PyStr.replace_first correct typo text), 1.
        split; [reflexivity|]. split.
        -- right. exists correct, typo.
           split; [apply Hsub; left; reflexivity | auto].
        -- intros Hu Hrate. exfalso.
           apply Qltb_lt in Hhit. destruct (Hu (cursor r)) as [H0 _].
           apply (Qlt_irrefl 0).
           apply Qle_lt_trans with (draws r (cursor r)); [exact H0|].
           apply Qlt_le_trans with rate; assumption.
      * destruct (IH Hrest (advance 1 r)) as [out [n [Hrun [Hone Hzero]]]].
        exists out, (n + 1). rewrite Hrun, advance_advance. auto.
    + unfold bind, ret.
      destruct (IH Hrest r) as [out [n [Hrun [Hone Hzero]]]].
      exists out, n. rewrite Hrun. auto.
Qed.

(** [add_typos] makes at most one typo: its result is the text itself, or
    the text with the first occurrence of one pattern that it contains
    replaced by its misspelling.  With draws of [0, 1) and a rate of 0 or
    less the text is returned unchanged. *)
Theorem add_typos_makes_at_most_one (text : string) (rate : Q) (rng : Rng) :
  exists out n,
    Typos.add_typos text rate rng = (Ok out, advance n rng)
    /\ (out = text
        \/ exists correct typo,
             In (correct, typo) Typos.typo_patterns
             /\ PyStr.contains correct text = true
             /\ out = PyStr.replace_first correct typo text)
    /\ (uniform (draws rng) -> (rate <= 0)%Q -> out = text).
Proof.
  apply add_typos_loop_once. auto.
Qed.

(** ** The split point of a long sentence *)

Lemma find_split_spec words : forall n i k,
  Engine.find_split words i n = Some k ->
  i <= k < i + n
  /\ k < length words
  /\ PyStr.mem (nth k words "") Engine.split_marks = true
  /\ forall j, i <= j < k ->
       PyStr.mem (nth j words "") Engine.split_marks = false.
Proof.
  induction n as [|n IH]; intros i k; cbn [Engine.find_split];
    [discriminate|].
  destruct ((i <? length words)
            && PyStr.mem (nth i words "") Engine.split_marks) eqn:Hq.
  - intros H. injection H as <-.
    apply andb_prop in Hq as [Hlt Hm]. apply Nat.ltb_lt in Hlt.
    split; [lia|]. split; [exact Hlt|]. split; [exact Hm|].
    intros j Hj. lia.
  - intros H. destruct (IH (S i) k H) as [Hk [Hlen [Hm Hfirst]]].
    split; [lia|]. split; [exact Hlen|]. split; [exact Hm|].
    intros j Hj. destruct (Nat.eq_dec j i) as [->|Hne].
    + apply andb_false_iff in Hq as [Hq | Hq]; [|exact Hq].
      apply Nat.ltb_ge in Hq. lia.
    + apply Hfirst. lia.
Qed.

(** When no index of the range qualifies, no word of the range is a
    mark. *)
Lemma find_split_none words : forall n i,
  Engine.find_split words i n = None ->
  forall j, i <= j < i + n -> j < length words ->
    PyStr.mem (nth j words "") Engine.split_marks = false.
Proof.
  induction n as [|n IH]; intros i; cbn [Engine.find_split];
    [intros _ j Hj; lia|].
  destruct ((i <? length words)
            && PyStr.mem (nth i words "") Engine.split_marks) eqn:Hq;
    [discriminate|].
  intros H j Hj Hlt. destruct (Nat.eq_dec j i) as [->|Hne].
  - apply andb_false_iff in Hq as [Hq | Hq]; [|exact Hq].
    apply Nat.ltb_ge in Hq. lia.
  - apply (IH (S i) H); lia.
Qed.

(** When the cut of sentence variation fires on a sentence of more than 15
    words and its swap of clauses does not, the sentence comes back as it
    is when none of the six words around the middle is a comma token or a
    conjunction; otherwise it is cut at the first such word [k]: the words
    before [k], a period, and the words after [k] with a capital, the word
    [k] itself being dropped, and each of the two halves has at least five
    words. *)
Theorem split_point_near_the_middle
    (sentence : string) (intensity : Q) (rng : Rng) :
  15 < length (PyStr.split_ws sentence) ->
  (draws rng (cursor rng) < intensity * 0.5)%Q ->
  (intensity * 0.3 <= draws rng (1 + cursor rng))%Q ->
  let words := PyStr.split_ws sentence in
  let mid := length words / 2 in
  ((forall j, mid - 3 <= j <= mid + 2 ->
      PyStr.mem (nth j words "") Engine.split_marks = false)
   /\ fst (Engine.vary_sentence_structure sentence intensity rng)
      = Ok sentence)
  \/ (exists k,
        mid - 3 <= k <= mid + 2
        /\ PyStr.mem (nth k words "") Engine.split_marks = true
        /\ (forall j, mid - 3 <= j < k ->
              PyStr.mem (nth j words "") Engine.split_marks = false)
        /\ 5 <= length (firstn k words)
        /\ 5 <= length (skipn (k + 1) words)
        /\ fst (Engine.vary_sentence_structure sentence intensity rng)
           = Ok (PyStr.join " " (firstn k words) ++ ". "
                 ++ PyStr.capitalize
                      (PyStr.join " " (skipn (k + 1) words)))).
Proof.
  intros Hlen Hcut Hswap words mid.
  change (15 < length words) in Hlen.
  pose proof (Nat.div_mod_eq (length words) 2) as Hdiv.
  pose proof (Nat.mod_upper_bound (length words) 2 ltac:(lia)) as Hmod.
  fold mid in Hdiv.
  assert (Hrun :
            fst (Engine.vary_sentence_structure sentence intensity rng)
            = Ok (match Engine.find_split words (mid - 3) 6 with
                  | Some i =>
                      PyStr.join " " (firstn i words) ++ ". "
                      ++ PyStr.capitalize
                           (PyStr.join " " (skipn (i + 1) words))
                  | None => sentence
                  end)).
  { unfold Engine.vary_sentence_structure.
    fold words. fold mid.
    assert (Hlong : (15 <? length words) = true)
      by (apply Nat.ltb_lt; exact Hlen).
    rewrite Hlong. cbn [and_then].
    rewrite (bind_ok _ _ _ _ _ (chance_eq _ rng)).
    apply Qltb_lt in Hcut. rewrite Hcut.
    set (s' := match Engine.find_split words (mid - 3) 6 with
               | Some i => _
               | None => sentence
               end).
    destruct (PyStr.contains "," s'); cbn [and_then].
    - rewrite (bind_ok _ _ _ _ _ (chance_eq _ (advance 1 rng))).
      cbn [advance draws cursor].
      apply Qltb_ge in Hswap. rewrite Hswap. reflexivity.
    - reflexivity. }
  destruct (Engine.find_split words (mid - 3) 6) as [k|] eqn:Hfind.
  - right. exists k.
    destruct (find_split_spec _ _ _ _ Hfind) as [Hk [Hlt [Hm Hfirst]]].
    split; [lia|]. split; [exact Hm|]. split; [exact Hfirst|].
    rewrite length_firstn, length_skipn.
    split; [lia|]. split; [lia | exact Hrun].
  - left. split; [|exact Hrun].
    intros j Hj. apply (find_split_none _ _ _ Hfind); lia.
Qed.

Lemma split_point_near_the_middle_witness :
  fst (Engine.vary_sentence_structure
         "a b c d e f g h and j k l m n o p q" 1
         (Stub.rng [0.1; 0.9]%Q 0.9))
  = Ok "a b c d e f g h. J k l m n o p q".
Proof.
  destruct (split_point_near_the_middle
              "a b c d e f g h and j k l m n o p q" 1
              (Stub.rng [0.1; 0.9]%Q 0.9))
    as [[H _] | [k [_ [_ [_ [_ [_ H]]]]]]].
  - vm_compute. lia.
  - reflexivity.
  - apply Qle_bool_imp_le. reflexivity.
  - assert (H8 : 17 / 2 - 3 <= 8 <= 17 / 2 + 2) by (vm_compute; lia).
    specialize (H 8 H8). vm_compute in H. discriminate.
  - vm_compute. reflexivity.
Defined.

(** ** [FastHumanizer] *)




(** ** The batch as a sequence of single calls *)

(** The batch endpoint processes its texts one after the other on the one
    random source: when the call for the first text returns [out] and the
    batch of the remaining texts, started on the generator that this call
    left, answers with its results, the whole batch answers with the pair of
    the first text and [out] followed by those results. *)
Theorem batch_is_sequential
    (humanize : Engine.t -> string -> Q -> bool -> bool -> M string)
    (req req' : Api.BatchHumanizeRequest) (svc : Service.t) (rng rng1 : Rng)
    (h : Engine.t) (text out : string)
    (response' : Api.BatchHumanizeResponse) :
  Service.get_humanizer svc (Api.batch_mode req) = Ok (Some h) ->
  Api.batch_mode req' = Api.batch_mode req ->
  Api.batch_intensity req' = Api.batch_intensity req ->
  Api.texts req = text :: Api.texts req' ->
  humanize h text (Api.batch_intensity req) true true rng = (Ok out, rng1) ->
  fst (fst (Api.humanize_batch humanize req' svc rng1))
  = Api.Http200 response' ->
  fst (fst (Api.humanize_batch humanize req svc rng))
  = Api.Http200
      {| Api.results := (text, out) :: Api.results response';
         Api.total_texts := S (Api.total_texts response');
         Api.batch_response_mode := Api.batch_mode req |}.
Proof.
  intros Hg Hmode Hint Htexts Hfirst Hrest.
  unfold Api.humanize_batch in *.
  rewrite Hmode, Hg in Hrest. rewrite Hg. cbv zeta in *.
  rewrite Htexts. cbn [map Api.gather].
  unfold Api.process_text at 1. rewrite Hfirst.
  assert (Htasks : map (Api.process_text humanize (Some h) req')
                     (Api.texts req')
                   = map (Api.process_text humanize (Some h) req)
                       (Api.texts req')).
  { apply map_ext. intros t. unfold Api.process_text. rewrite Hint.
    reflexivity. }
  rewrite Htasks in Hrest.
  destruct (Api.gather
              (map (Api.process_text humanize (Some h) req) (Api.texts req'))
              rng1) as [[outs | e] rng2]; simpl in Hrest |- *;
    [|discriminate].
  injection Hrest as <-. simpl. reflexivity.
Qed.

Lemma batch_is_sequential_witness :
  fst (fst (Api.humanize_batch
              (Engine.humanize Stub.no_paraphrase Stub.plain_nlp Stub.similar)
              {| Api.texts := ["It is good."; "It is bad."];
                 Api.batch_mode := "fast"; Api.batch_intensity := 0 |}
              Stub.service (Stub.rng [] 0.5)))
  = Api.Http200
      {| Api.results := [("It is good.", "It is good.");
                         ("It is bad.", "It is bad.")];
         Api.total_texts := 2;
         Api.batch_response_mode := "fast" |}.
Proof.
  apply (batch_is_sequential
           (Engine.humanize Stub.no_paraphrase Stub.plain_nlp Stub.similar)
           {| Api.texts := ["It is good."; "It is bad."];
              Api.batch_mode := "fast"; Api.batch_intensity := 0 |}
           {| Api.texts := ["It is bad."];
              Api.batch_mode := "fast"; Api.batch_intensity := 0 |}
           Stub.service (Stub.rng [] 0.5) (advance 5 (Stub.rng [] 0.5))
           Stub.fast_engine "It is good." "It is good."
           {| Api.results := [("It is bad.", "It is bad.")];
              Api.total_texts := 1;
              Api.batch_response_mode := "fast" |});
    try reflexivity; vm_compute; reflexivity.
Defined.

(** ** The analysis of a text *)

Lemma split_char_aux_length sep s : forall cur,
  length (PyStr.split_char_aux sep s cur) = S (count_char sep s).
Proof.
  induction s as [|c r IH]; intros cur; simpl; [reflexivity|].
  destruct (Ascii.eqb c sep); simpl; rewrite IH; reflexivity.
Qed.

(** The sentence count that [analyze_text] reports is the number of
    periods of the text plus one: 1 for the empty text, and one more than
    the number of its sentences for a text that ends with a period. *)
Theorem analysis_counts_periods (text : string) :
  Analyze.sentence_count (Analyze.analyze_text text)
  = S (count_char "." text)
  /\ (text = EmptyString ->
      Analyze.sentence_count (Analyze.analyze_text text) = 1)
  /\ forall body,
       text = body ++ "." ->
       Analyze.sentence_count (Analyze.analyze_text text)
       = 2 + count_char "." body.
Proof.
  assert (H : Analyze.sentence_count (Analyze.analyze_text text)
              = S (count_char "." text)).
  { unfold Analyze.analyze_text. cbn [Analyze.sentence_count].
    apply split_char_aux_length. }
  split; [exact H|]. split.
  - intros ->. reflexivity.
  - intros body ->. rewrite H.
    assert (Hlast : count_char "." (body ++ ".") = S (count_char "." body)).
    { clear H. induction body as [|c r IH]; simpl; [reflexivity|].
      rewrite IH. destruct (Ascii.eqb c "."); reflexivity. }
    rewrite Hlast. reflexivity.
Qed.

(** The score that [analyze_text] reports is one of 0, 25, 50, 75 and 100,
    printed as a percentage; a high humanization is recommended exactly
    from 75, and a light touch-up exactly up to 50. *)
Theorem analysis_score_in_quarter_steps (text : string) :
  exists score,
    In score [0; 25; 50; 75; 100]
    /\ Analyze.ai_probability (Analyze.analyze_text text)
       = PyInt.format score ++ "%"
    /\ (Analyze.recommendation (Analyze.analyze_text text)
        = "High humanization needed" <-> 75 <= score)
    /\ (Analyze.recommendation (Analyze.analyze_text text)
        = "Light touch-up sufficient" <-> score <= 50).
Proof.
  unfold Analyze.analyze_text.
  cbn [Analyze.ai_probability Analyze.recommendation].
  set (v := Analyze.variance (Analyze.sentence_lengths text)).
  set (uniform := match Analyze.sentence_lengths text with
                  | [] => false
                  | _ => Qltb v 10
                  end).
  set (lack := negb (existsb (fun c => PyStr.contains c text)
                       Analyze.contractions)).
  set (found := filter _ Analyze.ai_phrases).
  unfold Analyze.ai_score.
  destruct uniform, lack, (2 <? length found), (Qltb v 5);
    (eexists; split; [|split; [reflexivity|split]]);
    try (simpl; tauto);
    try (split; [intros H; try discriminate H; simpl; lia
                | intros H; simpl in H; try lia; reflexivity]).
Qed.


Lemma isspace_not_upper c : PyStr.isspace c = true -> PyStr.is_upper c = false.
Proof.
  unfold PyStr.isspace, PyStr.is_upper. intros H.
  apply andb_false_iff. left. apply Nat.leb_gt.
  apply orb_prop in H as [H | H]; apply andb_prop in H as [_ H];
    apply Nat.leb_le in H; lia.
Qed.

Lemma lower_wordless s : wordless s = true -> PyStr.lower s = s.
Proof.
  induction s as [|c r IH]; simpl; [reflexivity|].
  intros H. apply andb_prop in H as [Hc Hr]. rewrite (IH Hr).
  unfold PyStr.lower_char.
  apply orb_prop in Hc as [Hc | Hc].
  - rewrite (isspace_not_upper _ Hc). reflexivity.
  - apply Ascii.eqb_eq in Hc. subst c. reflexivity.
Qed.

(** A piece that starts with a character other than white space and the
    period does not occur in a wordless text. *)
Lemma contains_wordless a p s :
  PyStr.isspace a = false -> Ascii.eqb a "." = false ->
  wordless s = true -> PyStr.contains (String a p) s = false.
Proof.
  intros Ha1 Ha2. induction s as [|c r IH]; intros H; [reflexivity|].
  simpl in H. apply andb_prop in H as [Hc Hr].
  cbn [PyStr.contains prefix].
  destruct (ascii_dec a c) as [->|_]; [|apply IH, Hr].
  rewrite Ha1, Ha2 in Hc. discriminate.
Qed.

Lemma wordless_rev_onto s : forall acc,
  wordless s = true -> wordless acc = true ->
  wordless (PyStr.rev_onto s acc) = true.
Proof.
  induction s as [|c r IH]; intros acc Hs Ha; simpl in *; [exact Ha|].
  apply andb_prop in Hs as [Hc Hr]. apply IH; [exact Hr|].
  simpl. rewrite Hc, Ha. reflexivity.
Qed.

(** The pieces between the periods of a wordless text are blank. *)
Lemma split_period_wordless s : forall cur,
  wordless s = true -> blank cur = true ->
  Forall (fun piece => blank piece = true)
    (PyStr.split_char_aux "." s cur).
Proof.
  assert (Hrev : forall cur, blank cur = true -> blank (PyStr.rev cur) = true).
  { intros cur H. unfold PyStr.rev. rewrite blank_rev_onto, H. reflexivity. }
  induction s as [|c r IH]; intros cur Hs Hcur; simpl.
  - constructor; [apply Hrev, Hcur | constructor].
  - simpl in Hs. apply andb_prop in Hs as [Hc Hr].
    destruct (Ascii.eqb c ".") eqn:Hdot.
    + constructor; [apply Hrev, Hcur | apply IH; auto].
    + apply IH; [exact Hr|]. simpl.
      rewrite orb_false_r in Hc. rewrite Hc, Hcur. reflexivity.
Qed.

Lemma sentence_lengths_wordless text :
  wordless text = true -> Analyze.sentence_lengths text = [].
Proof.
  intros H. unfold Analyze.sentence_lengths, PyStr.split_char.
  pose proof (split_period_wordless text "" H eq_refl) as Hall.
  induction Hall as [|piece rest Hp _ IH]; [reflexivity|].
  simpl. rewrite (strip_blank _ Hp). exact IH.
Qed.

(** A text without any word (the empty text, white space, periods) is
    scored 50%: no sentence is found, so its sentences are not reported
    uniform, but the low-variance test and the lack of contractions count
    25 each; the recommendation is a light touch-up. *)
Theorem wordless_text_scores_fifty (text : string) :
  wordless text = true ->
  Analyze.ai_probability (Analyze.analyze_text text) = "50%"
  /\ Analyze.uniform_sentence_length
       (Analyze.ai_patterns_detected (Analyze.analyze_text text)) = false
  /\ Analyze.lack_of_contractions
       (Analyze.ai_patterns_detected (Analyze.analyze_text text)) = true
  /\ Analyze.recommendation (Analyze.analyze_text text)
     = "Light touch-up sufficient".
Proof.
  intros H.
  assert (Hlack : existsb (fun c => PyStr.contains c text)
                    Analyze.contractions = false).
  { unfold Analyze.contractions. simpl.
    rewrite !(contains_wordless "'" _ text eq_refl eq_refl H). reflexivity. }
  assert (Hfound : filter (fun phrase =>
                             PyStr.contains phrase (PyStr.lower text))
                     Analyze.ai_phrases = []).
  { rewrite (lower_wordless _ H). unfold Analyze.ai_phrases. simpl.
    rewrite !(contains_wordless "i" _ text eq_refl eq_refl H),
            !(contains_wordless "f" _ text eq_refl eq_refl H),
            !(contains_wordless "m" _ text eq_refl eq_refl H),
            !(contains_wordless "n" _ text eq_refl eq_refl H).
    reflexivity. }
  unfold Analyze.analyze_text.
  cbn [Analyze.ai_probability Analyze.recommendation
       Analyze.ai_patterns_detected Analyze.uniform_sentence_length
       Analyze.lack_of_contractions].
  rewrite (sentence_lengths_wordless _ H), Hlack, Hfound.
  repeat split.
Qed.

Lemma wordless_text_scores_fifty_witness :
  Analyze.ai_probability (Analyze.analyze_text " . . ") = "50%"
  /\ Analyze.uniform_sentence_length
       (Analyze.ai_patterns_detected (Analyze.analyze_text " . . ")) = false
  /\ Analyze.lack_of_contractions
       (Analyze.ai_patterns_detected (Analyze.analyze_text " . . ")) = true
  /\ Analyze.recommendation (Analyze.analyze_text " . . ")
     = "Light touch-up sufficient".
Proof.
  apply (wordless_text_scores_fifty " . . "). reflexivity.
Defined.

(** ** An empty override *)

(** An empty technique list is no override: when a request that carries
    one is not answered from the cache (it asks for no caching, or the cache
    holds nothing for its key), the engine of the tier keeps its technique
    list, the call runs it, and the response reports the techniques of the
    tier. *)
Theorem empty_override_is_ignored
    (humanize : Engine.t -> string -> Q -> bool -> bool -> M string)
    (score : string -> string -> option Q)
    (entry : option Api.HumanizeResponse) (req : Api.HumanizeRequest)
    (svc : Service.t) (rng : Rng) (h : Engine.t) :
  cache_miss entry req ->
  Service.get_humanizer svc (Api.mode req) = Ok (Some h) ->
  Api.techniques req = Some [] ->
  let after := Api.humanize_text humanize score entry req svc rng in
  (exists h1,
      Service.get_humanizer (snd (fst after)) (Api.mode req) = Ok (Some h1)
      /\ Engine.techniques h1 = Engine.techniques h)
  /\ fst after
     = (match fst (Api.respond humanize score h req rng) with
        | Ok response => Api.Http200 response
        | Raise e => Api.http_of_exn e
        end,
        Service.update svc (Api.mode req) (Engine.load_models h))
  /\ forall response,
       fst (fst after) = Api.Http200 response ->
       Api.techniques_applied response = Engine.techniques h.
Proof.
  intros Hc Hg Ht after. unfold after.
  rewrite (humanize_text_past_cache humanize score entry req svc rng h Hc Hg).
  rewrite Ht. cbn [fst snd]. split; [|split].
  - eexists. split; [eapply get_humanizer_update; exact Hg | reflexivity].
  - reflexivity.
  - intros response.
    destruct (Api.respond humanize score h req rng) as [[r | e] rng'] eqn:Hr;
      cbn [fst].
    + intros H. injection H as <-. apply (respond_techniques _ _ _ _ _ _ _ Hr).
    + destruct e; discriminate.
Qed.

Lemma empty_override_is_ignored_witness :
  (exists h1,
      Service.get_humanizer
        (snd (fst (Api.humanize_text
                     (Engine.humanize Stub.no_paraphrase Stub.plain_nlp
                        Stub.similar) Stub.no_score None
                     {| Api.text := "It is good."; Api.mode := "fast";
                        Api.intensity := 0.7; Api.preserve_meaning := false;
                        Api.techniques := Some []; Api.cache := true |}
                     Stub.service (Stub.rng [] 0.05))))
        "fast" = Ok (Some h1)
      /\ Engine.techniques h1 = Engine.techniques Stub.fast_engine)
  /\ fst (fst (Api.humanize_text
                 (Engine.humanize Stub.no_paraphrase Stub.plain_nlp
                    Stub.similar) Stub.no_score None
                 {| Api.text := "It is good."; Api.mode := "fast";
                    Api.intensity := 0.7; Api.preserve_meaning := false;
                    Api.techniques := Some []; Api.cache := true |}
                 Stub.service (Stub.rng [] 0.05)))
     = Api.Http200
         {| Api.original_text := "It is good.";
            Api.humanized_text := "I'd say, it is good.";
            Api.response_mode := "fast";
            Api.techniques_applied := ["sentence_variation"; "human_patterns"];
            Api.similarity_score := None;
            Api.cached := false |}.
Proof.
  split.
  - apply (empty_override_is_ignored
             (Engine.humanize Stub.no_paraphrase Stub.plain_nlp Stub.similar)
             Stub.no_score None
             {| Api.text := "It is good."; Api.mode := "fast";
                Api.intensity := 0.7; Api.preserve_meaning := false;
                Api.techniques := Some []; Api.cache := true |}
             Stub.service (Stub.rng [] 0.05) Stub.fast_engine).
    + right. reflexivity.
    + reflexivity.
    + reflexivity.
  - vm_compute. reflexivity.
Defined.
